(** * Battery thermal model: heat-flow primitives, network builder and
      the per-timestep simulation engine

    Shallow embedding of [src/Battery/battery_thermal_model.py].

    Numbers.  The Python code computes with binary64 floats.  Here a float
    is an exact rational in canonical form ([Qc]), so [+], [-], [*] and
    powers are the exact field operations; rounding, overflow, infinities
    and NaN are outside the model.  A division whose divisor is zero raises
    [ZeroDivisionError], as Python does and as numba does in its default
    error model.

    Tables.  The engine receives one numpy array per column, all of the
    length of the input frame, and iteration [i] of its loop reads and
    writes slot [i] of each array and no other.  A table is therefore a
    list of rows; a row carries the three read-only inputs of the
    timestep and one cell per mutable column. *)

From Stdlib Require Import QArith Qcanon ZArith List Bool Lia.
From Stdlib Require PrimFloat.
Import ListNotations.

Open Scope Qc_scope.

(** ** Exceptions *)

Inductive exn : Type :=
| ZeroDivisionError
| IndexError
| TypeError
| ValueError.

Inductive result (A : Type) : Type :=
| Ok (a : A)
| Raise (e : exn).

Arguments Ok {A} a.
Arguments Raise {A} e.

Definition bind {A B : Type} (m : result A) (k : A -> result B) : result B :=
  match m with
  | Ok a => k a
  | Raise e => Raise e
  end.

Arguments bind {A B} m k : simpl never.

Notation "x <- m ;; k" := (bind m (fun x => k))
  (at level 61, m at next level, right associativity).
Notation "' p <- m ;; k" := (bind m (fun p => k))
  (at level 61, p pattern, m at next level, right associativity).

(** ** Comparisons and division on floats *)

Definition Qc_eqb (x y : Qc) : bool :=
  match x ?= y with Eq => true | _ => false end.

Definition Qc_ltb (x y : Qc) : bool :=
  match x ?= y with Lt => true | _ => false end.

Definition Qc_leb (x y : Qc) : bool :=
  match x ?= y with Gt => false | _ => true end.

(** Python's [x / y] on floats. *)
Definition fdiv (x y : Qc) : result Qc :=
  if Qc_eqb y 0 then Raise ZeroDivisionError else Ok (x / y).

(** Decimal literals of the source. *)
Definition dec (q : Q) : Qc := Q2Qc q.

(** ** Heat-flow primitives *)

(** [calculate_convective_resistance], lines 9-23: R = 1 / (h * A). *)
Definition calculate_convective_resistance
    (heat_transfer_coefficient area_m2 : Qc) : result Qc :=
  fdiv 1 (heat_transfer_coefficient * area_m2).

(** [calculate_conductive_resistance], lines 26-43: R = d / (k * A). *)
Definition calculate_conductive_resistance
    (thickness_m thermal_conductivity area_m2 : Qc) : result Qc :=
  fdiv thickness_m (thermal_conductivity * area_m2).

(** An entry of a material list: a tuple of floats, or [None]. *)
Inductive pyobj : Type :=
| PyNone
| PyTuple (items : list Qc).

(** [for thickness_m, thermal_conductivity, _, _, _ in materials]:
    unpacking [None] is a [TypeError], a tuple of another arity a
    [ValueError]. *)
Definition unpack5 (o : pyobj) : result (Qc * Qc * Qc * Qc * Qc) :=
  match o with
  | PyNone => Raise TypeError
  | PyTuple [a; b; c; d; e] => Ok (a, b, c, d, e)
  | PyTuple _ => Raise ValueError
  end.

(** [calculate_composite_conductive_resistance], lines 46-67; the loop
    carries [total_resistance]. *)
Fixpoint composite_loop (materials : list pyobj) (area_m2 total_resistance : Qc)
    : result Qc :=
  match materials with
  | [] => Ok total_resistance
  | m :: rest =>
      '(thickness_m, thermal_conductivity, _, _, _) <- unpack5 m ;;
      resistance <- fdiv thickness_m (thermal_conductivity * area_m2) ;;
      composite_loop rest area_m2 (total_resistance + resistance)
  end.

Definition calculate_composite_conductive_resistance
    (materials : list pyobj) (area_m2 : Qc) : result Qc :=
  composite_loop materials area_m2 0.

(** [calculate_heat_energy_flow], lines 70-89. *)
Definition calculate_heat_energy_flow
    (internal_temperature external_temperature thermal_resistance
     duration_seconds : Qc) : result Qc :=
  let delta_temperature := internal_temperature - external_temperature in
  power_watts <- fdiv delta_temperature thermal_resistance ;;
  Ok (power_watts * duration_seconds).

Definition stefan_boltzmann_constant : Qc := dec 5.67e-8.
Definition kelvin_offset : Qc := dec 273.15.

(** [calculate_inner_radiative_heat_flow], lines 92-141. *)
Definition calculate_inner_radiative_heat_flow
    (surface_area_inner surface_area_outer emissivity_inner emissivity_outer
     temperature_inner_c temperature_outer_c duration_seconds : Qc)
    : result Qc :=
  let temperature_inner_k := temperature_inner_c + kelvin_offset in
  let temperature_outer_k := temperature_outer_c + kelvin_offset in
  inv_inner <- fdiv 1 emissivity_inner ;;
  area_ratio <- fdiv surface_area_inner surface_area_outer ;;
  inv_outer <- fdiv 1 emissivity_outer ;;
  effective_emissivity <- fdiv 1 (inv_inner + area_ratio * (inv_outer - 1)) ;;
  let power_watts :=
    stefan_boltzmann_constant * effective_emissivity * surface_area_inner
    * (temperature_inner_k ^ 4 - temperature_outer_k ^ 4) in
  Ok (power_watts * duration_seconds).

(** [calculate_outer_radiative_heat_flow], lines 144-177. *)
Definition calculate_outer_radiative_heat_flow
    (surface_area emissivity temperature_inner_c temperature_outer_c
     duration_seconds : Qc) : Qc :=
  let temperature_inner_k := temperature_inner_c + kelvin_offset in
  let temperature_outer_k := temperature_outer_c + kelvin_offset in
  let power_watts :=
    stefan_boltzmann_constant * emissivity * surface_area
    * (temperature_inner_k ^ 4 - temperature_outer_k ^ 4) in
  power_watts * duration_seconds.

(** [calc_change_in_temperature_c], lines 254-272. *)
Definition calc_change_in_temperature_c
    (initial_temp heat_energy heat_capacity mass : Qc) : result Qc :=
  delta_temp <- fdiv heat_energy (heat_capacity * mass) ;;
  Ok (initial_temp + delta_temp).

(** ** Thermal network builder *)

(** [xs[i]] on a list: out of range is an [IndexError]. *)
Definition list_item (xs : list pyobj) (i : nat) : result pyobj :=
  match nth_error xs i with
  | Some o => Ok o
  | None => Raise IndexError
  end.

(** [o[i]] on a list entry: [None] is not subscriptable. *)
Definition tuple_item (o : pyobj) (i : nat) : result Qc :=
  match o with
  | PyNone => Raise TypeError
  | PyTuple items =>
      match nth_error items i with
      | Some x => Ok x
      | None => Raise IndexError
      end
  end.

(** Truth value of a list entry: [None] and the empty tuple are false. *)
Definition truthy (o : pyobj) : bool :=
  match o with
  | PyNone => false
  | PyTuple [] => false
  | PyTuple (_ :: _) => true
  end.

(** [if not array: array = [0, 1, 1, 1, 1, 1]]. *)
Definition default_transfer_array (array : option (list Z)) : list Z :=
  match array with
  | None | Some [] => [0; 1; 1; 1; 1; 1]%Z
  | Some a => a
  end.

(** The tuple returned by [calculate_battery_box_parameters]. *)
Record Network : Type := mkNetwork {
  net_box_wall_mass_kg : Qc;
  net_box_heat_capacity : Qc;
  net_battery_conductive_resistance : Qc;
  net_battery_convective_resistance : Qc;
  net_box_inner_convective_resistance : Qc;
  net_box_composite_conductive_resistance : Qc;
  net_box_outer_conductive_resistance : Qc;
  net_box_outer_convective_resistance : Qc;
  net_total_box_area : Qc;
  net_total_battery_area : Qc
}.

Section Builder.

(** [Battery.battery_model_functions.calculate_heat_transfer_areas] is
    imported by the module but its source is not part of the tree; the
    builder is parametric in it.  It returns, in this order, the battery
    conductive and convective areas, the air convective area and the box
    conductive and convective areas. *)
Variable calculate_heat_transfer_areas :
  Qc -> Qc -> Qc -> Qc -> Qc -> Qc -> list Z -> list Z ->
  result (Qc * Qc * Qc * Qc * Qc).

(** [calculate_battery_box_parameters], lines 275-388. *)
Definition calculate_battery_box_parameters
    (battery_length battery_width battery_height
     box_length box_width box_height : Qc)
    (battery_transfer_array box_transfer_array : option (list Z))
    (material_list : list pyobj) : result Network :=
  let battery_transfer_array := default_transfer_array battery_transfer_array in
  let box_transfer_array := default_transfer_array box_transfer_array in
  '(battery_conductive_area, battery_convective_area, air_convective_area,
    box_conductive_area, box_convective_area) <-
      calculate_heat_transfer_areas
        battery_length battery_width battery_height
        box_length box_width box_height
        battery_transfer_array box_transfer_array ;;
  let total_box_area := box_conductive_area + box_convective_area in
  let total_battery_area := battery_conductive_area + battery_convective_area in
  m0 <- list_item material_list 0 ;;
  outer_material_thermal_conductivity <- tuple_item m0 0 ;;
  m0 <- list_item material_list 0 ;;
  outer_material_layer_thickness <- tuple_item m0 1 ;;
  m0 <- list_item material_list 0 ;;
  outer_material_heat_capacity <- tuple_item m0 2 ;;
  m0 <- list_item material_list 0 ;;
  outer_material_density <- tuple_item m0 3 ;;
  m1 <- list_item material_list 1 ;;
  '(outer_material_layer_thickness,
    inner_material_thermal_conductivity, inner_material_layer_thickness,
    inner_material_heat_capacity, inner_material_density) <-
    (if truthy m1 then
       m1 <- list_item material_list 1 ;;
       inner_material_thermal_conductivity <- tuple_item m1 0 ;;
       m1 <- list_item material_list 1 ;;
       inner_material_layer_thickness <- tuple_item m1 1 ;;
       m1 <- list_item material_list 1 ;;
       inner_material_heat_capacity <- tuple_item m1 2 ;;
       m1 <- list_item material_list 1 ;;
       inner_material_density <- tuple_item m1 3 ;;
       Ok (outer_material_layer_thickness,
           inner_material_thermal_conductivity,
           inner_material_layer_thickness,
           inner_material_heat_capacity, inner_material_density)
     else
       let outer_material_layer_thickness :=
         outer_material_layer_thickness / dec 2 in
       Ok (outer_material_layer_thickness,
           outer_material_thermal_conductivity,
           outer_material_layer_thickness,
           outer_material_heat_capacity, outer_material_density)) ;;
  let box_wall_mass_kg :=
    (total_box_area / dec 2 * inner_material_density
     * inner_material_layer_thickness)
    + (total_box_area / dec 2 * outer_material_density)
      * outer_material_layer_thickness in
  let box_heat_capacity :=
    (inner_material_heat_capacity + outer_material_heat_capacity) / dec 2 in
  battery_conductive_resistance <-
    calculate_conductive_resistance
      inner_material_layer_thickness inner_material_thermal_conductivity
      battery_conductive_area ;;
  battery_convective_resistance <-
    calculate_convective_resistance (dec 5) battery_convective_area ;;
  box_inner_convective_resistance <-
    calculate_convective_resistance (dec 5) air_convective_area ;;
  box_composite_conductive_resistance <-
    calculate_composite_conductive_resistance material_list total_box_area ;;
  box_outer_conductive_resistance <-
    calculate_conductive_resistance
      outer_material_layer_thickness outer_material_thermal_conductivity
      box_conductive_area ;;
  box_outer_convective_resistance <-
    calculate_convective_resistance (dec 5) box_convective_area ;;
  Ok (mkNetwork
        box_wall_mass_kg box_heat_capacity battery_conductive_resistance
        battery_convective_resistance box_inner_convective_resistance
        box_composite_conductive_resistance
        box_outer_conductive_resistance box_outer_convective_resistance
        total_box_area total_battery_area).

End Builder.

(** ** Tables of the simulation engine *)

(** The mutable arrays handed to [jit_battery_energy_flow_model], under
    the names of its parameters. *)
Inductive column : Type :=
| battery_temp
| box_inner_temp
| box_outer_temp
| battery_heater_input
| battery_losses_input
| battery_net_energy
| battery_cond_to_box_inner_energy
| battery_conv_to_box_inner_energy
| battery_radi_to_box_inner_energy
| heater_to_battery_energy
| heater_to_box_inner_energy
| box_inner_net_energy
| box_inner_cond_to_battery_energy
| box_inner_conv_to_battery_energy
| box_inner_radi_to_battery_energy
| box_inner_to_box_outer_energy
| box_outer_net_energy
| box_outer_to_box_inner_energy
| box_outer_cond_to_environment_energy
| box_outer_conv_to_environment_energy
| box_outer_radi_to_environment_energy
| box_outer_cond_from_environment_energy
| box_outer_conv_from_environment_energy
| box_outer_radi_from_environment_energy.

Definition column_eq_dec (c d : column) : {c = d} + {c <> d}.
Proof. decide equality. Defined.

(** Slot [i] of every array: the read-only inputs and the mutable cells. *)
Record Row : Type := mkRow {
  datetime_temp : Z;
  amb_temp : Qc;
  humidity : Qc;
  cell : column -> Qc
}.

(** [array[i] = v]. *)
Definition set_cell (r : Row) (c : column) (v : Qc) : Row :=
  mkRow (datetime_temp r) (amb_temp r) (humidity r)
        (fun d => if column_eq_dec d c then v else cell r d).

(** [array[i] += v]. *)
Definition add_cell (r : Row) (c : column) (v : Qc) : Row :=
  set_cell r c (cell r c + v).

(** The scalar parameters of [jit_battery_energy_flow_model]. *)
Record Params : Type := mkParams {
  bucket_period_seconds : Qc;
  battery_mass_kg : Qc;
  battery_heat_capacity : Qc;
  total_battery_area : Qc;
  box_wall_mass_kg : Qc;
  box_heat_capacity : Qc;
  total_box_area : Qc;
  battery_conductive_resistance : Qc;
  battery_convective_resistance : Qc;
  box_composite_conductive_resistance : Qc;
  box_outer_conductive_resistance : Qc;
  box_outer_convective_resistance : Qc;
  heater_threshold_temp_c : Qc;
  use_heater : bool;
  heater_power_j : Qc;
  heater_battery_transfer : Qc;
  heater_time_minutes : Qc;
  battery_emissivity : Qc;
  box_inner_emissivity : Qc;
  box_outer_emissivity : Qc;
  battery_throughput_losses : Qc
}.

(** The loop-carried variables of the engine. *)
Record State : Type := mkState {
  battery_temp_c : Qc;
  box_inner_temp_c : Qc;
  box_outer_temp_c : Qc;
  heater_on : bool;
  heater_counter : Z
}.

(** An integer counter compared with a float. *)
Definition of_int (z : Z) : Qc := Q2Qc (inject_Z z).

Definition with_heater (s : State) (on : bool) (counter : Z) : State :=
  mkState (battery_temp_c s) (box_inner_temp_c s) (box_outer_temp_c s)
          on counter.

Definition with_battery_inner (s : State) (battery inner : Qc) : State :=
  mkState battery inner (box_outer_temp_c s) (heater_on s) (heater_counter s).

Definition with_inner_outer (s : State) (inner outer : Qc) : State :=
  mkState (battery_temp_c s) inner outer (heater_on s) (heater_counter s).

Definition with_outer (s : State) (outer : Qc) : State :=
  mkState (battery_temp_c s) (box_inner_temp_c s) outer
          (heater_on s) (heater_counter s).

(** ** The body of the engine's loop, lines 738-899

    The body is one straight sequence; it is cut here at its blank-line
    paragraphs so that the intermediate temperatures have names. *)

(** Lines 740-745: dwell bookkeeping. *)
Definition heater_dwell (p : Params) (s : State) : State :=
  if heater_on s then
    if Qc_ltb (of_int (heater_counter s)) (heater_time_minutes p)
    then with_heater s (heater_on s) (heater_counter s + 1)
    else with_heater s false 0
  else s.

(** Lines 753-755: trigger check. *)
Definition heater_trigger (p : Params) (s : State) : State :=
  if Qc_leb (box_inner_temp_c s) (heater_threshold_temp_c p) && use_heater p
  then with_heater s true 0
  else s.

(** Lines 757-778: heater injection. *)
Definition heater_injection (p : Params) (s : State) (r : Row)
    : result (State * Row) :=
  if use_heater p && heater_on s then
    let heater_battery_energy_j := heater_power_j p * heater_battery_transfer p in
    let heater_wall_energy_j := heater_power_j p * (1 - heater_battery_transfer p) in
    let r := add_cell r battery_heater_input (heater_power_j p) in
    let r := add_cell r battery_losses_input
               (heater_power_j p * battery_throughput_losses p) in
    let battery_losses_input_energy_j := cell r battery_losses_input in
    let battery_total_heating_losses_energy_j :=
      battery_losses_input_energy_j + heater_battery_energy_j in
    let r := add_cell r battery_net_energy battery_total_heating_losses_energy_j in
    let r := add_cell r box_inner_net_energy heater_wall_energy_j in
    let r := add_cell r heater_to_battery_energy heater_battery_energy_j in
    let r := add_cell r heater_to_box_inner_energy heater_wall_energy_j in
    battery <- calc_change_in_temperature_c
                 (battery_temp_c s) battery_total_heating_losses_energy_j
                 (battery_heat_capacity p) (battery_mass_kg p) ;;
    inner <- calc_change_in_temperature_c
               (box_inner_temp_c s) heater_wall_energy_j
               (box_heat_capacity p) (box_wall_mass_kg p) ;;
    Ok (mkState battery inner (box_outer_temp_c s)
                (heater_on s) (heater_counter s + 1), r)
  else Ok (s, r).

(** Lines 784-801: battery to inner wall, conduction. *)
Definition battery_conduction (p : Params) (s : State) (r : Row)
    : result (State * Row) :=
  if Qc_ltb (heater_threshold_temp_c p) (box_inner_temp_c s) then
    q <- calculate_heat_energy_flow
           (battery_temp_c s) (box_inner_temp_c s)
           (battery_conductive_resistance p) (bucket_period_seconds p) ;;
    let r := add_cell r battery_cond_to_box_inner_energy q in
    let r := add_cell r battery_net_energy (- q) in
    let r := add_cell r box_inner_cond_to_battery_energy (- q) in
    let r := add_cell r box_inner_net_energy q in
    battery <- calc_change_in_temperature_c
                 (battery_temp_c s) (- q)
                 (battery_heat_capacity p) (battery_mass_kg p) ;;
    inner <- calc_change_in_temperature_c
               (box_inner_temp_c s) q
               (box_heat_capacity p) (box_wall_mass_kg p) ;;
    Ok (with_battery_inner s battery inner, r)
  else Ok (s, r).

(** Lines 803-820: battery to inner wall, convection. *)
Definition battery_convection (p : Params) (s : State) (r : Row)
    : result (State * Row) :=
  q <- calculate_heat_energy_flow
         (battery_temp_c s) (box_inner_temp_c s)
         (battery_convective_resistance p) (bucket_period_seconds p) ;;
  battery <- calc_change_in_temperature_c
               (battery_temp_c s) (- q)
               (battery_heat_capacity p) (battery_mass_kg p) ;;
  inner <- calc_change_in_temperature_c
             (box_inner_temp_c s) q
             (box_heat_capacity p) (box_wall_mass_kg p) ;;
  let r := add_cell r battery_conv_to_box_inner_energy q in
  let r := add_cell r battery_net_energy (- q) in
  let r := add_cell r box_inner_conv_to_battery_energy (- q) in
  let r := add_cell r box_inner_net_energy q in
  Ok (with_battery_inner s battery inner, r).

(** Lines 823-840: battery to inner wall, radiation. *)
Definition battery_radiation (p : Params) (s : State) (r : Row)
    : result (State * Row) :=
  q <- calculate_inner_radiative_heat_flow
         (total_battery_area p) (total_box_area p)
         (battery_emissivity p) (box_inner_emissivity p)
         (battery_temp_c s) (box_inner_temp_c s) (bucket_period_seconds p) ;;
  battery <- calc_change_in_temperature_c
               (battery_temp_c s) (- q)
               (battery_heat_capacity p) (battery_mass_kg p) ;;
  inner <- calc_change_in_temperature_c
             (box_inner_temp_c s) q
             (box_heat_capacity p) (box_wall_mass_kg p) ;;
  let r := add_cell r battery_radi_to_box_inner_energy q in
  let r := add_cell r battery_net_energy (- q) in
  let r := add_cell r box_inner_radi_to_battery_energy (- q) in
  let r := add_cell r box_inner_net_energy q in
  Ok (with_battery_inner s battery inner, r).

(** Lines 843-861: inner wall to outer wall, conduction. *)
Definition wall_conduction (p : Params) (s : State) (r : Row)
    : result (State * Row) :=
  q <- calculate_heat_energy_flow
         (box_inner_temp_c s) (box_outer_temp_c s)
         (box_composite_conductive_resistance p) (bucket_period_seconds p) ;;
  let r := add_cell r box_inner_to_box_outer_energy q in
  let r := add_cell r box_inner_net_energy (- q) in
  let r := add_cell r box_outer_to_box_inner_energy (- q) in
  let r := add_cell r box_outer_net_energy q in
  inner <- calc_change_in_temperature_c
             (box_inner_temp_c s) (- q)
             (box_heat_capacity p) (box_wall_mass_kg p) ;;
  outer <- calc_change_in_temperature_c
             (box_outer_temp_c s) q
             (box_heat_capacity p) (box_wall_mass_kg p) ;;
  Ok (with_inner_outer s inner outer, r).

(** Lines 864-892: outer wall to the environment. *)
Definition environment_losses (p : Params) (s : State) (r : Row)
    : result (State * Row) :=
  let ambient_temperature := amb_temp r in
  conv <- calculate_heat_energy_flow
            (box_outer_temp_c s) ambient_temperature
            (box_outer_convective_resistance p) (bucket_period_seconds p) ;;
  cond <- calculate_heat_energy_flow
            (box_outer_temp_c s) ambient_temperature
            (box_outer_conductive_resistance p) (bucket_period_seconds p) ;;
  let radi := calculate_outer_radiative_heat_flow
                (total_box_area p) (box_outer_emissivity p)
                (box_outer_temp_c s) ambient_temperature
                (bucket_period_seconds p) in
  let outer_wall_total_flow_to_environment_j := conv + cond + radi in
  outer <- calc_change_in_temperature_c
             (box_outer_temp_c s) (- outer_wall_total_flow_to_environment_j)
             (box_heat_capacity p) (box_wall_mass_kg p) ;;
  let r := add_cell r box_outer_conv_to_environment_energy conv in
  let r := add_cell r box_outer_conv_from_environment_energy (- conv) in
  let r := add_cell r box_outer_cond_to_environment_energy cond in
  let r := add_cell r box_outer_cond_from_environment_energy (- cond) in
  let r := add_cell r box_outer_radi_to_environment_energy radi in
  let r := add_cell r box_outer_radi_from_environment_energy (- radi) in
  let r := add_cell r box_outer_net_energy
             outer_wall_total_flow_to_environment_j in
  Ok (with_outer s outer, r).

(** Lines 897-899: the temperatures of the timestep are stored. *)
Definition record_temperatures (s : State) (r : Row) : Row :=
  let r := set_cell r battery_temp (battery_temp_c s) in
  let r := set_cell r box_inner_temp (box_inner_temp_c s) in
  set_cell r box_outer_temp (box_outer_temp_c s).

(** The heater paragraphs of one iteration, lines 740-778. *)
Definition heater_phase (p : Params) (s : State) (r : Row)
    : result (State * Row) :=
  heater_injection p (heater_trigger p (heater_dwell p s)) r.

(** Lines 740-861: the heater and the exchanges inside the box, up to the
    conduction through the wall. *)
Definition interior_flows (p : Params) (s : State) (r : Row)
    : result (State * Row) :=
  '(s, r) <- heater_phase p s r ;;
  '(s, r) <- battery_conduction p s r ;;
  '(s, r) <- battery_convection p s r ;;
  '(s, r) <- battery_radiation p s r ;;
  wall_conduction p s r.

(** One iteration of the loop. *)
Definition timestep (p : Params) (s : State) (r : Row)
    : result (State * Row) :=
  '(s, r) <- interior_flows p s r ;;
  '(s, r) <- environment_losses p s r ;;
  Ok (s, record_temperatures s r).

(** [for i in range(len(datetime_temp))]. *)
Fixpoint engine_loop (p : Params) (s : State) (rows : list Row)
    : result (list Row) :=
  match rows with
  | [] => Ok []
  | r :: rest =>
      '(s', r') <- timestep p s r ;;
      rest' <- engine_loop p s' rest ;;
      Ok (r' :: rest')
  end.

(** Lines 729-735: the loop-carried variables before the first iteration. *)
Definition initial_state (r0 : Row) : State :=
  mkState (cell r0 battery_temp) (cell r0 box_inner_temp)
          (cell r0 box_outer_temp) false 0.

(** [jit_battery_energy_flow_model], lines 673-929.  The function is
    compiled with [@njit], which checks no array bound: on empty arrays
    the reads of slot 0 (lines 729-731) raise nothing, the loop body
    never runs and the arrays are returned as they are. *)
Definition jit_battery_energy_flow_model (p : Params) (rows : list Row)
    : result (list Row) :=
  match rows with
  | [] => Ok []
  | r0 :: _ => engine_loop p (initial_state r0) rows
  end.

(** The state with which iteration [i] starts, for a run on [rows]. *)
Fixpoint state_after (p : Params) (s : State) (rows : list Row) (i : nat)
    : result State :=
  match i, rows with
  | O, _ => Ok s
  | S j, r :: rest => '(s', _) <- timestep p s r ;; state_after p s' rest j
  | S _, [] => Raise IndexError
  end.

(** The state with which iteration [i] of a run of the engine starts. *)
Definition state_at (p : Params) (rows : list Row) (i : nat) : result State :=
  match rows with
  | [] => Raise IndexError
  | r0 :: _ => state_after p (initial_state r0) rows i
  end.

(** ** The driver, [calculate_net_energy_flows], lines 394-670 *)

(** A row of the input frame [tmy_data_df]. *)
Record TmyRow : Type := mkTmyRow {
  Datetime : Z;
  Ambient_Temperature_C : Qc;
  Relative_Humidity_Perc : Qc;
  Energy_Use_kWh : Qc
}.

(** The keyword arguments of [calculate_net_energy_flows]. *)
Record Config : Type := mkConfig {
  cfg_box_length : Qc;
  cfg_box_width : Qc;
  cfg_box_height : Qc;
  cfg_battery_length : Qc;
  cfg_battery_width : Qc;
  cfg_battery_height : Qc;
  cfg_battery_heat_capacity : Qc;
  cfg_battery_mass_kg : Qc;
  cfg_battery_losses_perc : Qc;
  cfg_heater_threshold_temp_c : Qc;
  cfg_use_heater : bool;
  cfg_heater_power_w : Qc;
  cfg_heater_time_minutes : Qc;
  cfg_heater_battery_transfer : Qc;
  cfg_battery_transfer_array : option (list Z);
  cfg_box_transfer_array : option (list Z);
  cfg_material_list : list pyobj;
  cfg_bucket_period_seconds : Qc;
  cfg_battery_emissivity : Qc;
  cfg_box_inner_emissivity : Qc;
  cfg_box_outer_emissivity : Qc;
  cfg_battery_throughput_losses : Qc
}.

(** Lines 474-530: the arrays of slot [i] before the engine runs.  The
    three temperature columns hold the first ambient sample, the ledger
    columns hold 0.0, and [battery_losses_input] and [battery_net_energy]
    are two separate copies of the column [Battery_Losses_Input_J]. *)
Definition initial_cells (initial_temperature losses : Qc) (c : column) : Qc :=
  match c with
  | battery_temp | box_inner_temp | box_outer_temp => initial_temperature
  | battery_losses_input | battery_net_energy => losses
  | _ => 0
  end.

Definition model_row (c : Config) (initial_temperature : Qc) (t : TmyRow) : Row :=
  mkRow (Datetime t) (Ambient_Temperature_C t) (Relative_Humidity_Perc t)
        (initial_cells initial_temperature
           (Energy_Use_kWh t * dec 3600000 * cfg_battery_losses_perc c)).

(** Lines 611-632: the scalars handed to the engine. *)
Definition engine_params (c : Config) (n : Network) : Params :=
  mkParams
    (cfg_bucket_period_seconds c)
    (cfg_battery_mass_kg c)
    (cfg_battery_heat_capacity c)
    (net_total_battery_area n)
    (net_box_wall_mass_kg n)
    (net_box_heat_capacity n)
    (net_total_box_area n)
    (net_battery_conductive_resistance n)
    (net_battery_convective_resistance n)
    (net_box_composite_conductive_resistance n)
    (net_box_outer_conductive_resistance n)
    (net_box_outer_convective_resistance n)
    (cfg_heater_threshold_temp_c c)
    (cfg_use_heater c)
    (cfg_heater_power_w c * cfg_bucket_period_seconds c)
    (cfg_heater_battery_transfer c)
    (cfg_heater_time_minutes c)
    (cfg_battery_emissivity c)
    (cfg_box_inner_emissivity c)
    (cfg_box_outer_emissivity c)
    (cfg_battery_throughput_losses c).

Section Driver.

Variable calculate_heat_transfer_areas :
  Qc -> Qc -> Qc -> Qc -> Qc -> Qc -> list Z -> list Z ->
  result (Qc * Qc * Qc * Qc * Qc).

Definition calculate_net_energy_flows
    (tmy_data_df : list TmyRow) (c : Config) : result (list Row) :=
  n <- calculate_battery_box_parameters calculate_heat_transfer_areas
         (cfg_battery_length c) (cfg_battery_width c) (cfg_battery_height c)
         (cfg_box_length c) (cfg_box_width c) (cfg_box_height c)
         (cfg_battery_transfer_array c) (cfg_box_transfer_array c)
         (cfg_material_list c) ;;
  match tmy_data_df with
  | [] => Raise IndexError
  | t0 :: _ =>
      let initial_temperature := Ambient_Temperature_C t0 in
      jit_battery_energy_flow_model (engine_params c n)
        (map (model_row c initial_temperature) tmy_data_df)
  end.

End Driver.

(** Columns of the result frame, lines 636-668. *)
Definition Battery_Temp_C (r : Row) : Qc := cell r battery_temp.
Definition Box_Inner_Temp_C (r : Row) : Qc := cell r box_inner_temp.
Definition Box_Outer_Temp_C (r : Row) : Qc := cell r box_outer_temp.
Definition Battery_Heater_Input_J (r : Row) : Qc := cell r battery_heater_input.
Definition Battery_Losses_Input_J (r : Row) : Qc := cell r battery_losses_input.
Definition Battery_Net_Energy_J (r : Row) : Qc := cell r battery_net_energy.
Definition Battery_Cond_to_Box_Inner_Energy_J (r : Row) : Qc :=
  cell r battery_cond_to_box_inner_energy.
Definition Battery_Conv_to_Box_Inner_Energy_J (r : Row) : Qc :=
  cell r battery_conv_to_box_inner_energy.
Definition Battery_Radi_to_Box_Inner_Energy_J (r : Row) : Qc :=
  cell r battery_radi_to_box_inner_energy.
Definition Heater_to_Battery_Energy_J (r : Row) : Qc :=
  cell r heater_to_battery_energy.
Definition Heater_to_Wall_Energy_J (r : Row) : Qc :=
  cell r heater_to_box_inner_energy.
Definition Box_Inner_Net_Energy_J (r : Row) : Qc := cell r box_inner_net_energy.
Definition Box_Inner_Cond_to_Battery_Energy_J (r : Row) : Qc :=
  cell r box_inner_cond_to_battery_energy.
Definition Box_Inner_Conv_to_Battery_Energy_J (r : Row) : Qc :=
  cell r box_inner_conv_to_battery_energy.
Definition Box_Inner_Radi_to_Battery_Energy_J (r : Row) : Qc :=
  cell r box_inner_radi_to_battery_energy.
Definition Box_Inner_to_Box_Outer_Energy_J (r : Row) : Qc :=
  cell r box_inner_to_box_outer_energy.
Definition Box_Outer_Net_Energy_J (r : Row) : Qc := cell r box_outer_net_energy.
Definition Box_Outer_to_Box_Inner_Energy_J (r : Row) : Qc :=
  cell r box_outer_to_box_inner_energy.
Definition Box_Outer_Cond_to_Environment_Energy_J (r : Row) : Qc :=
  cell r box_outer_cond_to_environment_energy.
Definition Box_Outer_Conv_to_Environment_Energy_J (r : Row) : Qc :=
  cell r box_outer_conv_to_environment_energy.
Definition Box_Outer_Radi_to_Environment_Energy_J (r : Row) : Qc :=
  cell r box_outer_radi_to_environment_energy.
Definition Box_Outer_Cond_from_Environment_Energy_J (r : Row) : Qc :=
  cell r box_outer_cond_from_environment_energy.
Definition Box_Outer_Conv_from_Environment_Energy_J (r : Row) : Qc :=
  cell r box_outer_conv_from_environment_energy.
Definition Box_Outer_Radi_from_Environment_Energy_J (r : Row) : Qc :=
  cell r box_outer_radi_from_environment_energy.

(** ** Auxiliary definitions for the properties *)

Definition nonzero (x : Qc) : bool := negb (Qc_eqb x 0).

(** No divisor of the loop body is zero: the thermal masses, the five
    resistances, and the operands of the effective emissivity. *)
Definition well_conditioned (p : Params) : bool :=
  nonzero (battery_heat_capacity p * battery_mass_kg p)
  && nonzero (box_heat_capacity p * box_wall_mass_kg p)
  && nonzero (battery_conductive_resistance p)
  && nonzero (battery_convective_resistance p)
  && nonzero (box_composite_conductive_resistance p)
  && nonzero (box_outer_conductive_resistance p)
  && nonzero (box_outer_convective_resistance p)
  && nonzero (battery_emissivity p)
  && nonzero (total_box_area p)
  && nonzero (box_inner_emissivity p)
  && nonzero (1 / battery_emissivity p
              + total_battery_area p / total_box_area p
                * (1 / box_inner_emissivity p - 1)).

(** The driver stores the externally supplied throughput loss of a
    timestep in two arrays, [battery_losses_input] and
    [battery_net_energy] (lines 529-530); this sets both. *)
Definition with_losses (r : Row) (losses : Qc) : Row :=
  set_cell (set_cell r battery_losses_input losses) battery_net_energy losses.

(** A row that differs from [r] in its humidity sample only. *)
Definition with_humidity (r : Row) (h : Qc) : Row :=
  mkRow (datetime_temp r) (amb_temp r) h (cell r).

Definition same_but_humidity (r1 r2 : Row) : Prop :=
  r2 = with_humidity r1 (humidity r2).

Definition tmy_same_but_humidity (t1 t2 : TmyRow) : Prop :=
  Datetime t1 = Datetime t2
  /\ Ambient_Temperature_C t1 = Ambient_Temperature_C t2
  /\ Energy_Use_kWh t1 = Energy_Use_kWh t2.

(** Energy balance of each node as the specification words it: the
    recorded flows entering the node minus the recorded flows leaving it. *)
Definition battery_balance (r : Row) : Qc :=
  (Battery_Losses_Input_J r + Heater_to_Battery_Energy_J r)
  - (Battery_Cond_to_Box_Inner_Energy_J r
     + Battery_Conv_to_Box_Inner_Energy_J r
     + Battery_Radi_to_Box_Inner_Energy_J r).

Definition box_inner_balance (r : Row) : Qc :=
  (Heater_to_Wall_Energy_J r
   + Battery_Cond_to_Box_Inner_Energy_J r
   + Battery_Conv_to_Box_Inner_Energy_J r
   + Battery_Radi_to_Box_Inner_Energy_J r)
  - Box_Inner_to_Box_Outer_Energy_J r.

Definition box_outer_balance (r : Row) : Qc :=
  Box_Inner_to_Box_Outer_Energy_J r
  - (Box_Outer_Cond_to_Environment_Energy_J r
     + Box_Outer_Conv_to_Environment_Energy_J r
     + Box_Outer_Radi_to_Environment_Energy_J r).

(** The columns written after the conduction through the wall: the six
    channel tallies of the outer wall and the three temperatures. *)
Definition written_late (c : column) : bool :=
  match c with
  | box_outer_cond_to_environment_energy
  | box_outer_conv_to_environment_energy
  | box_outer_radi_to_environment_energy
  | box_outer_cond_from_environment_energy
  | box_outer_conv_from_environment_energy
  | box_outer_radi_from_environment_energy
  | battery_temp | box_inner_temp | box_outer_temp => true
  | _ => false
  end.

(** Two runs end alike up to the humidity column: they raise the same
    exception, or return tables whose rows differ in humidity only. *)
Definition same_outcome_but_humidity (x y : result (list Row)) : Prop :=
  match x, y with
  | Ok o1, Ok o2 => Forall2 same_but_humidity o1 o2
  | Raise e1, Raise e2 => e1 = e2
  | _, _ => False
  end.

(** The humidity column of the result is the one of the input. *)
Definition humidity_passed_through
    (input : list Qc) (x : result (list Row)) : Prop :=
  match x with
  | Ok o => map humidity o = input
  | Raise _ => True
  end.

(** ** Sample inputs *)

(** Scalars of a run: 60 s buckets, a 36 kg battery, a heater of 30 W
    (1800 J per bucket) that passes 0.8 of its power to the battery, a
    threshold of 5 degrees, and [minimum_on] as [heater_time_minutes]. *)
Definition sample_params (minimum_on : Q) : Params :=
  mkParams
    (dec 60) (dec 36) (dec 1000) (dec 1.98)
    (dec 10) (dec 1500) (dec 2.76)
    (dec 0.6) (dec 0.14) (dec 0.15) (dec 0.3) (dec 0.08)
    (dec 5) true (dec 1800) (dec 0.8) (dec minimum_on)
    (dec 0.9) (dec 0.9) (dec 0.9) (dec 0.03).

(** Slot [i] of the arrays as the driver fills them, for a frame whose
    first ambient sample is [first_ambient]. *)
Definition sample_row (first_ambient ambient losses : Q) : Row :=
  mkRow 0%Z (dec ambient) (dec 80)
        (initial_cells (dec first_ambient) (dec losses)).

(** A stand-in for the area resolver on examples: whatever the geometry,
    it returns the five areas it is given. *)
Definition fixed_areas (battery_conductive battery_convective air_convective
                        box_conductive box_convective : Qc)
    : Qc -> Qc -> Qc -> Qc -> Qc -> Qc -> list Z -> list Z ->
      result (Qc * Qc * Qc * Qc * Qc) :=
  fun _ _ _ _ _ _ _ _ =>
    Ok (battery_conductive, battery_convective, air_convective,
        box_conductive, box_convective).

(** Layers as [Container.__post_init__] builds them:
    (thickness, thermal_conductivity, heat_capacity, density, emissivity). *)
Definition sample_inner_layer : pyobj :=
  PyTuple [dec 0.01; dec 0.03; dec 1300; dec 20; dec 0.6].

Definition sample_outer_layer : pyobj :=
  PyTuple [dec 0.02; dec 0.15; dec 1700; dec 600; dec 0.9].

(** Evaluation of a boolean test on the outcome of a computation. *)
Definition holds {A : Type} (x : result A) (test : A -> bool) : bool :=
  match x with
  | Ok a => test a
  | Raise _ => false
  end.

(** The columns the driver fills with 0.0 (lines 478-496). *)
Definition starts_at_zero (c : column) : bool :=
  match c with
  | battery_temp | box_inner_temp | box_outer_temp
  | battery_losses_input | battery_net_energy => false
  | _ => true
  end.

Definition ledger_cleared (r : Row) : Prop :=
  forall c, starts_at_zero c = true -> cell r c = 0.

(** Areas of the default battery (0.9 x 0.6 x 0.3 m) and box
    (1.0 x 0.7 x 0.4 m) with the bottom face conductive and the five
    others convective. *)
Definition sample_areas
    : Qc -> Qc -> Qc -> Qc -> Qc -> Qc -> list Z -> list Z ->
      result (Qc * Qc * Qc * Qc * Qc) :=
  fixed_areas (dec 0.54) (dec 1.44) (dec 1.92) (dec 0.7) (dec 2.06).

(** The builder on the sample geometry. *)
Definition sample_network (material_list : list pyobj) : result Network :=
  calculate_battery_box_parameters sample_areas
    (dec 0.9) (dec 0.6) (dec 0.3) (dec 1) (dec 0.7) (dec 0.4)
    None None material_list.

(** A state with the heater on since one timestep and the inner wall
    under the threshold of [sample_params]. *)
Definition sample_cold_state : State :=
  mkState (dec 1) (dec 1) (dec 1) true 1.

(** The configuration of [main.py], with the two sample layers. *)
Definition sample_config : Config :=
  mkConfig
    (dec 1) (dec 0.7) (dec 0.4)
    (dec 0.9) (dec 0.6) (dec 0.3)
    (dec 1000) (dec 36) (dec 0.03)
    (dec 5) true (dec 30) (dec 5) (dec 0.8)
    (Some [0; 1; 1; 1; 1; 1]%Z) (Some [0; 1; 1; 1; 1; 1]%Z)
    [sample_inner_layer; sample_outer_layer]
    (dec 60) (dec 0.9) (dec 0.6) (dec 0.9) (dec 0.03).

(** Two one-sample frames that differ in the humidity sample only. *)
Definition sample_frame_humid : list TmyRow :=
  [mkTmyRow 0%Z (dec 5) (dec 80) (dec 0.001)].

Definition sample_frame_dry : list TmyRow :=
  [mkTmyRow 0%Z (dec 5) (dec 20) (dec 0.001)].

(** ** The two primitives of the concrete scenario on machine floats

    [calculate_conductive_resistance] and [calculate_heat_energy_flow]
    once more, on binary64 numbers with their rounding, to compare the
    exact model with the floats of the source where the specification
    gives exact figures. *)
Module Binary64.
Import PrimFloat.

Definition calculate_conductive_resistance
    (thickness_m thermal_conductivity area_m2 : float) : float :=
  (thickness_m / (thermal_conductivity * area_m2))%float.

Definition calculate_heat_energy_flow
    (internal_temperature external_temperature thermal_resistance
     duration_seconds : float) : float :=
  let delta_temperature := (internal_temperature - external_temperature)%float in
  let power_watts := (delta_temperature / thermal_resistance)%float in
  (power_watts * duration_seconds)%float.

#[warnings="-inexact-float"]
Definition scenario : bool :=
  (calculate_conductive_resistance 0.01 0.04 1 =? 0.25)%float
  && (calculate_heat_energy_flow 10 0 0.25 60 =? 2400)%float
  && (calculate_heat_energy_flow 30 20 0.25 60 =? 2400)%float.

End Binary64.

(** ** Definitions for the further properties *)

(** The heat stored in the three nodes: thermal mass times temperature,
    the two walls sharing the thermal mass of the box. *)
Definition heat_content (p : Params) (s : State) : Qc :=
  battery_heat_capacity p * battery_mass_kg p * battery_temp_c s
  + box_heat_capacity p * box_wall_mass_kg p
    * (box_inner_temp_c s + box_outer_temp_c s).

(** A row whose ambient sample and three temperature cells are [t]. *)
Definition at_rest (t : Qc) (r : Row) : Prop :=
  amb_temp r = t
  /\ cell r battery_temp = t
  /\ cell r box_inner_temp = t
  /\ cell r box_outer_temp = t.





(** A two-sample frame of constant ambient temperature, above the
    threshold of [sample_config]. *)
Definition sample_frame_mild : list TmyRow :=
  [mkTmyRow 0%Z (dec 8) (dec 80) (dec 0.001);
   mkTmyRow 1%Z (dec 8) (dec 70) (dec 0.002)].

(** * Properties *)

(** ** Comparisons, division and the monad *)

Lemma Qc_eqb_eq (x y : Qc) : Qc_eqb x y = true <-> x = y.
Proof.
  unfold Qc_eqb. rewrite Qceq_alt.
  destruct (x ?= y); split; intro H; try reflexivity; discriminate H.
Qed.

Lemma Qc_eqb_neq (x y : Qc) : Qc_eqb x y = false <-> x <> y.
Proof.
  rewrite <- Qc_eqb_eq. destruct (Qc_eqb x y); split; intro H;
    try reflexivity; try discriminate H.
  - exfalso. apply H. reflexivity.
  - intro H'. discriminate H'.
Qed.

Lemma Qc_ltb_lt (x y : Qc) : Qc_ltb x y = true <-> x < y.
Proof.
  unfold Qc_ltb. rewrite Qclt_alt.
  destruct (x ?= y); split; intro H; try reflexivity; discriminate H.
Qed.

Lemma Qc_leb_le (x y : Qc) : Qc_leb x y = true <-> x <= y.
Proof.
  unfold Qc_leb. rewrite Qcle_alt.
  destruct (x ?= y); split; intro H; try reflexivity; try discriminate H;
    try (intro H'; discriminate H').
  exfalso. apply H. reflexivity.
Qed.

(** Strictly above is the negation of at-or-below. *)
Lemma Qc_ltb_leb (x y : Qc) : Qc_ltb x y = negb (Qc_leb y x).
Proof.
  destruct (Qc_ltb x y) eqn:Hlt; destruct (Qc_leb y x) eqn:Hle;
    try reflexivity; exfalso.
  - apply Qc_ltb_lt in Hlt. apply Qc_leb_le in Hle.
    exact (Qclt_not_le _ _ Hlt Hle).
  - assert (Hn : ~ y <= x)
      by (intro H; apply Qc_leb_le in H; rewrite H in Hle; discriminate Hle).
    apply Qcnot_le_lt in Hn. apply Qc_ltb_lt in Hn.
    rewrite Hn in Hlt. discriminate Hlt.
Qed.

Lemma fdiv_ok (x y : Qc) : y <> 0 -> fdiv x y = Ok (x / y).
Proof.
  intro H. unfold fdiv. apply Qc_eqb_neq in H. rewrite H. reflexivity.
Qed.

Lemma fdiv_inv (x y q : Qc) : fdiv x y = Ok q -> y <> 0 /\ q = x / y.
Proof.
  unfold fdiv. destruct (Qc_eqb y 0) eqn:E; intro H; [discriminate H|].
  apply Qc_eqb_neq in E. injection H as <-. split; [exact E | reflexivity].
Qed.

Lemma bind_ok {A B : Type} (m : result A) (k : A -> result B) (b : B) :
  bind m k = Ok b -> exists a, m = Ok a /\ k a = Ok b.
Proof.
  destruct m as [a|e]; unfold bind; intro H; [|discriminate H].
  exists a. split; [reflexivity | exact H].
Qed.

Lemma bind_Ok {A B : Type} (a : A) (k : A -> result B) : bind (Ok a) k = k a.
Proof. reflexivity. Qed.

(** Splits a hypothesis [x <- m ;; k = Ok b] into its two runs. *)
Ltac inv_bind H :=
  let a := fresh "a" in
  let Ha := fresh "Hrun" in
  apply bind_ok in H; destruct H as (a & Ha & H).

Lemma heat_energy_flow_inv (t1 t2 res dt q : Qc) :
  calculate_heat_energy_flow t1 t2 res dt = Ok q ->
  res <> 0 /\ q = (t1 - t2) / res * dt.
Proof.
  unfold calculate_heat_energy_flow. intro H. inv_bind H.
  apply fdiv_inv in Hrun. destruct Hrun as [Hres ->].
  injection H as <-. split; [exact Hres | reflexivity].
Qed.

Lemma heat_energy_flow_ok (t1 t2 res dt : Qc) :
  res <> 0 ->
  calculate_heat_energy_flow t1 t2 res dt = Ok ((t1 - t2) / res * dt).
Proof.
  intro H. unfold calculate_heat_energy_flow. rewrite (fdiv_ok _ _ H).
  reflexivity.
Qed.

Lemma change_in_temperature_inv (t q c m t' : Qc) :
  calc_change_in_temperature_c t q c m = Ok t' ->
  c * m <> 0 /\ t' = t + q / (c * m).
Proof.
  unfold calc_change_in_temperature_c. intro H. inv_bind H.
  apply fdiv_inv in Hrun. destruct Hrun as [Hcm ->].
  injection H as <-. split; [exact Hcm | reflexivity].
Qed.

Lemma change_in_temperature_ok (t q c m : Qc) :
  c * m <> 0 ->
  calc_change_in_temperature_c t q c m = Ok (t + q / (c * m)).
Proof.
  intro H. unfold calc_change_in_temperature_c. rewrite (fdiv_ok _ _ H).
  reflexivity.
Qed.

(** ** Runs are iterated timesteps *)

Lemma engine_loop_nth (p : Params) (rows : list Row) :
  forall (s : State) (out : list Row),
    engine_loop p s rows = Ok out ->
    forall (i : nat) (r : Row),
      nth_error rows i = Some r ->
      exists (si si' : State) (r' : Row),
        state_after p s rows i = Ok si
        /\ timestep p si r = Ok (si', r')
        /\ nth_error out i = Some r'.
Proof.
  induction rows as [|r0 rest IH]; intros s out Hrun i r Hi.
  - destruct i; discriminate Hi.
  - simpl in Hrun. inv_bind Hrun. destruct a as [s1 r1].
    inv_bind Hrun. injection Hrun as <-.
    destruct i as [|j].
    + injection Hi as <-. exists s, s1, r1. simpl. auto.
    + simpl in Hi.
      destruct (IH s1 a Hrun1 j r Hi) as (si & si' & r' & Hs & Ht & Hn).
      exists si, si', r'. simpl. rewrite Hrun0, bind_Ok. auto.
Qed.

Lemma engine_loop_length (p : Params) (rows : list Row) :
  forall (s : State) (out : list Row),
    engine_loop p s rows = Ok out -> length out = length rows.
Proof.
  induction rows as [|r0 rest IH]; intros s out Hrun; simpl in Hrun.
  - injection Hrun as <-. reflexivity.
  - inv_bind Hrun. destruct a as [s1 r1]. inv_bind Hrun.
    injection Hrun as <-. simpl. f_equal. eapply IH. eassumption.
Qed.

(** ** What each paragraph of the loop body does when it returns *)

Lemma heater_injection_on (p : Params) (s s' : State) (r r' : Row) :
  use_heater p && heater_on s = true ->
  heater_injection p s r = Ok (s', r') ->
  let heater_battery_energy_j := heater_power_j p * heater_battery_transfer p in
  let heater_wall_energy_j := heater_power_j p * (1 - heater_battery_transfer p) in
  let losses :=
    cell r battery_losses_input + heater_power_j p * battery_throughput_losses p in
  let total := losses + heater_battery_energy_j in
  s' = mkState
         (battery_temp_c s + total / (battery_heat_capacity p * battery_mass_kg p))
         (box_inner_temp_c s
          + heater_wall_energy_j / (box_heat_capacity p * box_wall_mass_kg p))
         (box_outer_temp_c s) (heater_on s) (heater_counter s + 1)
  /\ r' = add_cell (add_cell (add_cell (add_cell (add_cell (add_cell r
            battery_heater_input (heater_power_j p))
            battery_losses_input (heater_power_j p * battery_throughput_losses p))
            battery_net_energy total)
            box_inner_net_energy heater_wall_energy_j)
            heater_to_battery_energy heater_battery_energy_j)
            heater_to_box_inner_energy heater_wall_energy_j.
Proof.
  intros Hon H. unfold heater_injection in H. rewrite Hon in H.
  inv_bind H. inv_bind H.
  apply change_in_temperature_inv in Hrun, Hrun0.
  destruct Hrun as [_ ->]. destruct Hrun0 as [_ ->].
  injection H as <- <-. split; reflexivity.
Qed.

Lemma heater_injection_off (p : Params) (s : State) (r : Row) :
  use_heater p && heater_on s = false ->
  heater_injection p s r = Ok (s, r).
Proof.
  intro Hoff. unfold heater_injection. rewrite Hoff. reflexivity.
Qed.

Lemma battery_conduction_above (p : Params) (s s' : State) (r r' : Row) :
  Qc_ltb (heater_threshold_temp_c p) (box_inner_temp_c s) = true ->
  battery_conduction p s r = Ok (s', r') ->
  exists q : Qc,
    calculate_heat_energy_flow (battery_temp_c s) (box_inner_temp_c s)
      (battery_conductive_resistance p) (bucket_period_seconds p) = Ok q
    /\ s' = with_battery_inner s
              (battery_temp_c s
               + - q / (battery_heat_capacity p * battery_mass_kg p))
              (box_inner_temp_c s
               + q / (box_heat_capacity p * box_wall_mass_kg p))
    /\ r' = add_cell (add_cell (add_cell (add_cell r
              battery_cond_to_box_inner_energy q)
              battery_net_energy (- q))
              box_inner_cond_to_battery_energy (- q))
              box_inner_net_energy q.
Proof.
  intros Habove H. unfold battery_conduction in H. rewrite Habove in H.
  inv_bind H. inv_bind H. inv_bind H.
  apply change_in_temperature_inv in Hrun0, Hrun1.
  destruct Hrun0 as [_ ->]. destruct Hrun1 as [_ ->].
  injection H as <- <-. exists a. repeat split. exact Hrun.
Qed.

Lemma battery_conduction_below (p : Params) (s : State) (r : Row) :
  Qc_ltb (heater_threshold_temp_c p) (box_inner_temp_c s) = false ->
  battery_conduction p s r = Ok (s, r).
Proof.
  intro Hbelow. unfold battery_conduction. rewrite Hbelow. reflexivity.
Qed.

Lemma battery_convection_inv (p : Params) (s s' : State) (r r' : Row) :
  battery_convection p s r = Ok (s', r') ->
  exists q : Qc,
    calculate_heat_energy_flow (battery_temp_c s) (box_inner_temp_c s)
      (battery_convective_resistance p) (bucket_period_seconds p) = Ok q
    /\ s' = with_battery_inner s
              (battery_temp_c s
               + - q / (battery_heat_capacity p * battery_mass_kg p))
              (box_inner_temp_c s
               + q / (box_heat_capacity p * box_wall_mass_kg p))
    /\ r' = add_cell (add_cell (add_cell (add_cell r
              battery_conv_to_box_inner_energy q)
              battery_net_energy (- q))
              box_inner_conv_to_battery_energy (- q))
              box_inner_net_energy q.
Proof.
  intro H. unfold battery_convection in H.
  inv_bind H. inv_bind H. inv_bind H.
  apply change_in_temperature_inv in Hrun0, Hrun1.
  destruct Hrun0 as [_ ->]. destruct Hrun1 as [_ ->].
  injection H as <- <-. exists a. repeat split. exact Hrun.
Qed.

Lemma battery_radiation_inv (p : Params) (s s' : State) (r r' : Row) :
  battery_radiation p s r = Ok (s', r') ->
  exists q : Qc,
    calculate_inner_radiative_heat_flow
      (total_battery_area p) (total_box_area p)
      (battery_emissivity p) (box_inner_emissivity p)
      (battery_temp_c s) (box_inner_temp_c s) (bucket_period_seconds p) = Ok q
    /\ s' = with_battery_inner s
              (battery_temp_c s
               + - q / (battery_heat_capacity p * battery_mass_kg p))
              (box_inner_temp_c s
               + q / (box_heat_capacity p * box_wall_mass_kg p))
    /\ r' = add_cell (add_cell (add_cell (add_cell r
              battery_radi_to_box_inner_energy q)
              battery_net_energy (- q))
              box_inner_radi_to_battery_energy (- q))
              box_inner_net_energy q.
Proof.
  intro H. unfold battery_radiation in H.
  inv_bind H. inv_bind H. inv_bind H.
  apply change_in_temperature_inv in Hrun0, Hrun1.
  destruct Hrun0 as [_ ->]. destruct Hrun1 as [_ ->].
  injection H as <- <-. exists a. repeat split. exact Hrun.
Qed.

Lemma wall_conduction_inv (p : Params) (s s' : State) (r r' : Row) :
  wall_conduction p s r = Ok (s', r') ->
  exists q : Qc,
    calculate_heat_energy_flow (box_inner_temp_c s) (box_outer_temp_c s)
      (box_composite_conductive_resistance p) (bucket_period_seconds p) = Ok q
    /\ s' = with_inner_outer s
              (box_inner_temp_c s
               + - q / (box_heat_capacity p * box_wall_mass_kg p))
              (box_outer_temp_c s
               + q / (box_heat_capacity p * box_wall_mass_kg p))
    /\ r' = add_cell (add_cell (add_cell (add_cell r
              box_inner_to_box_outer_energy q)
              box_inner_net_energy (- q))
              box_outer_to_box_inner_energy (- q))
              box_outer_net_energy q.
Proof.
  intro H. unfold wall_conduction in H.
  inv_bind H. inv_bind H. inv_bind H.
  apply change_in_temperature_inv in Hrun0, Hrun1.
  destruct Hrun0 as [_ ->]. destruct Hrun1 as [_ ->].
  injection H as <- <-. exists a. repeat split. exact Hrun.
Qed.

Lemma environment_losses_inv (p : Params) (s s' : State) (r r' : Row) :
  environment_losses p s r = Ok (s', r') ->
  exists conv cond : Qc,
    calculate_heat_energy_flow (box_outer_temp_c s) (amb_temp r)
      (box_outer_convective_resistance p) (bucket_period_seconds p) = Ok conv
    /\ calculate_heat_energy_flow (box_outer_temp_c s) (amb_temp r)
         (box_outer_conductive_resistance p) (bucket_period_seconds p) = Ok cond
    /\ let radi := calculate_outer_radiative_heat_flow
                     (total_box_area p) (box_outer_emissivity p)
                     (box_outer_temp_c s) (amb_temp r)
                     (bucket_period_seconds p) in
       s' = with_outer s
              (box_outer_temp_c s
               + - (conv + cond + radi)
                 / (box_heat_capacity p * box_wall_mass_kg p))
       /\ r' = add_cell (add_cell (add_cell (add_cell (add_cell (add_cell
                 (add_cell r
                 box_outer_conv_to_environment_energy conv)
                 box_outer_conv_from_environment_energy (- conv))
                 box_outer_cond_to_environment_energy cond)
                 box_outer_cond_from_environment_energy (- cond))
                 box_outer_radi_to_environment_energy radi)
                 box_outer_radi_from_environment_energy (- radi))
                 box_outer_net_energy (conv + cond + radi).
Proof.
  intro H. unfold environment_losses in H.
  inv_bind H. inv_bind H. inv_bind H.
  apply change_in_temperature_inv in Hrun1. destruct Hrun1 as [_ ->].
  injection H as <- <-. exists a, a0. repeat split; assumption.
Qed.

Lemma interior_flows_inv (p : Params) (s s' : State) (r r' : Row) :
  interior_flows p s r = Ok (s', r') ->
  exists s1 r1 s2 r2 s3 r3 s4 r4,
    heater_phase p s r = Ok (s1, r1)
    /\ battery_conduction p s1 r1 = Ok (s2, r2)
    /\ battery_convection p s2 r2 = Ok (s3, r3)
    /\ battery_radiation p s3 r3 = Ok (s4, r4)
    /\ wall_conduction p s4 r4 = Ok (s', r').
Proof.
  intro H. unfold interior_flows in H.
  inv_bind H. destruct a as [s1 r1].
  inv_bind H. destruct a as [s2 r2].
  inv_bind H. destruct a as [s3 r3].
  inv_bind H. destruct a as [s4 r4].
  exists s1, r1, s2, r2, s3, r3, s4, r4. repeat split; assumption.
Qed.

Lemma timestep_inv (p : Params) (s s' : State) (r r' : Row) :
  timestep p s r = Ok (s', r') ->
  exists s5 r5 r6,
    interior_flows p s r = Ok (s5, r5)
    /\ environment_losses p s5 r5 = Ok (s', r6)
    /\ r' = record_temperatures s' r6.
Proof.
  intro H. unfold timestep in H.
  inv_bind H. destruct a as [s5 r5].
  inv_bind H. destruct a as [s6 r6].
  injection H as <- <-.
  exists s5, r5, r6. repeat split; assumption.
Qed.

(** ** The loop body returns when no divisor is zero *)

Lemma nonzero_neq (x : Qc) : nonzero x = true -> x <> 0.
Proof.
  unfold nonzero. intro H. apply Qc_eqb_neq.
  destruct (Qc_eqb x 0); [discriminate H | reflexivity].
Qed.

Lemma inner_radiative_heat_flow_ok (a1 a2 e1 e2 t1 t2 dt : Qc) :
  e1 <> 0 -> a2 <> 0 -> e2 <> 0 ->
  1 / e1 + a1 / a2 * (1 / e2 - 1) <> 0 ->
  exists q, calculate_inner_radiative_heat_flow a1 a2 e1 e2 t1 t2 dt = Ok q.
Proof.
  intros H1 H2 H3 H4. unfold calculate_inner_radiative_heat_flow.
  rewrite (fdiv_ok _ _ H1), bind_Ok, (fdiv_ok _ _ H2), bind_Ok,
    (fdiv_ok _ _ H3), bind_Ok, (fdiv_ok _ _ H4), bind_Ok.
  eexists. reflexivity.
Qed.

Lemma timestep_total (p : Params) :
  well_conditioned p = true ->
  forall (s : State) (r : Row), exists s' r', timestep p s r = Ok (s', r').
Proof.
  unfold well_conditioned. intros H s r.
  repeat (apply andb_prop in H; let H' := fresh "Hnz" in destruct H as [H H']).
  apply nonzero_neq in H, Hnz, Hnz0, Hnz1, Hnz2, Hnz3, Hnz4, Hnz5, Hnz6, Hnz7, Hnz8.
  unfold timestep, interior_flows, heater_phase.
  set (s0 := heater_trigger p (heater_dwell p s)).
  assert (H1 : exists s1 r1, heater_injection p s0 r = Ok (s1, r1)).
  { unfold heater_injection. destruct (use_heater p && heater_on s0).
    - rewrite (change_in_temperature_ok _ _ _ _ H), bind_Ok.
      rewrite (change_in_temperature_ok _ _ _ _ Hnz8), bind_Ok.
      eexists _, _. reflexivity.
    - eexists _, _. reflexivity. }
  destruct H1 as (s1 & r1 & ->). rewrite bind_Ok.
  assert (H2 : exists s2 r2, battery_conduction p s1 r1 = Ok (s2, r2)).
  { unfold battery_conduction.
    destruct (Qc_ltb (heater_threshold_temp_c p) (box_inner_temp_c s1)).
    - rewrite (heat_energy_flow_ok _ _ _ _ Hnz7), bind_Ok.
      rewrite (change_in_temperature_ok _ _ _ _ H), bind_Ok.
      rewrite (change_in_temperature_ok _ _ _ _ Hnz8), bind_Ok.
      eexists _, _. reflexivity.
    - eexists _, _. reflexivity. }
  destruct H2 as (s2 & r2 & ->). rewrite bind_Ok.
  unfold battery_convection.
  rewrite (heat_energy_flow_ok _ _ _ _ Hnz6), bind_Ok.
  rewrite (change_in_temperature_ok _ _ _ _ H), bind_Ok.
  rewrite (change_in_temperature_ok _ _ _ _ Hnz8), !bind_Ok.
  unfold battery_radiation. cbn [battery_temp_c box_inner_temp_c with_battery_inner].
  destruct (inner_radiative_heat_flow_ok
              (total_battery_area p) (total_box_area p)
              (battery_emissivity p) (box_inner_emissivity p)
              (battery_temp_c s2
               + - ((battery_temp_c s2 - box_inner_temp_c s2)
                    / battery_convective_resistance p * bucket_period_seconds p)
                 / (battery_heat_capacity p * battery_mass_kg p))
              (box_inner_temp_c s2
               + (battery_temp_c s2 - box_inner_temp_c s2)
                 / battery_convective_resistance p * bucket_period_seconds p
                 / (box_heat_capacity p * box_wall_mass_kg p))
              (bucket_period_seconds p) Hnz2 Hnz1 Hnz0 Hnz) as [q ->].
  rewrite bind_Ok.
  rewrite (change_in_temperature_ok _ _ _ _ H), bind_Ok.
  rewrite (change_in_temperature_ok _ _ _ _ Hnz8), !bind_Ok.
  unfold wall_conduction.
  rewrite (heat_energy_flow_ok _ _ _ _ Hnz5), bind_Ok.
  rewrite (change_in_temperature_ok _ _ _ _ Hnz8), bind_Ok.
  rewrite (change_in_temperature_ok _ _ _ _ Hnz8), !bind_Ok.
  unfold environment_losses.
  rewrite (heat_energy_flow_ok _ _ _ _ Hnz3), bind_Ok.
  rewrite (heat_energy_flow_ok _ _ _ _ Hnz4), bind_Ok.
  rewrite (change_in_temperature_ok _ _ _ _ Hnz8), !bind_Ok.
  eexists _, _. reflexivity.
Qed.

Lemma engine_loop_total (p : Params) :
  well_conditioned p = true ->
  forall (rows : list Row) (s : State), exists out, engine_loop p s rows = Ok out.
Proof.
  intros Hp rows. induction rows as [|r rest IH]; intro s; simpl.
  - eexists. reflexivity.
  - destruct (timestep_total p Hp s r) as (s' & r' & ->). rewrite bind_Ok.
    destruct (IH s') as [out' ->]. rewrite bind_Ok.
    eexists. reflexivity.
Qed.

Lemma engine_total (p : Params) (rows : list Row) :
  well_conditioned p = true -> rows <> [] ->
  exists out, jit_battery_energy_flow_model p rows = Ok out.
Proof.
  intros Hp Hrows. destruct rows as [|r0 rest]; [contradiction|].
  apply engine_loop_total. exact Hp.
Qed.

(** Every row of the result of a run is produced by one timestep, started
    in the state the run has reached. *)
Lemma engine_timestep (p : Params) (rows out : list Row) (i : nat) (r : Row) :
  jit_battery_energy_flow_model p rows = Ok out ->
  nth_error rows i = Some r ->
  exists (s s' : State) (r' : Row),
    state_at p rows i = Ok s
    /\ timestep p s r = Ok (s', r')
    /\ nth_error out i = Some r'.
Proof.
  unfold jit_battery_energy_flow_model, state_at.
  destruct rows as [|r0 rest]; intros Hrun Hi;
    [destruct i; discriminate Hi|].
  exact (engine_loop_nth p (r0 :: rest) _ out Hrun i r Hi).
Qed.

(** The heater paragraphs return the state reached by the two heater
    tests when the run of the injection returns. *)
Lemma heater_phase_cases (p : Params) (s s1 : State) (r r1 : Row) :
  heater_phase p s r = Ok (s1, r1) ->
  (use_heater p && heater_on (heater_trigger p (heater_dwell p s)) = true
   /\ heater_injection p (heater_trigger p (heater_dwell p s)) r = Ok (s1, r1))
  \/ (use_heater p && heater_on (heater_trigger p (heater_dwell p s)) = false
      /\ s1 = heater_trigger p (heater_dwell p s) /\ r1 = r).
Proof.
  unfold heater_phase. intro H.
  destruct (use_heater p && heater_on (heater_trigger p (heater_dwell p s)))
    eqn:Hon.
  - left. split; [reflexivity | exact H].
  - right. rewrite (heater_injection_off p _ r Hon) in H.
    injection H as <- <-. auto.
Qed.

Ltac invert_interior H :=
  apply interior_flows_inv in H;
  let s1 := fresh "s1" in let r1 := fresh "r1" in
  let s2 := fresh "s2" in let r2 := fresh "r2" in
  let s3 := fresh "s3" in let r3 := fresh "r3" in
  let s4 := fresh "s4" in let r4 := fresh "r4" in
  let Hheat := fresh "Hheat" in let Hcond := fresh "Hcond" in
  let Hconv := fresh "Hconv" in let Hradi := fresh "Hradi" in
  destruct H as (s1 & r1 & s2 & r2 & s3 & r3 & s4 & r4
                 & Hheat & Hcond & Hconv & Hradi & H).

(** The timestep of iteration [i] leaves the state with which iteration
    [i + 1] starts. *)
Lemma state_after_step (p : Params) (rows : list Row) :
  forall (s si s' : State) (i : nat) (r r' : Row),
    state_after p s rows i = Ok si ->
    nth_error rows i = Some r ->
    timestep p si r = Ok (s', r') ->
    state_after p s rows (S i) = Ok s'.
Proof.
  induction rows as [|r0 rest IH]; intros s si s' i r r' Hs Hn Ht.
  - destruct i; discriminate Hn.
  - destruct i as [|j].
    + cbn [state_after] in Hs. injection Hs as <-.
      cbn [nth_error] in Hn. injection Hn as <-.
      cbn [state_after]. rewrite Ht, bind_Ok. destruct rest; reflexivity.
    + cbn [state_after] in Hs. inv_bind Hs. destruct a as [s1 r1].
      cbn [nth_error] in Hn.
      change (state_after p s (r0 :: rest) (S (S j)))
        with ('(s2, _) <- timestep p s r0 ;; state_after p s2 rest (S j)).
      rewrite Hrun, bind_Ok. exact (IH s1 si s' j r r' Hs Hn Ht).
Qed.

Lemma state_at_step
    (p : Params) (rows : list Row) (i : nat) (s s' : State) (r r' : Row) :
  state_at p rows i = Ok s ->
  nth_error rows i = Some r ->
  timestep p s r = Ok (s', r') ->
  state_at p rows (S i) = Ok s'.
Proof.
  unfold state_at. destruct rows as [|r0 rest]; intros Hs Hn Ht;
    [discriminate Hs|].
  exact (state_after_step p (r0 :: rest) _ s s' i r r' Hs Hn Ht).
Qed.

(** C6.  In every timestep of a run, the conductive flow from the battery
    to the inner wall is gated by the inner-wall temperature left by the
    heater paragraphs.  Strictly above the threshold, the flow over the
    battery-conductive resistance is computed, the two tallies of the row
    hold it and its negation, and both temperatures are updated with it.
    At or below the threshold the two tallies stay 0 and both
    temperatures are left as they were.  The timestep goes on from the
    temperatures so left: the convection, the radiation, the conduction
    through the wall and the exchange with the environment follow one
    another from them, row [i] of the result is what these paragraphs
    leave, with the temperatures they end on, and the next timestep
    starts from their state.  The two cells of the input row are 0, as
    the driver fills them. *)
Theorem conduction_gated_by_threshold
    (p : Params) (rows out : list Row) (i : nat) (r r' : Row) :
  jit_battery_energy_flow_model p rows = Ok out ->
  nth_error rows i = Some r ->
  nth_error out i = Some r' ->
  cell r battery_cond_to_box_inner_energy = 0 ->
  cell r box_inner_cond_to_battery_energy = 0 ->
  exists (s s1 s2 s3 s4 s5 s' : State) (r1 r2 r3 r4 r5 r6 : Row),
    state_at p rows i = Ok s
    /\ heater_phase p s r = Ok (s1, r1)
    /\ battery_conduction p s1 r1 = Ok (s2, r2)
    /\ battery_convection p s2 r2 = Ok (s3, r3)
    /\ battery_radiation p s3 r3 = Ok (s4, r4)
    /\ wall_conduction p s4 r4 = Ok (s5, r5)
    /\ environment_losses p s5 r5 = Ok (s', r6)
    /\ r' = record_temperatures s' r6
    /\ state_at p rows (S i) = Ok s'
    /\ (heater_threshold_temp_c p < box_inner_temp_c s1 ->
        exists q : Qc,
          calculate_heat_energy_flow
            (battery_temp_c s1) (box_inner_temp_c s1)
            (battery_conductive_resistance p) (bucket_period_seconds p) = Ok q
          /\ Battery_Cond_to_Box_Inner_Energy_J r' = q
          /\ Box_Inner_Cond_to_Battery_Energy_J r' = - q
          /\ calc_change_in_temperature_c (battery_temp_c s1) (- q)
               (battery_heat_capacity p) (battery_mass_kg p)
             = Ok (battery_temp_c s2)
          /\ calc_change_in_temperature_c (box_inner_temp_c s1) q
               (box_heat_capacity p) (box_wall_mass_kg p)
             = Ok (box_inner_temp_c s2))
    /\ (box_inner_temp_c s1 <= heater_threshold_temp_c p ->
        Battery_Cond_to_Box_Inner_Energy_J r' = 0
        /\ Box_Inner_Cond_to_Battery_Energy_J r' = 0
        /\ battery_temp_c s2 = battery_temp_c s1
        /\ box_inner_temp_c s2 = box_inner_temp_c s1).
Proof.
  intros Hrun Hi Ho Hz1 Hz2.
  destruct (engine_timestep p rows out i r Hrun Hi) as (s & s' & r'' & Hs & Ht & Ho').
  rewrite Ho in Ho'. injection Ho' as <-.
  pose proof (state_at_step p rows i s s' r r' Hs Hi Ht) as Hnext.
  apply timestep_inv in Ht. destruct Ht as (s5 & r5 & r6 & Hint & Henv & ->).
  invert_interior Hint.
  exists s, s1, s2, s3, s4, s5, s', r1, r2, r3, r4, r5, r6.
  split; [exact Hs|]. split; [exact Hheat|]. split; [exact Hcond|].
  split; [exact Hconv|]. split; [exact Hradi|]. split; [exact Hint|].
  split; [exact Henv|]. split; [reflexivity|]. split; [exact Hnext|].
  assert (Hr1 : cell r1 battery_cond_to_box_inner_energy = 0
                /\ cell r1 box_inner_cond_to_battery_energy = 0).
  { destruct (heater_phase_cases p s s1 r r1 Hheat) as [[Hon Hinj]|[_ [_ ->]]].
    - apply (heater_injection_on p _ _ _ _ Hon) in Hinj. destruct Hinj as [_ ->].
      cbn. auto.
    - auto. }
  destruct Hr1 as [Hz1' Hz2'].
  apply battery_convection_inv in Hconv. destruct Hconv as (qv & _ & -> & ->).
  apply battery_radiation_inv in Hradi. destruct Hradi as (qr & _ & -> & ->).
  apply wall_conduction_inv in Hint. destruct Hint as (qw & _ & -> & ->).
  apply environment_losses_inv in Henv. destruct Henv as (cv & cd & _ & _ & -> & ->).
  unfold Battery_Cond_to_Box_Inner_Energy_J, Box_Inner_Cond_to_Battery_Energy_J.
  split.
  - intro Habove. apply Qc_ltb_lt in Habove.
    pose proof Hcond as Hcond'.
    apply (battery_conduction_above p _ _ _ _ Habove) in Hcond'.
    destruct Hcond' as (q & Hq & -> & ->).
    exists q. split; [exact Hq|]. cbn. rewrite Hz1', Hz2'.
    unfold battery_conduction in Hcond. rewrite Habove, Hq, bind_Ok in Hcond.
    inv_bind Hcond. inv_bind Hcond. injection Hcond as Hb Hi'.
    repeat split; try ring.
    + rewrite Hrun0. f_equal.
      apply change_in_temperature_inv in Hrun0. destruct Hrun0 as [_ ->]. reflexivity.
    + rewrite Hrun1. f_equal.
      apply change_in_temperature_inv in Hrun1. destruct Hrun1 as [_ ->]. reflexivity.
  - intro Hbelow. apply Qc_leb_le in Hbelow.
    assert (Hnot : Qc_ltb (heater_threshold_temp_c p) (box_inner_temp_c s1) = false)
      by (rewrite Qc_ltb_leb, Hbelow; reflexivity).
    rewrite (battery_conduction_below p s1 r1 Hnot) in Hcond.
    injection Hcond as <- <-. cbn. auto.
Qed.

(** The paragraphs before the exchange with the environment leave the
    inputs of the row and the late columns as they were. *)
Lemma interior_flows_frame (p : Params) (s s5 : State) (r r5 : Row) :
  interior_flows p s r = Ok (s5, r5) ->
  amb_temp r5 = amb_temp r
  /\ humidity r5 = humidity r
  /\ datetime_temp r5 = datetime_temp r
  /\ forall c, written_late c = true -> cell r5 c = cell r c.
Proof.
  intro H. invert_interior H.
  apply wall_conduction_inv in H. destruct H as (qw & _ & _ & ->).
  apply battery_radiation_inv in Hradi. destruct Hradi as (qr & _ & _ & ->).
  apply battery_convection_inv in Hconv. destruct Hconv as (qv & _ & _ & ->).
  assert (Hr2 : amb_temp r2 = amb_temp r1 /\ humidity r2 = humidity r1
                /\ datetime_temp r2 = datetime_temp r1
                /\ forall c, written_late c = true -> cell r2 c = cell r1 c).
  { destruct (Qc_ltb (heater_threshold_temp_c p) (box_inner_temp_c s1)) eqn:E.
    - apply (battery_conduction_above p _ _ _ _ E) in Hcond.
      destruct Hcond as (q & _ & _ & ->). cbn. repeat split.
      intros c Hc. destruct c; try discriminate Hc; reflexivity.
    - rewrite (battery_conduction_below p _ _ E) in Hcond.
      injection Hcond as _ <-. auto. }
  assert (Hr1 : amb_temp r1 = amb_temp r /\ humidity r1 = humidity r
                /\ datetime_temp r1 = datetime_temp r
                /\ forall c, written_late c = true -> cell r1 c = cell r c).
  { destruct (heater_phase_cases p s s1 r r1 Hheat) as [[Hon Hinj]|[_ [_ ->]]].
    - apply (heater_injection_on p _ _ _ _ Hon) in Hinj. destruct Hinj as [_ ->].
      cbn. repeat split.
      intros c Hc. destruct c; try discriminate Hc; reflexivity.
    - auto. }
  destruct Hr2 as (Ha2 & Hh2 & Hd2 & Hc2). destruct Hr1 as (Ha1 & Hh1 & Hd1 & Hc1).
  cbn. repeat split; try congruence.
  intros c Hc. rewrite <- (Hc1 c Hc), <- (Hc2 c Hc).
  destruct c; try discriminate Hc; reflexivity.
Qed.

(** C7.  In every timestep of a run, the conductive, convective and
    radiative losses of the outer wall are computed from one outer-wall
    temperature, the one left by the conduction through the wall, and
    from one ambient sample, the one of the row.  Each recorded
    from-environment value is the negation of the to-environment value
    of its channel, and the recorded outer-wall temperature is that
    temperature updated once with the negated sum of the three
    channels.  The six cells of the input row are 0, as the driver fills
    them. *)
Theorem environment_channels_one_sample_one_update
    (p : Params) (rows out : list Row) (i : nat) (r r' : Row) :
  jit_battery_energy_flow_model p rows = Ok out ->
  nth_error rows i = Some r ->
  nth_error out i = Some r' ->
  cell r box_outer_cond_to_environment_energy = 0 ->
  cell r box_outer_conv_to_environment_energy = 0 ->
  cell r box_outer_radi_to_environment_energy = 0 ->
  cell r box_outer_cond_from_environment_energy = 0 ->
  cell r box_outer_conv_from_environment_energy = 0 ->
  cell r box_outer_radi_from_environment_energy = 0 ->
  exists (s s5 : State) (r5 : Row) (conv cond : Qc),
    state_at p rows i = Ok s
    /\ interior_flows p s r = Ok (s5, r5)
    /\ calculate_heat_energy_flow (box_outer_temp_c s5) (amb_temp r)
         (box_outer_convective_resistance p) (bucket_period_seconds p) = Ok conv
    /\ calculate_heat_energy_flow (box_outer_temp_c s5) (amb_temp r)
         (box_outer_conductive_resistance p) (bucket_period_seconds p) = Ok cond
    /\ Box_Outer_Conv_to_Environment_Energy_J r' = conv
    /\ Box_Outer_Cond_to_Environment_Energy_J r' = cond
    /\ Box_Outer_Radi_to_Environment_Energy_J r'
       = calculate_outer_radiative_heat_flow
           (total_box_area p) (box_outer_emissivity p)
           (box_outer_temp_c s5) (amb_temp r) (bucket_period_seconds p)
    /\ Box_Outer_Conv_from_Environment_Energy_J r'
       = - Box_Outer_Conv_to_Environment_Energy_J r'
    /\ Box_Outer_Cond_from_Environment_Energy_J r'
       = - Box_Outer_Cond_to_Environment_Energy_J r'
    /\ Box_Outer_Radi_from_Environment_Energy_J r'
       = - Box_Outer_Radi_to_Environment_Energy_J r'
    /\ calc_change_in_temperature_c (box_outer_temp_c s5)
         (- (Box_Outer_Conv_to_Environment_Energy_J r'
             + Box_Outer_Cond_to_Environment_Energy_J r'
             + Box_Outer_Radi_to_Environment_Energy_J r'))
         (box_heat_capacity p) (box_wall_mass_kg p)
       = Ok (Box_Outer_Temp_C r').
Proof.
  intros Hrun Hi Ho Z1 Z2 Z3 Z4 Z5 Z6.
  destruct (engine_timestep p rows out i r Hrun Hi) as (s & s' & r'' & Hs & Ht & Ho').
  rewrite Ho in Ho'. injection Ho' as <-.
  apply timestep_inv in Ht. destruct Ht as (s5 & r5 & r6 & Hint & Henv & ->).
  destruct (interior_flows_frame p s s5 r r5 Hint) as (Hamb & _ & _ & Hcells).
  rewrite <- (Hcells box_outer_cond_to_environment_energy eq_refl) in Z1.
  rewrite <- (Hcells box_outer_conv_to_environment_energy eq_refl) in Z2.
  rewrite <- (Hcells box_outer_radi_to_environment_energy eq_refl) in Z3.
  rewrite <- (Hcells box_outer_cond_from_environment_energy eq_refl) in Z4.
  rewrite <- (Hcells box_outer_conv_from_environment_energy eq_refl) in Z5.
  rewrite <- (Hcells box_outer_radi_from_environment_energy eq_refl) in Z6.
  pose proof Henv as Henv'.
  apply environment_losses_inv in Henv'.
  destruct Henv' as (conv & cond & Hconv & Hcond & -> & ->).
  rewrite Hamb in Hconv, Hcond |- *.
  exists s, s5, r5, conv, cond.
  unfold Box_Outer_Conv_to_Environment_Energy_J,
    Box_Outer_Cond_to_Environment_Energy_J,
    Box_Outer_Radi_to_Environment_Energy_J,
    Box_Outer_Conv_from_Environment_Energy_J,
    Box_Outer_Cond_from_Environment_Energy_J,
    Box_Outer_Radi_from_Environment_Energy_J, Box_Outer_Temp_C.
  cbn. rewrite Z1, Z2, Z3, Z4, Z5, Z6.
  repeat (split; [first [assumption | ring]|]).
  unfold environment_losses in Henv.
  rewrite Hamb, Hconv, bind_Ok, Hcond, bind_Ok in Henv.
  inv_bind Henv. clear Henv.
  apply change_in_temperature_inv in Hrun0. destruct Hrun0 as [Hnz _].
  rewrite !Qcplus_0_l. apply change_in_temperature_ok. exact Hnz.
Qed.

(** ** The state a paragraph returns does not depend on the cells *)

Lemma battery_conduction_any_row (p : Params) (s s' : State) (r r' r2 : Row) :
  battery_conduction p s r = Ok (s', r') ->
  exists r2', battery_conduction p s r2 = Ok (s', r2')
              /\ amb_temp r2' = amb_temp r2.
Proof.
  unfold battery_conduction.
  destruct (Qc_ltb (heater_threshold_temp_c p) (box_inner_temp_c s)); intro H.
  - inv_bind H. inv_bind H. inv_bind H. injection H as <- _.
    rewrite Hrun, bind_Ok, Hrun0, bind_Ok, Hrun1, bind_Ok.
    eexists. split; reflexivity.
  - injection H as <- _. eexists. split; reflexivity.
Qed.

Lemma battery_convection_any_row (p : Params) (s s' : State) (r r' r2 : Row) :
  battery_convection p s r = Ok (s', r') ->
  exists r2', battery_convection p s r2 = Ok (s', r2')
              /\ amb_temp r2' = amb_temp r2.
Proof.
  unfold battery_convection. intro H.
  inv_bind H. inv_bind H. inv_bind H. injection H as <- _.
  rewrite Hrun, bind_Ok, Hrun0, bind_Ok, Hrun1, bind_Ok.
  eexists. split; reflexivity.
Qed.

Lemma battery_radiation_any_row (p : Params) (s s' : State) (r r' r2 : Row) :
  battery_radiation p s r = Ok (s', r') ->
  exists r2', battery_radiation p s r2 = Ok (s', r2')
              /\ amb_temp r2' = amb_temp r2.
Proof.
  unfold battery_radiation. intro H.
  inv_bind H. inv_bind H. inv_bind H. injection H as <- _.
  rewrite Hrun, bind_Ok, Hrun0, bind_Ok, Hrun1, bind_Ok.
  eexists. split; reflexivity.
Qed.

Lemma wall_conduction_any_row (p : Params) (s s' : State) (r r' r2 : Row) :
  wall_conduction p s r = Ok (s', r') ->
  exists r2', wall_conduction p s r2 = Ok (s', r2')
              /\ amb_temp r2' = amb_temp r2.
Proof.
  unfold wall_conduction. intro H.
  inv_bind H. inv_bind H. inv_bind H. injection H as <- _.
  rewrite Hrun, bind_Ok, Hrun0, bind_Ok, Hrun1, bind_Ok.
  eexists. split; reflexivity.
Qed.

Lemma environment_losses_any_row (p : Params) (s s' : State) (r r' r2 : Row) :
  environment_losses p s r = Ok (s', r') ->
  amb_temp r2 = amb_temp r ->
  exists r2', environment_losses p s r2 = Ok (s', r2').
Proof.
  unfold environment_losses. intros H Hamb. rewrite Hamb.
  inv_bind H. inv_bind H. inv_bind H. injection H as <- _.
  rewrite Hrun, bind_Ok, Hrun0, bind_Ok, Hrun1, bind_Ok.
  eexists. reflexivity.
Qed.

(** With the heater off in the injection paragraph, the state a timestep
    returns depends on the row through the ambient sample only. *)
Lemma timestep_heater_off_any_row (p : Params) (s s' : State) (r r' r2 : Row) :
  timestep p s r = Ok (s', r') ->
  use_heater p && heater_on (heater_trigger p (heater_dwell p s)) = false ->
  amb_temp r2 = amb_temp r ->
  exists r2', timestep p s r2 = Ok (s', r2').
Proof.
  intros Ht Hoff Hamb.
  apply timestep_inv in Ht. destruct Ht as (s5 & r5 & r6 & Hint & Henv & _).
  destruct (interior_flows_frame p s s5 r r5 Hint) as (Hamb5 & _).
  invert_interior Hint.
  unfold heater_phase in Hheat.
  rewrite (heater_injection_off p _ r Hoff) in Hheat. injection Hheat as <- <-.
  destruct (battery_conduction_any_row p _ _ _ _ r2 Hcond) as (q2 & E2 & A2).
  destruct (battery_convection_any_row p _ _ _ _ q2 Hconv) as (q3 & E3 & A3).
  destruct (battery_radiation_any_row p _ _ _ _ q3 Hradi) as (q4 & E4 & A4).
  destruct (wall_conduction_any_row p _ _ _ _ q4 Hint) as (q5 & E5 & A5).
  assert (A : amb_temp q5 = amb_temp r5) by congruence.
  destruct (environment_losses_any_row p _ _ _ _ q5 Henv A) as (q6 & E6).
  unfold timestep, interior_flows, heater_phase.
  rewrite (heater_injection_off p _ r2 Hoff), bind_Ok.
  rewrite E2, bind_Ok, E3, bind_Ok, E4, bind_Ok, E5, bind_Ok, E6, bind_Ok.
  eexists. reflexivity.
Qed.

(** The battery tallies of a timestep whose heater is off. *)
Lemma timestep_heater_off_battery_ledger
    (p : Params) (s s' : State) (r r' : Row) :
  timestep p s r = Ok (s', r') ->
  use_heater p && heater_on (heater_trigger p (heater_dwell p s)) = false ->
  cell r battery_cond_to_box_inner_energy = 0 ->
  cell r battery_conv_to_box_inner_energy = 0 ->
  cell r battery_radi_to_box_inner_energy = 0 ->
  Battery_Temp_C r' = battery_temp_c s'
  /\ Battery_Losses_Input_J r' = cell r battery_losses_input
  /\ Battery_Net_Energy_J r'
     = cell r battery_net_energy
       - (Battery_Cond_to_Box_Inner_Energy_J r'
          + Battery_Conv_to_Box_Inner_Energy_J r'
          + Battery_Radi_to_Box_Inner_Energy_J r').
Proof.
  intros Ht Hoff Z1 Z2 Z3.
  apply timestep_inv in Ht. destruct Ht as (s5 & r5 & r6 & Hint & Henv & ->).
  invert_interior Hint.
  unfold heater_phase in Hheat.
  rewrite (heater_injection_off p _ r Hoff) in Hheat. injection Hheat as <- <-.
  apply battery_convection_inv in Hconv. destruct Hconv as (qv & _ & -> & ->).
  apply battery_radiation_inv in Hradi. destruct Hradi as (qr & _ & -> & ->).
  apply wall_conduction_inv in Hint. destruct Hint as (qw & _ & -> & ->).
  apply environment_losses_inv in Henv. destruct Henv as (cv & cd & _ & _ & -> & ->).
  unfold Battery_Temp_C, Battery_Losses_Input_J, Battery_Net_Energy_J,
    Battery_Cond_to_Box_Inner_Energy_J, Battery_Conv_to_Box_Inner_Energy_J,
    Battery_Radi_to_Box_Inner_Energy_J.
  destruct (Qc_ltb (heater_threshold_temp_c p)
              (box_inner_temp_c (heater_trigger p (heater_dwell p s)))) eqn:E.
  - apply (battery_conduction_above p _ _ _ _ E) in Hcond.
    destruct Hcond as (q & _ & -> & ->). cbn. rewrite Z1, Z2, Z3.
    repeat split. ring.
  - rewrite (battery_conduction_below p _ _ E) in Hcond.
    injection Hcond as <- <-. cbn. rewrite Z1, Z2, Z3.
    repeat split. ring.
Qed.

(** C10.  In every timestep of a run in which the injection test finds
    the heater off, replacing the externally supplied throughput loss of
    the row by any other value leaves the whole state the timestep
    returns unchanged, hence the recorded battery temperature, while the
    loss is still recorded in [Battery_Losses_Input_J] and counted in
    [Battery_Net_Energy_J].  So the throughput loss reaches the battery
    temperature in heater-on timesteps only. *)
Theorem throughput_loss_heats_battery_only_with_heater_on
    (p : Params) (rows out : list Row) (i : nat) (r r' : Row) :
  jit_battery_energy_flow_model p rows = Ok out ->
  nth_error rows i = Some r ->
  nth_error out i = Some r' ->
  cell r battery_cond_to_box_inner_energy = 0 ->
  cell r battery_conv_to_box_inner_energy = 0 ->
  cell r battery_radi_to_box_inner_energy = 0 ->
  exists s s' : State,
    state_at p rows i = Ok s
    /\ timestep p s r = Ok (s', r')
    /\ (use_heater p && heater_on (heater_trigger p (heater_dwell p s)) = false ->
        forall losses : Qc,
        exists r'' : Row,
          timestep p s (with_losses r losses) = Ok (s', r'')
          /\ Battery_Temp_C r'' = Battery_Temp_C r'
          /\ Battery_Losses_Input_J r'' = losses
          /\ Battery_Net_Energy_J r''
             = losses
               - (Battery_Cond_to_Box_Inner_Energy_J r''
                  + Battery_Conv_to_Box_Inner_Energy_J r''
                  + Battery_Radi_to_Box_Inner_Energy_J r'')).
Proof.
  intros Hrun Hi Ho Z1 Z2 Z3.
  destruct (engine_timestep p rows out i r Hrun Hi) as (s & s' & r0 & Hs & Ht & Ho').
  rewrite Ho in Ho'. injection Ho' as <-.
  exists s, s'. repeat (split; [assumption|]).
  intros Hoff losses.
  destruct (timestep_heater_off_any_row p s s' r r' (with_losses r losses)
              Ht Hoff eq_refl) as (r'' & Ht'').
  exists r''. split; [exact Ht''|].
  destruct (timestep_heater_off_battery_ledger p s s' r r' Ht Hoff Z1 Z2 Z3)
    as (Htemp & _ & _).
  destruct (timestep_heater_off_battery_ledger p s s' _ r'' Ht'' Hoff Z1 Z2 Z3)
    as (Htemp'' & Hloss'' & Hnet'').
  rewrite Htemp, Htemp''. split; [reflexivity|].
  split; [exact Hloss''|exact Hnet''].
Qed.

(** ** The humidity sample of a row is carried along and never read *)

Ltac split_runs :=
  repeat match goal with
    | |- context [calc_change_in_temperature_c ?t ?q ?c ?m] =>
        destruct (calc_change_in_temperature_c t q c m)
    | |- context [calculate_heat_energy_flow ?t1 ?t2 ?res ?dt] =>
        destruct (calculate_heat_energy_flow t1 t2 res dt)
    | |- context [calculate_inner_radiative_heat_flow ?a1 ?a2 ?e1 ?e2 ?t1 ?t2 ?dt] =>
        destruct (calculate_inner_radiative_heat_flow a1 a2 e1 e2 t1 t2 dt)
    | |- context [if ?b then _ else _] => destruct b
    end.

Lemma heater_phase_humidity (p : Params) (s : State) (r : Row) (h : Qc) :
  heater_phase p s (with_humidity r h)
  = '(s', r') <- heater_phase p s r ;; Ok (s', with_humidity r' h).
Proof.
  unfold heater_phase, heater_injection, bind. cbn. split_runs; reflexivity.
Qed.

Lemma battery_conduction_humidity (p : Params) (s : State) (r : Row) (h : Qc) :
  battery_conduction p s (with_humidity r h)
  = '(s', r') <- battery_conduction p s r ;; Ok (s', with_humidity r' h).
Proof.
  unfold battery_conduction, bind. split_runs; reflexivity.
Qed.

Lemma battery_convection_humidity (p : Params) (s : State) (r : Row) (h : Qc) :
  battery_convection p s (with_humidity r h)
  = '(s', r') <- battery_convection p s r ;; Ok (s', with_humidity r' h).
Proof.
  unfold battery_convection, bind. split_runs; reflexivity.
Qed.

Lemma battery_radiation_humidity (p : Params) (s : State) (r : Row) (h : Qc) :
  battery_radiation p s (with_humidity r h)
  = '(s', r') <- battery_radiation p s r ;; Ok (s', with_humidity r' h).
Proof.
  unfold battery_radiation, bind. split_runs; reflexivity.
Qed.

Lemma wall_conduction_humidity (p : Params) (s : State) (r : Row) (h : Qc) :
  wall_conduction p s (with_humidity r h)
  = '(s', r') <- wall_conduction p s r ;; Ok (s', with_humidity r' h).
Proof.
  unfold wall_conduction, bind. split_runs; reflexivity.
Qed.

Lemma environment_losses_humidity (p : Params) (s : State) (r : Row) (h : Qc) :
  environment_losses p s (with_humidity r h)
  = '(s', r') <- environment_losses p s r ;; Ok (s', with_humidity r' h).
Proof.
  unfold environment_losses, bind.
  change (amb_temp (with_humidity r h)) with (amb_temp r).
  split_runs; reflexivity.
Qed.

Lemma timestep_humidity (p : Params) (s : State) (r : Row) (h : Qc) :
  timestep p s (with_humidity r h)
  = '(s', r') <- timestep p s r ;; Ok (s', with_humidity r' h).
Proof.
  unfold timestep, interior_flows.
  rewrite heater_phase_humidity.
  destruct (heater_phase p s r) as [[s1 r1]|e]; [rewrite !bind_Ok|reflexivity].
  rewrite battery_conduction_humidity.
  destruct (battery_conduction p s1 r1) as [[s2 r2]|e]; [rewrite !bind_Ok|reflexivity].
  rewrite battery_convection_humidity.
  destruct (battery_convection p s2 r2) as [[s3 r3]|e]; [rewrite !bind_Ok|reflexivity].
  rewrite battery_radiation_humidity.
  destruct (battery_radiation p s3 r3) as [[s4 r4]|e]; [rewrite !bind_Ok|reflexivity].
  rewrite wall_conduction_humidity.
  destruct (wall_conduction p s4 r4) as [[s5 r5]|e]; [rewrite !bind_Ok|reflexivity].
  rewrite environment_losses_humidity.
  destruct (environment_losses p s5 r5) as [[s6 r6]|e]; [rewrite !bind_Ok|reflexivity].
  reflexivity.
Qed.

Lemma timestep_keeps_humidity (p : Params) (s s' : State) (r r' : Row) :
  timestep p s r = Ok (s', r') -> humidity r' = humidity r.
Proof.
  intro Ht. apply timestep_inv in Ht.
  destruct Ht as (s5 & r5 & r6 & Hint & Henv & ->).
  destruct (interior_flows_frame p s s5 r r5 Hint) as (_ & Hh & _).
  apply environment_losses_inv in Henv.
  destruct Henv as (cv & cd & _ & _ & _ & ->). cbn. exact Hh.
Qed.

Lemma engine_loop_humidity (p : Params) (rows1 rows2 : list Row) :
  Forall2 same_but_humidity rows1 rows2 ->
  forall s : State,
    same_outcome_but_humidity (engine_loop p s rows1) (engine_loop p s rows2).
Proof.
  induction 1 as [|r1 r2 rest1 rest2 Hr Hrest IH]; intro s; simpl.
  - constructor.
  - rewrite Hr, timestep_humidity.
    destruct (timestep p s r1) as [[s' r1']|e]; [rewrite !bind_Ok|reflexivity].
    specialize (IH s'). unfold same_outcome_but_humidity in IH |- *.
    destruct (engine_loop p s' rest1) as [o1|e1];
      destruct (engine_loop p s' rest2) as [o2|e2];
      rewrite ?bind_Ok; try exact IH; try contradiction.
    constructor; [reflexivity | exact IH].
Qed.

Lemma engine_loop_keeps_humidity (p : Params) (rows : list Row) :
  forall (s : State) (out : list Row),
    engine_loop p s rows = Ok out -> map humidity out = map humidity rows.
Proof.
  induction rows as [|r rest IH]; intros s out H; simpl in H.
  - injection H as <-. reflexivity.
  - inv_bind H. destruct a as [s' r']. inv_bind H. injection H as <-.
    simpl. f_equal.
    + eapply timestep_keeps_humidity. eassumption.
    + eapply IH. eassumption.
Qed.

Lemma engine_humidity (p : Params) (rows1 rows2 : list Row) :
  Forall2 same_but_humidity rows1 rows2 ->
  same_outcome_but_humidity
    (jit_battery_energy_flow_model p rows1)
    (jit_battery_energy_flow_model p rows2).
Proof.
  intro H. unfold jit_battery_energy_flow_model.
  destruct H as [|r1 r2 rest1 rest2 Hr Hrest]; [constructor|].
  replace (initial_state r2) with (initial_state r1)
    by (rewrite Hr; reflexivity).
  apply engine_loop_humidity. constructor; assumption.
Qed.

Lemma engine_keeps_humidity (p : Params) (rows : list Row) :
  humidity_passed_through (map humidity rows)
    (jit_battery_energy_flow_model p rows).
Proof.
  unfold humidity_passed_through, jit_battery_energy_flow_model.
  destruct rows as [|r0 rest]; [reflexivity|].
  destruct (engine_loop p (initial_state r0) (r0 :: rest)) as [out|e] eqn:E;
    [|exact I].
  eapply engine_loop_keeps_humidity. eassumption.
Qed.

(** C9.  Two input frames that differ in the relative-humidity column
    only give the same outcome through the driver and the engine: the
    same exception, or result tables whose rows agree on every column
    but humidity; the humidity column of each result is the one of its
    input frame. *)
Theorem humidity_has_no_influence
    (areas : Qc -> Qc -> Qc -> Qc -> Qc -> Qc -> list Z -> list Z ->
             result (Qc * Qc * Qc * Qc * Qc))
    (c : Config) (df1 df2 : list TmyRow) :
  Forall2 tmy_same_but_humidity df1 df2 ->
  same_outcome_but_humidity
    (calculate_net_energy_flows areas df1 c)
    (calculate_net_energy_flows areas df2 c)
  /\ humidity_passed_through (map Relative_Humidity_Perc df1)
       (calculate_net_energy_flows areas df1 c)
  /\ humidity_passed_through (map Relative_Humidity_Perc df2)
       (calculate_net_energy_flows areas df2 c).
Proof.
  intro H. unfold calculate_net_energy_flows.
  destruct (calculate_battery_box_parameters areas _ _ _ _ _ _ _ _ _) as [n|e];
    [rewrite !bind_Ok | repeat split; reflexivity].
  assert (Hpass : forall df T,
             map humidity (map (model_row c T) df)
             = map Relative_Humidity_Perc df).
  { intros df T. rewrite map_map. apply map_ext. reflexivity. }
  destruct H as [|t1 t2 rest1 rest2 Ht Hrest]; [repeat split; reflexivity|].
  split; [|split].
  - destruct Ht as (Hd & Ha & He). rewrite <- Ha.
    apply engine_humidity.
    assert (Hrows : forall T l1 l2,
               Forall2 tmy_same_but_humidity l1 l2 ->
               Forall2 same_but_humidity
                 (map (model_row c T) l1) (map (model_row c T) l2)).
    { intros T l1 l2 Hl. induction Hl as [|a b l1 l2 (Hd' & Ha' & He') Hl IH];
        simpl; constructor; [|exact IH].
      unfold same_but_humidity, model_row, with_humidity. cbn.
      rewrite Hd', Ha', He'. reflexivity. }
    apply Hrows. constructor; [repeat split; assumption | exact Hrest].
  - rewrite <- Hpass with (T := Ambient_Temperature_C t1).
    apply engine_keeps_humidity.
  - rewrite <- Hpass with (T := Ambient_Temperature_C t2).
    apply engine_keeps_humidity.
Qed.

Lemma holds_ok {A : Type} (x : result A) (test : A -> bool) :
  holds x test = true -> exists a, x = Ok a /\ test a = true.
Proof.
  destruct x as [a|e]; simpl; intro H; [|discriminate H].
  exists a. split; [reflexivity | exact H].
Qed.

(** ** Tallies of one timestep *)

(** What a timestep adds to the three net-energy tallies, in terms of the
    flow tallies it records, when the ledger cells of the row start at 0.
    The inner wall is balanced; the outer wall adds the losses to the
    environment instead of subtracting them; the battery tally counts
    what [battery_net_energy] held on entry next to the loss input. *)
Lemma timestep_net_energy_tallies (p : Params) (s s' : State) (r r' : Row) :
  timestep p s r = Ok (s', r') ->
  ledger_cleared r ->
  Box_Inner_Net_Energy_J r' = box_inner_balance r'
  /\ Box_Outer_Net_Energy_J r'
     = Box_Inner_to_Box_Outer_Energy_J r'
       + (Box_Outer_Conv_to_Environment_Energy_J r'
          + Box_Outer_Cond_to_Environment_Energy_J r'
          + Box_Outer_Radi_to_Environment_Energy_J r')
  /\ Battery_Net_Energy_J r'
     = cell r battery_net_energy
       + (if use_heater p && heater_on (heater_trigger p (heater_dwell p s))
          then Battery_Losses_Input_J r' + Heater_to_Battery_Energy_J r'
          else 0)
       - (Battery_Cond_to_Box_Inner_Energy_J r'
          + Battery_Conv_to_Box_Inner_Energy_J r'
          + Battery_Radi_to_Box_Inner_Energy_J r').
Proof.
  intros Ht Hz.
  assert (Z1 := Hz battery_heater_input eq_refl).
  assert (Z2 := Hz battery_cond_to_box_inner_energy eq_refl).
  assert (Z3 := Hz battery_conv_to_box_inner_energy eq_refl).
  assert (Z4 := Hz battery_radi_to_box_inner_energy eq_refl).
  assert (Z5 := Hz heater_to_battery_energy eq_refl).
  assert (Z6 := Hz heater_to_box_inner_energy eq_refl).
  assert (Z7 := Hz box_inner_net_energy eq_refl).
  assert (Z8 := Hz box_inner_to_box_outer_energy eq_refl).
  assert (Z9 := Hz box_outer_net_energy eq_refl).
  assert (Z10 := Hz box_outer_to_box_inner_energy eq_refl).
  assert (Z11 := Hz box_outer_cond_to_environment_energy eq_refl).
  assert (Z12 := Hz box_outer_conv_to_environment_energy eq_refl).
  assert (Z13 := Hz box_outer_radi_to_environment_energy eq_refl).
  clear Hz.
  apply timestep_inv in Ht. destruct Ht as (s5 & r5 & r6 & Hint & Henv & ->).
  invert_interior Hint.
  apply battery_convection_inv in Hconv. destruct Hconv as (qv & _ & -> & ->).
  apply battery_radiation_inv in Hradi. destruct Hradi as (qr & _ & -> & ->).
  apply wall_conduction_inv in Hint. destruct Hint as (qw & _ & -> & ->).
  apply environment_losses_inv in Henv. destruct Henv as (cv & cd & _ & _ & -> & ->).
  unfold box_inner_balance, Box_Inner_Net_Energy_J, Box_Outer_Net_Energy_J,
    Battery_Net_Energy_J, Battery_Losses_Input_J, Heater_to_Battery_Energy_J,
    Heater_to_Wall_Energy_J, Battery_Cond_to_Box_Inner_Energy_J,
    Battery_Conv_to_Box_Inner_Energy_J, Battery_Radi_to_Box_Inner_Energy_J,
    Box_Inner_to_Box_Outer_Energy_J, Box_Outer_Conv_to_Environment_Energy_J,
    Box_Outer_Cond_to_Environment_Energy_J,
    Box_Outer_Radi_to_Environment_Energy_J.
  destruct (Qc_ltb (heater_threshold_temp_c p) (box_inner_temp_c s1)) eqn:E;
    [ apply (battery_conduction_above p _ _ _ _ E) in Hcond;
      destruct Hcond as (q & _ & -> & ->)
    | rewrite (battery_conduction_below p _ _ E) in Hcond;
      injection Hcond as <- <- ];
    (destruct (heater_phase_cases p s s1 r r1 Hheat)
       as [[Hon Hinj]|[Hoff [_ ->]]];
     [ rewrite Hon;
       apply (heater_injection_on p _ _ _ _ Hon) in Hinj;
       destruct Hinj as [_ ->]
     | rewrite Hoff ]);
    cbn; rewrite ?Z1, ?Z2, ?Z3, ?Z4, ?Z5, ?Z6, ?Z7, ?Z8, ?Z9, ?Z10, ?Z11, ?Z12, ?Z13;
    repeat split; ring.
Qed.

(** ** The heater across one timestep *)

(** The heater flag and counter a timestep returns, and what it adds to
    the heater tallies. *)
Lemma timestep_heater (p : Params) (s s' : State) (r r' : Row) :
  timestep p s r = Ok (s', r') ->
  heater_on s' = heater_on (heater_trigger p (heater_dwell p s))
  /\ heater_counter s'
     = (if use_heater p && heater_on (heater_trigger p (heater_dwell p s))
        then heater_counter (heater_trigger p (heater_dwell p s)) + 1
        else heater_counter (heater_trigger p (heater_dwell p s)))%Z
  /\ Battery_Heater_Input_J r'
     = cell r battery_heater_input
       + (if use_heater p && heater_on (heater_trigger p (heater_dwell p s))
          then heater_power_j p else 0)
  /\ Heater_to_Battery_Energy_J r'
     = cell r heater_to_battery_energy
       + (if use_heater p && heater_on (heater_trigger p (heater_dwell p s))
          then heater_power_j p * heater_battery_transfer p else 0)
  /\ Heater_to_Wall_Energy_J r'
     = cell r heater_to_box_inner_energy
       + (if use_heater p && heater_on (heater_trigger p (heater_dwell p s))
          then heater_power_j p * (1 - heater_battery_transfer p) else 0).
Proof.
  intro Ht.
  apply timestep_inv in Ht. destruct Ht as (s5 & r5 & r6 & Hint & Henv & ->).
  invert_interior Hint.
  apply battery_convection_inv in Hconv. destruct Hconv as (qv & _ & -> & ->).
  apply battery_radiation_inv in Hradi. destruct Hradi as (qr & _ & -> & ->).
  apply wall_conduction_inv in Hint. destruct Hint as (qw & _ & -> & ->).
  apply environment_losses_inv in Henv. destruct Henv as (cv & cd & _ & _ & -> & ->).
  unfold Battery_Heater_Input_J, Heater_to_Battery_Energy_J,
    Heater_to_Wall_Energy_J.
  destruct (Qc_ltb (heater_threshold_temp_c p) (box_inner_temp_c s1)) eqn:E;
    [ apply (battery_conduction_above p _ _ _ _ E) in Hcond;
      destruct Hcond as (q & _ & -> & ->)
    | rewrite (battery_conduction_below p _ _ E) in Hcond;
      injection Hcond as <- <- ];
    (destruct (heater_phase_cases p s s1 r r1 Hheat)
       as [[Hon Hinj]|[Hoff [-> ->]]];
     [ rewrite Hon;
       apply (heater_injection_on p _ _ _ _ Hon) in Hinj;
       destruct Hinj as [-> ->]
     | rewrite Hoff ]);
    cbn; repeat split; ring.
Qed.

(** The heater tallies of row [i] of a run, from the outcome [b] of the
    injection test at iteration [i]. *)
Lemma engine_heater_tallies
    (p : Params) (rows out : list Row) (i : nat) (r r' : Row) (b : bool) :
  jit_battery_energy_flow_model p rows = Ok out ->
  nth_error rows i = Some r ->
  nth_error out i = Some r' ->
  holds (state_at p rows i)
    (fun s => Bool.eqb
       (use_heater p && heater_on (heater_trigger p (heater_dwell p s))) b)
  = true ->
  Battery_Heater_Input_J r'
  = cell r battery_heater_input + (if b then heater_power_j p else 0)
  /\ Heater_to_Battery_Energy_J r'
     = cell r heater_to_battery_energy
       + (if b then heater_power_j p * heater_battery_transfer p else 0)
  /\ Heater_to_Wall_Energy_J r'
     = cell r heater_to_box_inner_energy
       + (if b then heater_power_j p * (1 - heater_battery_transfer p) else 0).
Proof.
  intros Hrun Hi Ho Hb.
  destruct (engine_timestep p rows out i r Hrun Hi) as (s & s' & r'' & Hs & Ht & Ho').
  rewrite Ho in Ho'. injection Ho' as <-.
  rewrite Hs in Hb. unfold holds in Hb. apply Bool.eqb_prop in Hb.
  destruct (timestep_heater p s s' r r' Ht) as (_ & _ & H1 & H2 & H3).
  rewrite Hb in H1, H2, H3. auto.
Qed.


Lemma engine_length (p : Params) (rows out : list Row) :
  jit_battery_energy_flow_model p rows = Ok out -> length out = length rows.
Proof.
  unfold jit_battery_energy_flow_model.
  destruct rows as [|r0 rest]; intro H; [injection H as <-; reflexivity|].
  exact (engine_loop_length p (r0 :: rest) _ out H).
Qed.
(** C2, evaluated on a run that contradicts it.  With
    [heater_time_minutes] 3 and three samples at the threshold, the
    heater is triggered in timestep 0 and injects its 1800 J in
    timesteps 0 and 1, but timestep 2 injects nothing: the heater has
    been on for two timesteps, not three. *)
Theorem heater_dwell_shorter_than_minimum :
  heater_time_minutes (sample_params 3) = dec 3
  /\ use_heater (sample_params 3) = true
  /\ cell (sample_row 5 5 0) box_inner_temp
     <= heater_threshold_temp_c (sample_params 3)
  /\ exists r0 r1 r2 : Row,
       jit_battery_energy_flow_model (sample_params 3)
         [sample_row 5 5 0; sample_row 5 5 0; sample_row 5 5 0]
       = Ok [r0; r1; r2]
       /\ Battery_Heater_Input_J r0 = dec 1800
       /\ Battery_Heater_Input_J r1 = dec 1800
       /\ Battery_Heater_Input_J r2 = 0
       /\ Heater_to_Battery_Energy_J r2 = 0
       /\ Heater_to_Wall_Energy_J r2 = 0.
Proof.
  split; [reflexivity|]. split; [reflexivity|].
  split; [vm_compute; discriminate|].
  assert (Hp : well_conditioned (sample_params 3) = true)
    by (vm_compute; reflexivity).
  destruct (engine_total (sample_params 3)
              [sample_row 5 5 0; sample_row 5 5 0; sample_row 5 5 0]
              Hp ltac:(discriminate)) as [out Hout].
  assert (Hlen : length out = 3%nat)
    by (exact (engine_length _ _ _ Hout)).
  destruct out as [|r0 [|r1 [|r2 [|]]]]; try discriminate Hlen.
  exists r0, r1, r2. split; [exact Hout|].
  destruct (engine_heater_tallies _ _ _ 0%nat _ r0 true Hout eq_refl eq_refl)
    as (H0 & _ & _); [vm_compute; reflexivity|].
  destruct (engine_heater_tallies _ _ _ 1%nat _ r1 true Hout eq_refl eq_refl)
    as (H1 & _ & _); [vm_compute; reflexivity|].
  destruct (engine_heater_tallies _ _ _ 2%nat _ r2 false Hout eq_refl eq_refl)
    as (H2 & H2' & H2''); [vm_compute; reflexivity|].
  rewrite H0, H1, H2, H2', H2''.
  repeat split; apply Qc_is_canon; vm_compute; reflexivity.
Qed.

(** C1, evaluated on a run that contradicts it.  On one sample at the
    threshold with 108 J of throughput loss, the inner-wall tally equals
    the flows entering the inner wall minus the flows leaving it, but
    the outer-wall tally is the inflow plus the losses to the
    environment, and the battery tally exceeds its balance by the 108 J
    of throughput loss. *)
Theorem net_energy_tallies_off_balance :
  ledger_cleared (sample_row 5 5 108)
  /\ exists r0 : Row,
       jit_battery_energy_flow_model (sample_params 5) [sample_row 5 5 108]
       = Ok [r0]
       /\ Box_Inner_Net_Energy_J r0 = box_inner_balance r0
       /\ Box_Outer_Net_Energy_J r0 <> box_outer_balance r0
       /\ Box_Outer_Net_Energy_J r0
          = Box_Inner_to_Box_Outer_Energy_J r0
            + (Box_Outer_Cond_to_Environment_Energy_J r0
               + Box_Outer_Conv_to_Environment_Energy_J r0
               + Box_Outer_Radi_to_Environment_Energy_J r0)
       /\ Battery_Net_Energy_J r0 <> battery_balance r0
       /\ Battery_Net_Energy_J r0 = battery_balance r0 + dec 108.
Proof.
  split.
  { intros c Hc. destruct c; try discriminate Hc; reflexivity. }
  assert (H : holds
                (jit_battery_energy_flow_model (sample_params 5)
                   [sample_row 5 5 108])
                (fun out =>
                   match out with
                   | [r0] =>
                       Qc_eqb (Box_Inner_Net_Energy_J r0) (box_inner_balance r0)
                       && negb (Qc_eqb (Box_Outer_Net_Energy_J r0)
                                  (box_outer_balance r0))
                       && Qc_eqb (Box_Outer_Net_Energy_J r0)
                            (Box_Inner_to_Box_Outer_Energy_J r0
                             + (Box_Outer_Cond_to_Environment_Energy_J r0
                                + Box_Outer_Conv_to_Environment_Energy_J r0
                                + Box_Outer_Radi_to_Environment_Energy_J r0))
                       && negb (Qc_eqb (Battery_Net_Energy_J r0)
                                  (battery_balance r0))
                       && Qc_eqb (Battery_Net_Energy_J r0)
                            (battery_balance r0 + dec 108)
                   | _ => false
                   end) = true)
    by (vm_compute; reflexivity).
  apply holds_ok in H. destruct H as (out & Hout & Htest).
  destruct out as [|r0 [|]]; try discriminate Htest.
  exists r0. split; [exact Hout|].
  repeat (apply andb_prop in Htest;
          let H := fresh "T" in destruct Htest as [Htest H]).
  apply Qc_eqb_eq in Htest, T, T1.
  apply negb_true_iff, Qc_eqb_neq in T0, T2.
  auto.
Qed.

(** ** Re-triggering the heater *)

(** C3, as stated, fails: in the second timestep of a run in the cold the
    heater is still on after the dwell bookkeeping, with two elapsed
    counts, and the trigger check sets the counter back to 0. *)
Lemma retrigger_resets_elapsed_counter :
  exists s1 : State,
    state_at (sample_params 5) [sample_row 0 0 0; sample_row 0 0 0] 1 = Ok s1
    /\ use_heater (sample_params 5) = true
    /\ heater_on (heater_dwell (sample_params 5) s1) = true
    /\ box_inner_temp_c (heater_dwell (sample_params 5) s1)
       <= heater_threshold_temp_c (sample_params 5)
    /\ heater_counter (heater_dwell (sample_params 5) s1) = 2%Z
    /\ heater_counter
         (heater_trigger (sample_params 5) (heater_dwell (sample_params 5) s1))
       = 0%Z
    /\ heater_trigger (sample_params 5) (heater_dwell (sample_params 5) s1)
       <> heater_dwell (sample_params 5) s1.
Proof.
  assert (H : holds
                (state_at (sample_params 5)
                   [sample_row 0 0 0; sample_row 0 0 0] 1)
                (fun s1 =>
                   let p := sample_params 5 in
                   heater_on (heater_dwell p s1)
                   && Qc_leb (box_inner_temp_c (heater_dwell p s1))
                        (heater_threshold_temp_c p)
                   && Z.eqb (heater_counter (heater_dwell p s1)) 2
                   && Z.eqb (heater_counter
                               (heater_trigger p (heater_dwell p s1))) 0)
              = true)
    by (vm_compute; reflexivity).
  apply holds_ok in H. destruct H as (s1 & Hs1 & Htest).
  cbv zeta in Htest.
  repeat (apply andb_prop in Htest;
          let H := fresh "T" in destruct Htest as [Htest H]).
  apply Qc_leb_le in T1. apply Z.eqb_eq in T, T0.
  exists s1. repeat (split; [first [assumption | reflexivity]|]).
  intro Heq. rewrite Heq, T0 in T. discriminate T.
Qed.

(** C3, amended.  In every timestep in which the heater is still on
    after the dwell bookkeeping and the inner wall is at or below the
    threshold, with the heater enabled, the trigger check keeps the
    heater on and the temperatures as they are and sets the elapsed
    counter to 0; the timestep ends with the heater on and the counter
    at 1, as after a first trigger. *)
Theorem retrigger_restarts_elapsed_counter
    (p : Params) (s s' : State) (r r' : Row) :
  timestep p s r = Ok (s', r') ->
  use_heater p = true ->
  heater_on (heater_dwell p s) = true ->
  box_inner_temp_c (heater_dwell p s) <= heater_threshold_temp_c p ->
  heater_trigger p (heater_dwell p s) = with_heater (heater_dwell p s) true 0
  /\ heater_on s' = true
  /\ heater_counter s' = 1%Z.
Proof.
  intros Ht Huse Hon Hcold.
  assert (Htrig : heater_trigger p (heater_dwell p s)
                  = with_heater (heater_dwell p s) true 0).
  { unfold heater_trigger. apply Qc_leb_le in Hcold.
    rewrite Hcold, Huse. reflexivity. }
  split; [exact Htrig|].
  destruct (timestep_heater p s s' r r' Ht) as (H1 & H2 & _).
  rewrite Htrig in H1, H2. rewrite Huse in H2. simpl in H1, H2. auto.
Qed.

Lemma retrigger_restarts_elapsed_counter_witness :
  exists (s' : State) (r' : Row),
    timestep (sample_params 5) sample_cold_state (sample_row 0 0 0) = Ok (s', r')
    /\ heater_trigger (sample_params 5)
         (heater_dwell (sample_params 5) sample_cold_state)
       = with_heater (heater_dwell (sample_params 5) sample_cold_state) true 0
    /\ heater_on s' = true
    /\ heater_counter s' = 1%Z.
Proof.
  destruct (timestep (sample_params 5) sample_cold_state (sample_row 0 0 0))
    as [[s' r']|e] eqn:Ht; [|vm_compute in Ht; discriminate Ht].
  exists s', r'. split; [reflexivity|].
  apply (retrigger_restarts_elapsed_counter
           (sample_params 5) sample_cold_state s' (sample_row 0 0 0) r' Ht).
  - reflexivity.
  - vm_compute. reflexivity.
  - vm_compute. discriminate.
Defined.

(** ** The network builder on material lists *)

(** With two five-item layers and areas that make no divisor zero, the
    builder returns; the wall mass multiplies each density by item 1 of
    its tuple, and the heat capacity is the mean of the two items 2. *)
Lemma builder_two_layers
    (areas : Qc -> Qc -> Qc -> Qc -> Qc -> Qc -> list Z -> list Z ->
             result (Qc * Qc * Qc * Qc * Qc))
    (bl bw bh xl xw xh : Qc) (ba xa : option (list Z))
    (a1 a2 a3 a4 a5 : Qc)
    (t0 k0 c0 d0 e0 t1 k1 c1 d1 e1 : Qc) (n : Network) :
  areas bl bw bh xl xw xh (default_transfer_array ba) (default_transfer_array xa)
  = Ok (a1, a2, a3, a4, a5) ->
  calculate_battery_box_parameters areas bl bw bh xl xw xh ba xa
    [PyTuple [t0; k0; c0; d0; e0]; PyTuple [t1; k1; c1; d1; e1]] = Ok n ->
  net_total_box_area n = a4 + a5
  /\ net_box_wall_mass_kg n
     = (a4 + a5) / dec 2 * d1 * k1 + (a4 + a5) / dec 2 * d0 * k0
  /\ net_box_heat_capacity n = (c1 + c0) / dec 2.
Proof.
  intros Ha H. unfold calculate_battery_box_parameters in H.
  rewrite Ha in H.
  repeat (progress (cbn [list_item nth_error tuple_item truthy] in H;
                    rewrite ?bind_Ok in H)).
  inv_bind H. inv_bind H. inv_bind H. inv_bind H. inv_bind H. inv_bind H.
  injection H as <-. cbn. auto.
Qed.

(** C4, evaluated on a list that contradicts it.  For the two sample
    layers, laid out as (thickness, thermal_conductivity, heat_capacity,
    density, emissivity), the builder returns the mean of the two heat
    capacities, but its wall mass multiplies each density by the thermal
    conductivity of the layer instead of its thickness. *)
Theorem wall_mass_multiplies_density_by_conductivity :
  exists n : Network,
    sample_network [sample_inner_layer; sample_outer_layer] = Ok n
    /\ net_total_box_area n = dec 2.76
    /\ net_box_heat_capacity n = (dec 1300 + dec 1700) / dec 2
    /\ net_box_wall_mass_kg n
       = dec 2.76 / dec 2 * dec 600 * dec 0.15
         + dec 2.76 / dec 2 * dec 20 * dec 0.03
    /\ net_box_wall_mass_kg n
       <> dec 2.76 / dec 2 * dec 20 * dec 0.01
          + dec 2.76 / dec 2 * dec 600 * dec 0.02.
Proof.
  assert (H : holds (sample_network [sample_inner_layer; sample_outer_layer])
                (fun n =>
                   Qc_eqb (net_total_box_area n) (dec 2.76)
                   && Qc_eqb (net_box_heat_capacity n)
                        ((dec 1300 + dec 1700) / dec 2)
                   && Qc_eqb (net_box_wall_mass_kg n)
                        (dec 2.76 / dec 2 * dec 600 * dec 0.15
                         + dec 2.76 / dec 2 * dec 20 * dec 0.03)
                   && negb (Qc_eqb (net_box_wall_mass_kg n)
                              (dec 2.76 / dec 2 * dec 20 * dec 0.01
                               + dec 2.76 / dec 2 * dec 600 * dec 0.02)))
              = true)
    by (vm_compute; reflexivity).
  apply holds_ok in H. destruct H as (n & Hn & Htest).
  repeat (apply andb_prop in Htest;
          let H := fresh "T" in destruct Htest as [Htest H]).
  apply Qc_eqb_eq in Htest, T0, T1.
  apply negb_true_iff, Qc_eqb_neq in T.
  exists n. auto.
Qed.

(** A list of one layer: [material_list[1]] is out of range. *)
Lemma builder_one_layer
    (areas : Qc -> Qc -> Qc -> Qc -> Qc -> Qc -> list Z -> list Z ->
             result (Qc * Qc * Qc * Qc * Qc))
    (bl bw bh xl xw xh : Qc) (ba xa : option (list Z)) (m : pyobj) :
  exists e : exn,
    calculate_battery_box_parameters areas bl bw bh xl xw xh ba xa [m]
    = Raise e.
Proof.
  unfold calculate_battery_box_parameters.
  destruct (areas _ _ _ _ _ _ _ _) as [[[[[a1 a2] a3] a4] a5]|e];
    [rewrite bind_Ok | exists e; reflexivity].
  cbn [list_item nth_error]. rewrite !bind_Ok.
  destruct (tuple_item m 0) as [x0|e]; [rewrite !bind_Ok | exists e; reflexivity].
  destruct (tuple_item m 1) as [x1|e]; [rewrite !bind_Ok | exists e; reflexivity].
  destruct (tuple_item m 2) as [x2|e]; [rewrite !bind_Ok | exists e; reflexivity].
  destruct (tuple_item m 3) as [x3|e]; [rewrite !bind_Ok | exists e; reflexivity].
  exists IndexError. reflexivity.
Qed.

(** A second entry that is [None] or the empty tuple selects the
    single-layer branch, and the composite resistance then fails to
    unpack that entry (unless the run has failed before). *)
Lemma builder_empty_second_entry
    (areas : Qc -> Qc -> Qc -> Qc -> Qc -> Qc -> list Z -> list Z ->
             result (Qc * Qc * Qc * Qc * Qc))
    (bl bw bh xl xw xh : Qc) (ba xa : option (list Z)) (m m2 : pyobj) :
  truthy m2 = false ->
  exists e : exn,
    calculate_battery_box_parameters areas bl bw bh xl xw xh ba xa [m; m2]
    = Raise e.
Proof.
  intro Hm2. unfold calculate_battery_box_parameters.
  destruct (areas _ _ _ _ _ _ _ _) as [[[[[a1 a2] a3] a4] a5]|e];
    [rewrite bind_Ok | exists e; reflexivity].
  cbn [list_item nth_error]. rewrite !bind_Ok.
  destruct (tuple_item m 0) as [x0|e]; [rewrite !bind_Ok | exists e; reflexivity].
  destruct (tuple_item m 1) as [x1|e]; [rewrite !bind_Ok | exists e; reflexivity].
  destruct (tuple_item m 2) as [x2|e]; [rewrite !bind_Ok | exists e; reflexivity].
  destruct (tuple_item m 3) as [x3|e]; [rewrite !bind_Ok | exists e; reflexivity].
  rewrite Hm2, !bind_Ok.
  destruct (calculate_conductive_resistance _ _ a1) as [y0|e];
    [rewrite bind_Ok | exists e; reflexivity].
  destruct (calculate_convective_resistance _ a2) as [y1|e];
    [rewrite bind_Ok | exists e; reflexivity].
  destruct (calculate_convective_resistance _ a3) as [y2|e];
    [rewrite bind_Ok | exists e; reflexivity].
  unfold calculate_composite_conductive_resistance. cbn [composite_loop].
  destruct (unpack5 m) as [[[[[u0 u1] u2] u3] u4]|e];
    [rewrite bind_Ok | exists e; reflexivity].
  destruct (fdiv u0 _) as [y3|e]; [rewrite bind_Ok | exists e; reflexivity].
  destruct m2 as [|[|x xs]]; try discriminate Hm2.
  - exists TypeError. reflexivity.
  - exists ValueError. reflexivity.
Qed.

(** C5, evaluated on lists that contradict it.  No list of one layer
    makes the builder return a network: on the sample geometry a list of
    one layer raises [IndexError], and a layer followed by [None] raises
    [TypeError]. *)
Theorem single_layer_list_is_rejected :
  (forall (areas : Qc -> Qc -> Qc -> Qc -> Qc -> Qc -> list Z -> list Z ->
                   result (Qc * Qc * Qc * Qc * Qc))
          (bl bw bh xl xw xh : Qc) (ba xa : option (list Z))
          (m : pyobj) (n : Network),
      calculate_battery_box_parameters areas bl bw bh xl xw xh ba xa [m]
      <> Ok n)
  /\ sample_network [sample_outer_layer] = Raise IndexError
  /\ sample_network [sample_outer_layer; PyNone] = Raise TypeError.
Proof.
  split; [|split].
  - intros areas bl bw bh xl xw xh ba xa m n H.
    destruct (builder_one_layer areas bl bw bh xl xw xh ba xa m) as [e He].
    rewrite He in H. discriminate H.
  - vm_compute. reflexivity.
  - vm_compute. reflexivity.
Qed.

(** ** The concrete scenario of the primitives *)

(** C8.  For positive thickness, conductivity and area the conductive
    resistance is thickness / (conductivity * area); for 0.01 m,
    0.04 W/mK and 1 m2 it is 0.25 K/W, and a difference of 10 degrees
    over that resistance during 60 s is a flow of (10 / 0.25) * 60 =
    2400 J. *)
Theorem conductive_resistance_and_flow
    (thickness_m thermal_conductivity area_m2 : Qc) :
  0 < thickness_m -> 0 < thermal_conductivity -> 0 < area_m2 ->
  calculate_conductive_resistance thickness_m thermal_conductivity area_m2
  = Ok (thickness_m / (thermal_conductivity * area_m2))
  /\ calculate_conductive_resistance (dec 0.01) (dec 0.04) (dec 1)
     = Ok (dec 0.25)
  /\ forall t : Qc,
       calculate_heat_energy_flow (t + dec 10) t (dec 0.25) (dec 60)
       = Ok (dec 2400)
       /\ dec 2400 = dec 10 / dec 0.25 * dec 60.
Proof.
  intros Ht Hk Ha. split; [|split].
  - apply fdiv_ok. apply not_eq_sym, Qclt_not_eq.
    rewrite <- (Qcmult_0_l area_m2). apply Qcmult_lt_compat_r; assumption.
  - unfold calculate_conductive_resistance. rewrite fdiv_ok.
    + apply (f_equal Ok). apply Qc_is_canon. vm_compute. reflexivity.
    + apply Qc_eqb_neq. vm_compute. reflexivity.
  - intro t. split.
    + rewrite heat_energy_flow_ok.
      * apply (f_equal Ok). replace (t + dec 10 - t) with (dec 10) by ring.
        apply Qc_is_canon. vm_compute. reflexivity.
      * apply Qc_eqb_neq. vm_compute. reflexivity.
    + apply Qc_is_canon. vm_compute. reflexivity.
Qed.

Lemma conductive_resistance_and_flow_witness :
  (0 < dec 0.01 /\ 0 < dec 0.04 /\ 0 < dec 1)
  /\ calculate_conductive_resistance (dec 0.01) (dec 0.04) (dec 1)
     = Ok (dec 0.01 / (dec 0.04 * dec 1))
  /\ calculate_conductive_resistance (dec 0.01) (dec 0.04) (dec 1)
     = Ok (dec 0.25)
  /\ forall t : Qc,
       calculate_heat_energy_flow (t + dec 10) t (dec 0.25) (dec 60)
       = Ok (dec 2400)
       /\ dec 2400 = dec 10 / dec 0.25 * dec 60.
Proof.
  assert (H1 : 0 < dec 0.01) by (vm_compute; reflexivity).
  assert (H2 : 0 < dec 0.04) by (vm_compute; reflexivity).
  assert (H3 : 0 < dec 1) by (vm_compute; reflexivity).
  split; [auto|].
  exact (conductive_resistance_and_flow (dec 0.01) (dec 0.04) (dec 1) H1 H2 H3).
Defined.

(** In binary64 the scenario gives the same figures, with no rounding
    error: 0.25 K/W and 2400 J. *)
Lemma scenario_in_binary64 : Binary64.scenario = true.
Proof. vm_compute. reflexivity. Qed.

(** ** Instances on the sample run *)

Lemma conduction_gated_by_threshold_witness :
  exists (out : list Row) (r' : Row),
    jit_battery_energy_flow_model (sample_params 5) [sample_row 5 5 108] = Ok out
    /\ nth_error out 0 = Some r'
    /\ exists (s s1 s2 s3 s4 s5 s' : State) (r1 r2 r3 r4 r5 r6 : Row),
         state_at (sample_params 5) [sample_row 5 5 108] 0 = Ok s
         /\ heater_phase (sample_params 5) s (sample_row 5 5 108) = Ok (s1, r1)
         /\ battery_conduction (sample_params 5) s1 r1 = Ok (s2, r2)
         /\ battery_convection (sample_params 5) s2 r2 = Ok (s3, r3)
         /\ battery_radiation (sample_params 5) s3 r3 = Ok (s4, r4)
         /\ wall_conduction (sample_params 5) s4 r4 = Ok (s5, r5)
         /\ environment_losses (sample_params 5) s5 r5 = Ok (s', r6)
         /\ r' = record_temperatures s' r6
         /\ state_at (sample_params 5) [sample_row 5 5 108] 1 = Ok s'
         /\ (heater_threshold_temp_c (sample_params 5) < box_inner_temp_c s1 ->
             exists q : Qc,
               calculate_heat_energy_flow
                 (battery_temp_c s1) (box_inner_temp_c s1)
                 (battery_conductive_resistance (sample_params 5))
                 (bucket_period_seconds (sample_params 5)) = Ok q
               /\ Battery_Cond_to_Box_Inner_Energy_J r' = q
               /\ Box_Inner_Cond_to_Battery_Energy_J r' = - q
               /\ calc_change_in_temperature_c (battery_temp_c s1) (- q)
                    (battery_heat_capacity (sample_params 5))
                    (battery_mass_kg (sample_params 5))
                  = Ok (battery_temp_c s2)
               /\ calc_change_in_temperature_c (box_inner_temp_c s1) q
                    (box_heat_capacity (sample_params 5))
                    (box_wall_mass_kg (sample_params 5))
                  = Ok (box_inner_temp_c s2))
         /\ (box_inner_temp_c s1 <= heater_threshold_temp_c (sample_params 5) ->
             Battery_Cond_to_Box_Inner_Energy_J r' = 0
             /\ Box_Inner_Cond_to_Battery_Energy_J r' = 0
             /\ battery_temp_c s2 = battery_temp_c s1
             /\ box_inner_temp_c s2 = box_inner_temp_c s1).
Proof.
  destruct (jit_battery_energy_flow_model (sample_params 5)
              [sample_row 5 5 108]) as [out|e] eqn:Hrun;
    [|vm_compute in Hrun; discriminate Hrun].
  destruct (engine_timestep _ _ _ 0%nat _ Hrun eq_refl)
    as (s & s' & r' & _ & _ & Ho).
  exists out, r'. split; [reflexivity|]. split; [exact Ho|].
  exact (conduction_gated_by_threshold (sample_params 5) [sample_row 5 5 108]
           out 0 (sample_row 5 5 108) r' Hrun eq_refl Ho eq_refl eq_refl).
Defined.

Lemma environment_channels_one_sample_one_update_witness :
  exists (out : list Row) (r' : Row),
    jit_battery_energy_flow_model (sample_params 5) [sample_row 5 5 108] = Ok out
    /\ nth_error out 0 = Some r'
    /\ exists (s s5 : State) (r5 : Row) (conv cond : Qc),
         state_at (sample_params 5) [sample_row 5 5 108] 0 = Ok s
         /\ interior_flows (sample_params 5) s (sample_row 5 5 108) = Ok (s5, r5)
         /\ calculate_heat_energy_flow (box_outer_temp_c s5)
              (amb_temp (sample_row 5 5 108))
              (box_outer_convective_resistance (sample_params 5))
              (bucket_period_seconds (sample_params 5)) = Ok conv
         /\ calculate_heat_energy_flow (box_outer_temp_c s5)
              (amb_temp (sample_row 5 5 108))
              (box_outer_conductive_resistance (sample_params 5))
              (bucket_period_seconds (sample_params 5)) = Ok cond
         /\ Box_Outer_Conv_to_Environment_Energy_J r' = conv
         /\ Box_Outer_Cond_to_Environment_Energy_J r' = cond
         /\ Box_Outer_Radi_to_Environment_Energy_J r'
            = calculate_outer_radiative_heat_flow
                (total_box_area (sample_params 5))
                (box_outer_emissivity (sample_params 5))
                (box_outer_temp_c s5) (amb_temp (sample_row 5 5 108))
                (bucket_period_seconds (sample_params 5))
         /\ Box_Outer_Conv_from_Environment_Energy_J r'
            = - Box_Outer_Conv_to_Environment_Energy_J r'
         /\ Box_Outer_Cond_from_Environment_Energy_J r'
            = - Box_Outer_Cond_to_Environment_Energy_J r'
         /\ Box_Outer_Radi_from_Environment_Energy_J r'
            = - Box_Outer_Radi_to_Environment_Energy_J r'
         /\ calc_change_in_temperature_c (box_outer_temp_c s5)
              (- (Box_Outer_Conv_to_Environment_Energy_J r'
                  + Box_Outer_Cond_to_Environment_Energy_J r'
                  + Box_Outer_Radi_to_Environment_Energy_J r'))
              (box_heat_capacity (sample_params 5))
              (box_wall_mass_kg (sample_params 5))
            = Ok (Box_Outer_Temp_C r').
Proof.
  destruct (jit_battery_energy_flow_model (sample_params 5)
              [sample_row 5 5 108]) as [out|e] eqn:Hrun;
    [|vm_compute in Hrun; discriminate Hrun].
  destruct (engine_timestep _ _ _ 0%nat _ Hrun eq_refl)
    as (s & s' & r' & _ & _ & Ho).
  exists out, r'. split; [reflexivity|]. split; [exact Ho|].
  exact (environment_channels_one_sample_one_update
           (sample_params 5) [sample_row 5 5 108]
           out 0 (sample_row 5 5 108) r' Hrun eq_refl Ho
           eq_refl eq_refl eq_refl eq_refl eq_refl eq_refl).
Defined.

Lemma throughput_loss_heats_battery_only_with_heater_on_witness :
  exists (out : list Row) (r' : Row),
    jit_battery_energy_flow_model (sample_params 5) [sample_row 8 8 108] = Ok out
    /\ nth_error out 0 = Some r'
    /\ exists s s' : State,
         state_at (sample_params 5) [sample_row 8 8 108] 0 = Ok s
         /\ timestep (sample_params 5) s (sample_row 8 8 108) = Ok (s', r')
         /\ use_heater (sample_params 5)
            && heater_on (heater_trigger (sample_params 5)
                            (heater_dwell (sample_params 5) s)) = false
         /\ forall losses : Qc,
            exists r'' : Row,
              timestep (sample_params 5) s
                (with_losses (sample_row 8 8 108) losses) = Ok (s', r'')
              /\ Battery_Temp_C r'' = Battery_Temp_C r'
              /\ Battery_Losses_Input_J r'' = losses
              /\ Battery_Net_Energy_J r''
                 = losses
                   - (Battery_Cond_to_Box_Inner_Energy_J r''
                      + Battery_Conv_to_Box_Inner_Energy_J r''
                      + Battery_Radi_to_Box_Inner_Energy_J r'').
Proof.
  destruct (jit_battery_energy_flow_model (sample_params 5)
              [sample_row 8 8 108]) as [out|e] eqn:Hrun;
    [|vm_compute in Hrun; discriminate Hrun].
  destruct (engine_timestep _ _ _ 0%nat _ Hrun eq_refl)
    as (s0 & s0' & r' & _ & _ & Ho).
  exists out, r'. split; [reflexivity|]. split; [exact Ho|].
  destruct (throughput_loss_heats_battery_only_with_heater_on
              (sample_params 5) [sample_row 8 8 108]
              out 0 (sample_row 8 8 108) r' Hrun eq_refl Ho
              eq_refl eq_refl eq_refl) as (s & s' & Hs & Ht & Hoff).
  exists s, s'. split; [exact Hs|]. split; [exact Ht|].
  assert (Hheater : use_heater (sample_params 5)
            && heater_on (heater_trigger (sample_params 5)
                            (heater_dwell (sample_params 5) s)) = false).
  { injection Hs as <-. vm_compute. reflexivity. }
  split; [exact Hheater | exact (Hoff Hheater)].
Defined.

Lemma humidity_has_no_influence_witness :
  Forall2 tmy_same_but_humidity sample_frame_humid sample_frame_dry
  /\ same_outcome_but_humidity
       (calculate_net_energy_flows sample_areas sample_frame_humid sample_config)
       (calculate_net_energy_flows sample_areas sample_frame_dry sample_config)
  /\ humidity_passed_through (map Relative_Humidity_Perc sample_frame_humid)
       (calculate_net_energy_flows sample_areas sample_frame_humid sample_config)
  /\ humidity_passed_through (map Relative_Humidity_Perc sample_frame_dry)
       (calculate_net_energy_flows sample_areas sample_frame_dry sample_config).
Proof.
  assert (H : Forall2 tmy_same_but_humidity sample_frame_humid sample_frame_dry).
  { constructor; [|constructor].
    split; [reflexivity|]. split; reflexivity. }
  split; [exact H|].
  exact (humidity_has_no_influence sample_areas sample_config
           sample_frame_humid sample_frame_dry H).
Defined.

(** The two sample frames do run through the driver. *)
Lemma sample_frames_return :
  holds (calculate_net_energy_flows sample_areas sample_frame_humid sample_config)
    (fun out => Nat.eqb (length out) 1) = true
  /\ holds (calculate_net_energy_flows sample_areas sample_frame_dry sample_config)
       (fun out => Nat.eqb (length out) 1) = true.
Proof.
  split; vm_compute; reflexivity.
Qed.

(** * Further properties of the engine, the builder and the driver *)

(** ** The exceptions of the loop *)

Lemma bind_raise {A B : Type} (m : result A) (k : A -> result B) (e : exn) :
  bind m k = Raise e ->
  m = Raise e \/ exists a, m = Ok a /\ k a = Raise e.
Proof.
  destruct m as [a|e']; unfold bind; intro H.
  - right. exists a. split; [reflexivity | exact H].
  - left. injection H as <-. reflexivity.
Qed.

Lemma fdiv_raise (x y : Qc) (e : exn) :
  fdiv x y = Raise e -> e = ZeroDivisionError.
Proof.
  unfold fdiv. destruct (Qc_eqb y 0); intro H; [|discriminate H].
  injection H as <-. reflexivity.
Qed.

(** Splits [H : x <- m ;; k = Raise e]; the failure of [m] is closed by
    [tac], the run goes on with the failure of [k]. *)
Ltac raise_bind H tac :=
  let a := fresh "a" in
  let Ha := fresh "Hok" in
  apply bind_raise in H; destruct H as [H|(a & Ha & H)]; [solve [tac H]|].

Ltac by_fdiv H := exact (fdiv_raise _ _ _ H).

Lemma heat_energy_flow_raise (t1 t2 res dt : Qc) (e : exn) :
  calculate_heat_energy_flow t1 t2 res dt = Raise e -> e = ZeroDivisionError.
Proof.
  unfold calculate_heat_energy_flow. intro H.
  raise_bind H by_fdiv. discriminate H.
Qed.

Lemma change_in_temperature_raise (t q c m : Qc) (e : exn) :
  calc_change_in_temperature_c t q c m = Raise e -> e = ZeroDivisionError.
Proof.
  unfold calc_change_in_temperature_c. intro H.
  raise_bind H by_fdiv. discriminate H.
Qed.

Lemma inner_radiative_heat_flow_raise (a1 a2 e1 e2 t1 t2 dt : Qc) (e : exn) :
  calculate_inner_radiative_heat_flow a1 a2 e1 e2 t1 t2 dt = Raise e ->
  e = ZeroDivisionError.
Proof.
  unfold calculate_inner_radiative_heat_flow. intro H.
  raise_bind H by_fdiv. raise_bind H by_fdiv.
  raise_bind H by_fdiv. raise_bind H by_fdiv. discriminate H.
Qed.

Ltac by_primitive H :=
  lazymatch type of H with
  | calculate_heat_energy_flow _ _ _ _ = Raise _ =>
      exact (heat_energy_flow_raise _ _ _ _ _ H)
  | calc_change_in_temperature_c _ _ _ _ = Raise _ =>
      exact (change_in_temperature_raise _ _ _ _ _ H)
  | calculate_inner_radiative_heat_flow _ _ _ _ _ _ _ = Raise _ =>
      exact (inner_radiative_heat_flow_raise _ _ _ _ _ _ _ _ H)
  | fdiv _ _ = Raise _ => exact (fdiv_raise _ _ _ H)
  end.

Lemma timestep_raise (p : Params) (s : State) (r : Row) (e : exn) :
  timestep p s r = Raise e -> e = ZeroDivisionError.
Proof.
  assert (Hheat : forall s r e, heater_phase p s r = Raise e ->
                                e = ZeroDivisionError).
  { clear. intros s r e H. unfold heater_phase, heater_injection in H.
    destruct (use_heater p && heater_on _); [|discriminate H].
    raise_bind H by_primitive. raise_bind H by_primitive. discriminate H. }
  assert (Hcond : forall s r e, battery_conduction p s r = Raise e ->
                                e = ZeroDivisionError).
  { clear. intros s r e H. unfold battery_conduction in H.
    destruct (Qc_ltb _ _); [|discriminate H].
    raise_bind H by_primitive. raise_bind H by_primitive.
    raise_bind H by_primitive. discriminate H. }
  assert (Hconv : forall s r e, battery_convection p s r = Raise e ->
                                e = ZeroDivisionError).
  { clear. intros s r e H. unfold battery_convection in H.
    raise_bind H by_primitive. raise_bind H by_primitive.
    raise_bind H by_primitive. discriminate H. }
  assert (Hradi : forall s r e, battery_radiation p s r = Raise e ->
                                e = ZeroDivisionError).
  { clear. intros s r e H. unfold battery_radiation in H.
    raise_bind H by_primitive. raise_bind H by_primitive.
    raise_bind H by_primitive. discriminate H. }
  assert (Hwall : forall s r e, wall_conduction p s r = Raise e ->
                                e = ZeroDivisionError).
  { clear. intros s r e H. unfold wall_conduction in H.
    raise_bind H by_primitive. raise_bind H by_primitive.
    raise_bind H by_primitive. discriminate H. }
  assert (Henv : forall s r e, environment_losses p s r = Raise e ->
                               e = ZeroDivisionError).
  { clear. intros s r e H. unfold environment_losses in H.
    raise_bind H by_primitive. raise_bind H by_primitive.
    raise_bind H by_primitive. discriminate H. }
  intro H. unfold timestep, interior_flows in H.
  apply bind_raise in H. destruct H as [H|([s5 r5] & _ & H)].
  - apply bind_raise in H. destruct H as [H|([s1 r1] & _ & H)]; [eauto|].
    apply bind_raise in H. destruct H as [H|([s2 r2] & _ & H)]; [eauto|].
    apply bind_raise in H. destruct H as [H|([s3 r3] & _ & H)]; [eauto|].
    apply bind_raise in H. destruct H as [H|([s4 r4] & _ & H)]; eauto.
  - apply bind_raise in H. destruct H as [H|([s6 r6] & _ & H)]; [eauto|].
    discriminate H.
Qed.

Lemma engine_loop_raise (p : Params) (rows : list Row) :
  forall (s : State) (e : exn),
    engine_loop p s rows = Raise e -> e = ZeroDivisionError.
Proof.
  induction rows as [|r rest IH]; intros s e H; simpl in H.
  - discriminate H.
  - apply bind_raise in H. destruct H as [H|([s' r'] & _ & H)].
    + exact (timestep_raise p s r e H).
    + apply bind_raise in H. destruct H as [H|(out & _ & H)].
      * exact (IH s' e H).
      * discriminate H.
Qed.

(** X1.  On a table with rows the engine returns one row per input row
    or raises [ZeroDivisionError]; it raises no other exception. *)
Theorem engine_outcomes (p : Params) (rows : list Row) :
  rows <> [] ->
  match jit_battery_energy_flow_model p rows with
  | Ok out => length out = length rows
  | Raise e => e = ZeroDivisionError
  end.
Proof.
  intro Hrows.
  destruct (jit_battery_energy_flow_model p rows) as [out|e] eqn:H.
  - exact (engine_length p rows out H).
  - destruct rows as [|r0 rest]; [contradiction|].
    exact (engine_loop_raise p (r0 :: rest) _ e H).
Qed.

Lemma engine_outcomes_witness :
  [sample_row 5 5 108] <> []
  /\ match jit_battery_energy_flow_model (sample_params 5) [sample_row 5 5 108] with
     | Ok out => length out = length [sample_row 5 5 108]
     | Raise e => e = ZeroDivisionError
     end.
Proof.
  assert (H : [sample_row 5 5 108] <> []) by discriminate.
  split; [exact H|].
  exact (engine_outcomes (sample_params 5) [sample_row 5 5 108] H).
Defined.

(** ** Rows of a run *)

(** Each row of the result comes from the row of the input at the same
    place, through one timestep. *)
Lemma engine_loop_rows (p : Params) (rows : list Row) :
  forall (s : State) (out : list Row),
    engine_loop p s rows = Ok out ->
    Forall2 (fun r r' => exists s0 s', timestep p s0 r = Ok (s', r')) rows out.
Proof.
  induction rows as [|r rest IH]; intros s out H; simpl in H.
  - injection H as <-. constructor.
  - inv_bind H. destruct a as [s' r']. inv_bind H. injection H as <-.
    constructor; [exists s, s'; assumption | exact (IH s' a Hrun0)].
Qed.

Lemma engine_rows (p : Params) (rows out : list Row) :
  jit_battery_energy_flow_model p rows = Ok out ->
  Forall2 (fun r r' => exists s0 s', timestep p s0 r = Ok (s', r')) rows out.
Proof.
  unfold jit_battery_energy_flow_model.
  destruct rows as [|r0 rest]; intro H; [injection H as <-; constructor|].
  exact (engine_loop_rows p (r0 :: rest) _ out H).
Qed.

Lemma timestep_keeps_inputs (p : Params) (s s' : State) (r r' : Row) :
  timestep p s r = Ok (s', r') ->
  datetime_temp r' = datetime_temp r
  /\ amb_temp r' = amb_temp r
  /\ humidity r' = humidity r.
Proof.
  intro Ht. apply timestep_inv in Ht.
  destruct Ht as (s5 & r5 & r6 & Hint & Henv & ->).
  destruct (interior_flows_frame p s s5 r r5 Hint) as (Ha & Hh & Hd & _).
  apply environment_losses_inv in Henv.
  destruct Henv as (cv & cd & _ & _ & _ & ->). cbn. auto.
Qed.

(** What a timestep that returns has divided by. *)
Lemma timestep_divisors (p : Params) (s s' : State) (r r' : Row) :
  timestep p s r = Ok (s', r') ->
  battery_heat_capacity p * battery_mass_kg p <> 0
  /\ box_heat_capacity p * box_wall_mass_kg p <> 0
  /\ battery_convective_resistance p <> 0
  /\ box_composite_conductive_resistance p <> 0
  /\ box_outer_conductive_resistance p <> 0
  /\ box_outer_convective_resistance p <> 0
  /\ battery_emissivity p <> 0
  /\ total_box_area p <> 0
  /\ box_inner_emissivity p <> 0
  /\ 1 / battery_emissivity p
     + total_battery_area p / total_box_area p
       * (1 / box_inner_emissivity p - 1) <> 0.
Proof.
  intro Ht. apply timestep_inv in Ht.
  destruct Ht as (s5 & r5 & r6 & Hint & Henv & _).
  invert_interior Hint.
  unfold battery_convection in Hconv.
  inv_bind Hconv. inv_bind Hconv. inv_bind Hconv. clear Hconv.
  apply heat_energy_flow_inv in Hrun. destruct Hrun as [Hbv _].
  apply change_in_temperature_inv in Hrun0, Hrun1.
  destruct Hrun0 as [Hb _]. destruct Hrun1 as [Hw _].
  unfold battery_radiation in Hradi. inv_bind Hradi. clear Hradi.
  unfold calculate_inner_radiative_heat_flow in Hrun.
  inv_bind Hrun. inv_bind Hrun. inv_bind Hrun. inv_bind Hrun. clear Hrun.
  apply fdiv_inv in Hrun0, Hrun1, Hrun2, Hrun3.
  destruct Hrun0 as [He1 ->]. destruct Hrun1 as [Ha2 ->].
  destruct Hrun2 as [He2 ->]. destruct Hrun3 as [Heff _].
  unfold wall_conduction in Hint. inv_bind Hint. clear Hint.
  apply heat_energy_flow_inv in Hrun. destruct Hrun as [Hcw _].
  unfold environment_losses in Henv. inv_bind Henv. inv_bind Henv. clear Henv.
  apply heat_energy_flow_inv in Hrun, Hrun0.
  destruct Hrun as [Hov _]. destruct Hrun0 as [Hoc _].
  repeat split; assumption.
Qed.

(** X2.  On a table with rows the engine returns when no divisor of the
    loop body is zero; and when it returns, every divisor the loop body
    always uses is non-zero (the battery-conductive resistance, used
    above the threshold only, is not among them), and the result carries
    the timestamps, ambient samples and humidity samples of the input. *)
Theorem engine_returns (p : Params) (rows : list Row) :
  rows <> [] ->
  (well_conditioned p = true ->
   exists out, jit_battery_energy_flow_model p rows = Ok out)
  /\ (forall out,
        jit_battery_energy_flow_model p rows = Ok out ->
        (battery_heat_capacity p * battery_mass_kg p <> 0
         /\ box_heat_capacity p * box_wall_mass_kg p <> 0
         /\ battery_convective_resistance p <> 0
         /\ box_composite_conductive_resistance p <> 0
         /\ box_outer_conductive_resistance p <> 0
         /\ box_outer_convective_resistance p <> 0
         /\ battery_emissivity p <> 0
         /\ total_box_area p <> 0
         /\ box_inner_emissivity p <> 0
         /\ 1 / battery_emissivity p
            + total_battery_area p / total_box_area p
              * (1 / box_inner_emissivity p - 1) <> 0)
        /\ map datetime_temp out = map datetime_temp rows
        /\ map amb_temp out = map amb_temp rows
        /\ map humidity out = map humidity rows).
Proof.
  intro Hrows. split.
  - intro Hp. exact (engine_total p rows Hp Hrows).
  - intros out Hrun. pose proof (engine_rows p rows out Hrun) as Hall. split.
    + destruct Hall as [|r r' rest rest' (s0 & s' & Ht) _]; [contradiction|].
      exact (timestep_divisors p s0 s' r r' Ht).
    + clear Hrun Hrows.
      induction Hall as [|r r' rest rest' (s0 & s' & Ht) _ IH]; [auto|].
      destruct (timestep_keeps_inputs p s0 s' r r' Ht) as (Hd & Ha & Hh).
      destruct IH as (IHd & IHa & IHh). simpl.
      rewrite Hd, Ha, Hh, IHd, IHa, IHh. auto.
Qed.

Lemma engine_returns_witness :
  [sample_row 5 5 108] <> []
  /\ (well_conditioned (sample_params 5) = true ->
      exists out,
        jit_battery_energy_flow_model (sample_params 5) [sample_row 5 5 108]
        = Ok out)
  /\ (forall out,
        jit_battery_energy_flow_model (sample_params 5) [sample_row 5 5 108]
        = Ok out ->
        (battery_heat_capacity (sample_params 5)
         * battery_mass_kg (sample_params 5) <> 0
         /\ box_heat_capacity (sample_params 5)
            * box_wall_mass_kg (sample_params 5) <> 0
         /\ battery_convective_resistance (sample_params 5) <> 0
         /\ box_composite_conductive_resistance (sample_params 5) <> 0
         /\ box_outer_conductive_resistance (sample_params 5) <> 0
         /\ box_outer_convective_resistance (sample_params 5) <> 0
         /\ battery_emissivity (sample_params 5) <> 0
         /\ total_box_area (sample_params 5) <> 0
         /\ box_inner_emissivity (sample_params 5) <> 0
         /\ 1 / battery_emissivity (sample_params 5)
            + total_battery_area (sample_params 5)
              / total_box_area (sample_params 5)
              * (1 / box_inner_emissivity (sample_params 5) - 1) <> 0)
        /\ map datetime_temp out = map datetime_temp [sample_row 5 5 108]
        /\ map amb_temp out = map amb_temp [sample_row 5 5 108]
        /\ map humidity out = map humidity [sample_row 5 5 108]).
Proof.
  assert (H : [sample_row 5 5 108] <> []) by discriminate.
  split; [exact H|].
  exact (engine_returns (sample_params 5) [sample_row 5 5 108] H).
Defined.

(** ** A run does not look ahead *)

Lemma engine_loop_app (p : Params) (rows1 rows2 : list Row) :
  forall s : State,
    engine_loop p s (rows1 ++ rows2)
    = (out1 <- engine_loop p s rows1 ;;
       s' <- state_after p s rows1 (length rows1) ;;
       out2 <- engine_loop p s' rows2 ;;
       Ok (out1 ++ out2)).
Proof.
  induction rows1 as [|r rest IH]; intro s; simpl.
  - rewrite !bind_Ok.
    destruct (engine_loop p s rows2) as [out2|e]; reflexivity.
  - destruct (timestep p s r) as [[s1 r1]|e]; [rewrite !bind_Ok|reflexivity].
    rewrite IH.
    destruct (engine_loop p s1 rest) as [out1|e]; [rewrite !bind_Ok|reflexivity].
    destruct (state_after p s1 rest (length rest)) as [s'|e];
      [rewrite !bind_Ok|reflexivity].
    destruct (engine_loop p s' rows2) as [out2|e]; reflexivity.
Qed.

(** X3.  The rows a run returns for a prefix of the table are the rows
    it returns for that prefix alone: no row of the result depends on a
    later sample.  A run that fails on the prefix fails in the same way
    on the whole table. *)
Theorem engine_prefix (p : Params) (rows1 rows2 : list Row) :
  rows1 <> [] ->
  (forall out,
     jit_battery_energy_flow_model p (rows1 ++ rows2) = Ok out ->
     jit_battery_energy_flow_model p rows1 = Ok (firstn (length rows1) out))
  /\ (forall e,
        jit_battery_energy_flow_model p rows1 = Raise e ->
        jit_battery_energy_flow_model p (rows1 ++ rows2) = Raise e).
Proof.
  intro Hrows. destruct rows1 as [|r0 rest]; [contradiction|].
  unfold jit_battery_energy_flow_model.
  change ((r0 :: rest) ++ rows2) with (r0 :: (rest ++ rows2)).
  cbv iota.
  change (r0 :: (rest ++ rows2)) with ((r0 :: rest) ++ rows2).
  rewrite engine_loop_app. split.
  - intros out H. inv_bind H. inv_bind H. inv_bind H. injection H as <-.
    rewrite <- (engine_loop_length p _ _ _ Hrun).
    rewrite firstn_app, Nat.sub_diag, firstn_all. simpl.
    rewrite app_nil_r. exact Hrun.
  - intros e H. rewrite H. reflexivity.
Qed.

Lemma engine_prefix_witness :
  [sample_row 5 5 108] <> []
  /\ (forall out,
        jit_battery_energy_flow_model (sample_params 5)
          ([sample_row 5 5 108] ++ [sample_row 5 8 0]) = Ok out ->
        jit_battery_energy_flow_model (sample_params 5) [sample_row 5 5 108]
        = Ok (firstn (length [sample_row 5 5 108]) out))
  /\ (forall e,
        jit_battery_energy_flow_model (sample_params 5) [sample_row 5 5 108]
        = Raise e ->
        jit_battery_energy_flow_model (sample_params 5)
          ([sample_row 5 5 108] ++ [sample_row 5 8 0]) = Raise e).
Proof.
  assert (H : [sample_row 5 5 108] <> []) by discriminate.
  split; [exact H|].
  exact (engine_prefix (sample_params 5) [sample_row 5 5 108]
           [sample_row 5 8 0] H).
Defined.

(** ** The recorded temperatures are the loop-carried ones *)

Lemma state_after_succ (p : Params) (rows : list Row) :
  forall (s s' : State) (i : nat),
    state_after p s rows (S i) = Ok s' ->
    exists (si : State) (r r' : Row),
      state_after p s rows i = Ok si
      /\ nth_error rows i = Some r
      /\ timestep p si r = Ok (s', r').
Proof.
  induction rows as [|r0 rest IH]; intros s s' i H; simpl in H.
  - discriminate H.
  - inv_bind H. destruct a as [s1 r1].
    destruct i as [|j].
    + assert (E : state_after p s1 rest 0 = Ok s1)
        by (destruct rest; reflexivity).
      rewrite E in H. injection H as <-.
      exists s, r0, r1. simpl. auto.
    + destruct (IH s1 s' j H) as (si & r & r' & Hs & Hn & Ht).
      exists si, r, r'. simpl. rewrite Hrun, bind_Ok. auto.
Qed.

Lemma timestep_records (p : Params) (s s' : State) (r r' : Row) :
  timestep p s r = Ok (s', r') ->
  Battery_Temp_C r' = battery_temp_c s'
  /\ Box_Inner_Temp_C r' = box_inner_temp_c s'
  /\ Box_Outer_Temp_C r' = box_outer_temp_c s'.
Proof.
  intro Ht. apply timestep_inv in Ht.
  destruct Ht as (s5 & r5 & r6 & _ & _ & ->).
  unfold Battery_Temp_C, Box_Inner_Temp_C, Box_Outer_Temp_C.
  cbn. auto.
Qed.

(** Within the table, every iteration of a run without a zero divisor
    is reached. *)
Lemma state_at_total (p : Params) (rows : list Row) (i : nat) :
  well_conditioned p = true ->
  (i <= length rows)%nat -> rows <> [] ->
  exists s : State, state_at p rows i = Ok s.
Proof.
  intros Hp Hi Hne. unfold state_at.
  destruct rows as [|r0 rest] eqn:Hrows; [contradiction|].
  rewrite <- Hrows in *. clear Hrows Hne.
  generalize (initial_state r0) as s. clear r0 rest.
  revert i Hi. induction rows as [|r rest IH]; intros i Hi s.
  - destruct i as [|j]; [exists s; reflexivity | simpl in Hi; lia].
  - destruct i as [|j]; [exists s; reflexivity|].
    simpl. destruct (timestep_total p Hp s r) as (s' & r' & ->).
    rewrite bind_Ok. apply IH. simpl in Hi. lia.
Qed.

(** X4.  The three temperatures recorded in row [i] of the result are
    the temperatures with which iteration [i + 1] starts (or, for the
    last row, with which the loop ends). *)
Theorem recorded_temperatures_carry_over
    (p : Params) (rows out : list Row) (i : nat) (r' : Row) (s : State) :
  jit_battery_energy_flow_model p rows = Ok out ->
  nth_error out i = Some r' ->
  state_at p rows (S i) = Ok s ->
  battery_temp_c s = Battery_Temp_C r'
  /\ box_inner_temp_c s = Box_Inner_Temp_C r'
  /\ box_outer_temp_c s = Box_Outer_Temp_C r'.
Proof.
  intros Hrun Ho Hs.
  unfold state_at in Hs. destruct rows as [|r0 rest]; [discriminate Hs|].
  destruct (state_after_succ p _ _ _ _ Hs) as (si & r & r1 & Hsi & Hn & Ht).
  destruct (engine_timestep p _ out i r Hrun Hn) as (si' & s'' & r'' & Hsi' & Ht' & Ho').
  unfold state_at in Hsi'. rewrite Hsi in Hsi'. injection Hsi' as <-.
  rewrite Ht in Ht'. injection Ht' as <- <-.
  rewrite Ho in Ho'. injection Ho' as ->.
  destruct (timestep_records p si s r r1 Ht) as (H1 & H2 & H3). auto.
Qed.

Lemma recorded_temperatures_carry_over_witness :
  exists (out : list Row) (r' : Row) (s : State),
    jit_battery_energy_flow_model (sample_params 5) [sample_row 5 5 108] = Ok out
    /\ nth_error out 0 = Some r'
    /\ state_at (sample_params 5) [sample_row 5 5 108] 1 = Ok s
    /\ battery_temp_c s = Battery_Temp_C r'
    /\ box_inner_temp_c s = Box_Inner_Temp_C r'
    /\ box_outer_temp_c s = Box_Outer_Temp_C r'.
Proof.
  assert (Hp : well_conditioned (sample_params 5) = true)
    by (vm_compute; reflexivity).
  assert (Hne : [sample_row 5 5 108] <> []) by discriminate.
  destruct (engine_total (sample_params 5) [sample_row 5 5 108] Hp Hne)
    as (out & Hrun).
  destruct (engine_timestep _ _ _ 0%nat _ Hrun eq_refl)
    as (s0 & s0' & r' & _ & _ & Ho).
  destruct (state_at_total (sample_params 5) [sample_row 5 5 108] 1 Hp
              (le_n 1) Hne) as (s & Hs).
  exists out, r', s. split; [exact Hrun|]. split; [exact Ho|].
  split; [exact Hs|].
  exact (recorded_temperatures_carry_over (sample_params 5)
           [sample_row 5 5 108] out 0 r' s Hrun Ho Hs).
Defined.

(** ** The heat stored in the three nodes *)

Lemma timestep_heat_content (p : Params) (s s' : State) (r r' : Row) :
  timestep p s r = Ok (s', r') ->
  ledger_cleared r ->
  heat_content p s' - heat_content p s
  = Heater_to_Battery_Energy_J r' + Heater_to_Wall_Energy_J r'
    + (if use_heater p && heater_on s'
       then Battery_Losses_Input_J r' else 0)
    - (Box_Outer_Cond_to_Environment_Energy_J r'
       + Box_Outer_Conv_to_Environment_Energy_J r'
       + Box_Outer_Radi_to_Environment_Energy_J r').
Proof.
  intros Ht Hz.
  assert (Z1 := Hz heater_to_battery_energy eq_refl).
  assert (Z2 := Hz heater_to_box_inner_energy eq_refl).
  assert (Z3 := Hz box_outer_cond_to_environment_energy eq_refl).
  assert (Z4 := Hz box_outer_conv_to_environment_energy eq_refl).
  assert (Z5 := Hz box_outer_radi_to_environment_energy eq_refl).
  clear Hz.
  destruct (timestep_divisors p s s' r r' Ht) as (Hb & Hw & _).
  assert (Hb1 : battery_heat_capacity p <> 0)
    by (intro X; apply Hb; rewrite X; ring).
  assert (Hb2 : battery_mass_kg p <> 0)
    by (intro X; apply Hb; rewrite X; ring).
  assert (Hw1 : box_heat_capacity p <> 0)
    by (intro X; apply Hw; rewrite X; ring).
  assert (Hw2 : box_wall_mass_kg p <> 0)
    by (intro X; apply Hw; rewrite X; ring).
  destruct (timestep_heater p s s' r r' Ht) as (Hon' & _).
  rewrite Hon'. clear Hon'.
  apply timestep_inv in Ht. destruct Ht as (s5 & r5 & r6 & Hint & Henv & ->).
  invert_interior Hint.
  apply battery_convection_inv in Hconv. destruct Hconv as (qv & _ & -> & ->).
  apply battery_radiation_inv in Hradi. destruct Hradi as (qr & _ & -> & ->).
  apply wall_conduction_inv in Hint. destruct Hint as (qw & _ & -> & ->).
  apply environment_losses_inv in Henv.
  destruct Henv as (cv & cd & _ & _ & -> & ->).
  set (radi := calculate_outer_radiative_heat_flow _ _ _ _ _).
  clearbody radi.
  unfold heat_content, Heater_to_Battery_Energy_J, Heater_to_Wall_Energy_J,
    Battery_Losses_Input_J, Box_Outer_Cond_to_Environment_Energy_J,
    Box_Outer_Conv_to_Environment_Energy_J,
    Box_Outer_Radi_to_Environment_Energy_J.
  destruct (Qc_ltb (heater_threshold_temp_c p) (box_inner_temp_c s1)) eqn:E;
    [ apply (battery_conduction_above p _ _ _ _ E) in Hcond;
      destruct Hcond as (q & _ & -> & ->)
    | rewrite (battery_conduction_below p _ _ E) in Hcond;
      injection Hcond as <- <- ];
    (destruct (heater_phase_cases p s s1 r r1 Hheat)
       as [[Hon Hinj]|[Hoff [-> ->]]];
     [ rewrite Hon;
       apply (heater_injection_on p _ _ _ _ Hon) in Hinj;
       destruct Hinj as [-> ->]
     | rewrite Hoff ]);
    cbn; rewrite ?Z1, ?Z2, ?Z3, ?Z4, ?Z5;
    unfold heater_dwell, heater_trigger, with_heater;
    repeat match goal with
      | |- context [if ?b then _ else _] => destruct b
      end;
    cbn; field; repeat split; assumption.
Qed.

Lemma sample_row_ledger_cleared (first_ambient ambient losses : Q) :
  ledger_cleared (sample_row first_ambient ambient losses).
Proof.
  intros c Hc. destruct c; try discriminate Hc; reflexivity.
Qed.

(** X5.  Across every timestep of a run, the heat stored in the three
    nodes (thermal mass times temperature, the walls sharing one thermal
    mass) changes by exactly the recorded heater energy, plus the
    recorded throughput loss when the heater is on, minus the three
    recorded losses to the environment: the flows between the nodes
    cancel, and with the heater off the throughput loss is not part of
    the balance. *)
Theorem heat_content_balance
    (p : Params) (rows out : list Row) (i : nat) (r r' : Row) (s s' : State) :
  jit_battery_energy_flow_model p rows = Ok out ->
  nth_error rows i = Some r ->
  nth_error out i = Some r' ->
  ledger_cleared r ->
  state_at p rows i = Ok s ->
  state_at p rows (S i) = Ok s' ->
  heat_content p s' - heat_content p s
  = Heater_to_Battery_Energy_J r' + Heater_to_Wall_Energy_J r'
    + (if use_heater p && heater_on s'
       then Battery_Losses_Input_J r' else 0)
    - (Box_Outer_Cond_to_Environment_Energy_J r'
       + Box_Outer_Conv_to_Environment_Energy_J r'
       + Box_Outer_Radi_to_Environment_Energy_J r').
Proof.
  intros Hrun Hi Ho Hz Hs Hs'.
  destruct (engine_timestep p rows out i r Hrun Hi)
    as (si & si' & r'' & Hsi & Ht & Ho').
  rewrite Hs in Hsi. injection Hsi as <-.
  rewrite Ho in Ho'. injection Ho' as <-.
  unfold state_at in Hs, Hs'. destruct rows as [|r0 rest]; [discriminate Hs|].
  destruct (state_after_succ p _ _ _ _ Hs') as (s1 & r1 & r1' & Hs1 & Hn & Ht1).
  rewrite Hs in Hs1. injection Hs1 as <-.
  rewrite Hi in Hn. injection Hn as <-.
  rewrite Ht in Ht1. injection Ht1 as <- _.
  exact (timestep_heat_content p s si' r r' Ht Hz).
Qed.

Lemma heat_content_balance_witness :
  exists (out : list Row) (r' : Row) (s s' : State),
    jit_battery_energy_flow_model (sample_params 5) [sample_row 5 5 108] = Ok out
    /\ nth_error out 0 = Some r'
    /\ ledger_cleared (sample_row 5 5 108)
    /\ state_at (sample_params 5) [sample_row 5 5 108] 0 = Ok s
    /\ state_at (sample_params 5) [sample_row 5 5 108] 1 = Ok s'
    /\ heat_content (sample_params 5) s' - heat_content (sample_params 5) s
       = Heater_to_Battery_Energy_J r' + Heater_to_Wall_Energy_J r'
         + (if use_heater (sample_params 5) && heater_on s'
            then Battery_Losses_Input_J r' else 0)
         - (Box_Outer_Cond_to_Environment_Energy_J r'
            + Box_Outer_Conv_to_Environment_Energy_J r'
            + Box_Outer_Radi_to_Environment_Energy_J r').
Proof.
  assert (Hp : well_conditioned (sample_params 5) = true)
    by (vm_compute; reflexivity).
  assert (Hne : [sample_row 5 5 108] <> []) by discriminate.
  destruct (engine_total (sample_params 5) [sample_row 5 5 108] Hp Hne)
    as (out & Hrun).
  destruct (engine_timestep _ _ _ 0%nat _ Hrun eq_refl)
    as (s0 & s0' & r' & Hs & _ & Ho).
  destruct (state_at_total (sample_params 5) [sample_row 5 5 108] 1 Hp
              (le_n 1) Hne) as (s' & Hs').
  exists out, r', s0, s'. split; [exact Hrun|]. split; [exact Ho|].
  split; [exact (sample_row_ledger_cleared 5 5 108)|].
  split; [exact Hs|]. split; [exact Hs'|].
  exact (heat_content_balance (sample_params 5) [sample_row 5 5 108]
           out 0 (sample_row 5 5 108) r' s0 s' Hrun eq_refl Ho
           (sample_row_ledger_cleared 5 5 108) Hs Hs').
Defined.

(** ** Tallies of every row *)

Lemma engine_rows_forall
    (p : Params) (rows out : list Row) (P : Row -> Prop) :
  jit_battery_energy_flow_model p rows = Ok out ->
  (forall s s' r r',
     In r rows -> timestep p s r = Ok (s', r') -> P r') ->
  Forall P out.
Proof.
  intros Hrun HP. pose proof (engine_rows p rows out Hrun) as Hall.
  clear Hrun.
  induction Hall as [|r r' rest rest' (s0 & s' & Ht) _ IH]; constructor.
  - exact (HP s0 s' r r' (or_introl eq_refl) Ht).
  - apply IH. intros s1 s1' r1 r1' Hin. apply HP. right. exact Hin.
Qed.

Lemma timestep_mirrored_tallies (p : Params) (s s' : State) (r r' : Row) :
  timestep p s r = Ok (s', r') ->
  ledger_cleared r ->
  Box_Inner_Cond_to_Battery_Energy_J r' = - Battery_Cond_to_Box_Inner_Energy_J r'
  /\ Box_Inner_Conv_to_Battery_Energy_J r'
     = - Battery_Conv_to_Box_Inner_Energy_J r'
  /\ Box_Inner_Radi_to_Battery_Energy_J r'
     = - Battery_Radi_to_Box_Inner_Energy_J r'
  /\ Box_Outer_to_Box_Inner_Energy_J r' = - Box_Inner_to_Box_Outer_Energy_J r'
  /\ Heater_to_Battery_Energy_J r' + Heater_to_Wall_Energy_J r'
     = Battery_Heater_Input_J r'.
Proof.
  intros Ht Hz.
  assert (Z1 := Hz battery_heater_input eq_refl).
  assert (Z2 := Hz battery_cond_to_box_inner_energy eq_refl).
  assert (Z3 := Hz battery_conv_to_box_inner_energy eq_refl).
  assert (Z4 := Hz battery_radi_to_box_inner_energy eq_refl).
  assert (Z5 := Hz heater_to_battery_energy eq_refl).
  assert (Z6 := Hz heater_to_box_inner_energy eq_refl).
  assert (Z7 := Hz box_inner_cond_to_battery_energy eq_refl).
  assert (Z8 := Hz box_inner_conv_to_battery_energy eq_refl).
  assert (Z9 := Hz box_inner_radi_to_battery_energy eq_refl).
  assert (Z10 := Hz box_inner_to_box_outer_energy eq_refl).
  assert (Z11 := Hz box_outer_to_box_inner_energy eq_refl).
  clear Hz.
  apply timestep_inv in Ht. destruct Ht as (s5 & r5 & r6 & Hint & Henv & ->).
  invert_interior Hint.
  apply battery_convection_inv in Hconv. destruct Hconv as (qv & _ & -> & ->).
  apply battery_radiation_inv in Hradi. destruct Hradi as (qr & _ & -> & ->).
  apply wall_conduction_inv in Hint. destruct Hint as (qw & _ & -> & ->).
  apply environment_losses_inv in Henv.
  destruct Henv as (cv & cd & _ & _ & -> & ->).
  unfold Box_Inner_Cond_to_Battery_Energy_J, Battery_Cond_to_Box_Inner_Energy_J,
    Box_Inner_Conv_to_Battery_Energy_J, Battery_Conv_to_Box_Inner_Energy_J,
    Box_Inner_Radi_to_Battery_Energy_J, Battery_Radi_to_Box_Inner_Energy_J,
    Box_Outer_to_Box_Inner_Energy_J, Box_Inner_to_Box_Outer_Energy_J,
    Heater_to_Battery_Energy_J, Heater_to_Wall_Energy_J, Battery_Heater_Input_J.
  destruct (Qc_ltb (heater_threshold_temp_c p) (box_inner_temp_c s1)) eqn:E;
    [ apply (battery_conduction_above p _ _ _ _ E) in Hcond;
      destruct Hcond as (q & _ & _ & ->)
    | rewrite (battery_conduction_below p _ _ E) in Hcond;
      injection Hcond as _ <- ];
    (destruct (heater_phase_cases p s s1 r r1 Hheat)
       as [[Hon Hinj]|[Hoff [_ ->]]];
     [ apply (heater_injection_on p _ _ _ _ Hon) in Hinj;
       destruct Hinj as [_ ->]
     | idtac ]);
    cbn;
    rewrite ?Z1, ?Z2, ?Z3, ?Z4, ?Z5, ?Z6, ?Z7, ?Z8, ?Z9, ?Z10, ?Z11;
    (split; [ring | split; [ring | split; [ring | split; ring]]]).
Qed.

(** X6.  In every row of the result of a run on a cleared ledger, each
    tally seen from the inner wall is the negation of the tally of the
    same flow seen from the battery, the tally from the outer wall to
    the inner wall is the negation of the one from the inner to the
    outer wall, the two heater tallies add up to the heater input, and
    the net tally of the inner wall is its balance: the flows entering
    the inner wall minus the flow leaving it. *)
Theorem interior_tallies_consistent (p : Params) (rows out : list Row) :
  jit_battery_energy_flow_model p rows = Ok out ->
  Forall ledger_cleared rows ->
  Forall
    (fun r' =>
       Box_Inner_Cond_to_Battery_Energy_J r'
       = - Battery_Cond_to_Box_Inner_Energy_J r'
       /\ Box_Inner_Conv_to_Battery_Energy_J r'
          = - Battery_Conv_to_Box_Inner_Energy_J r'
       /\ Box_Inner_Radi_to_Battery_Energy_J r'
          = - Battery_Radi_to_Box_Inner_Energy_J r'
       /\ Box_Outer_to_Box_Inner_Energy_J r'
          = - Box_Inner_to_Box_Outer_Energy_J r'
       /\ Heater_to_Battery_Energy_J r' + Heater_to_Wall_Energy_J r'
          = Battery_Heater_Input_J r'
       /\ Box_Inner_Net_Energy_J r' = box_inner_balance r')
    out.
Proof.
  intros Hrun Hz. apply (engine_rows_forall p rows out _ Hrun).
  intros s s' r r' Hin Ht.
  assert (Hr : ledger_cleared r)
    by (rewrite Forall_forall in Hz; exact (Hz r Hin)).
  destruct (timestep_mirrored_tallies p s s' r r' Ht Hr)
    as (H1 & H2 & H3 & H4 & H5).
  destruct (timestep_net_energy_tallies p s s' r r' Ht Hr) as (H6 & _).
  auto 10.
Qed.

Lemma interior_tallies_consistent_witness :
  exists out : list Row,
    jit_battery_energy_flow_model (sample_params 5) [sample_row 5 5 108] = Ok out
    /\ Forall ledger_cleared [sample_row 5 5 108]
    /\ Forall
         (fun r' =>
            Box_Inner_Cond_to_Battery_Energy_J r'
            = - Battery_Cond_to_Box_Inner_Energy_J r'
            /\ Box_Inner_Conv_to_Battery_Energy_J r'
               = - Battery_Conv_to_Box_Inner_Energy_J r'
            /\ Box_Inner_Radi_to_Battery_Energy_J r'
               = - Battery_Radi_to_Box_Inner_Energy_J r'
            /\ Box_Outer_to_Box_Inner_Energy_J r'
               = - Box_Inner_to_Box_Outer_Energy_J r'
            /\ Heater_to_Battery_Energy_J r' + Heater_to_Wall_Energy_J r'
               = Battery_Heater_Input_J r'
            /\ Box_Inner_Net_Energy_J r' = box_inner_balance r')
         out.
Proof.
  assert (Hp : well_conditioned (sample_params 5) = true)
    by (vm_compute; reflexivity).
  assert (Hne : [sample_row 5 5 108] <> []) by discriminate.
  destruct (engine_total (sample_params 5) [sample_row 5 5 108] Hp Hne)
    as (out & Hrun).
  assert (Hz : Forall ledger_cleared [sample_row 5 5 108])
    by (constructor; [exact (sample_row_ledger_cleared 5 5 108)|constructor]).
  exists out. split; [exact Hrun|]. split; [exact Hz|].
  exact (interior_tallies_consistent (sample_params 5) [sample_row 5 5 108]
           out Hrun Hz).
Defined.

(** ** A box at rest *)

Lemma heat_energy_flow_equal (t res dt : Qc) :
  res <> 0 -> calculate_heat_energy_flow t t res dt = Ok 0.
Proof.
  intro H. rewrite (heat_energy_flow_ok _ _ _ _ H). f_equal.
  unfold Qcdiv. ring.
Qed.

Lemma change_in_temperature_none (t c m : Qc) :
  c * m <> 0 ->
  calc_change_in_temperature_c t 0 c m = Ok t
  /\ calc_change_in_temperature_c t (- 0) c m = Ok t.
Proof.
  intro H. rewrite !(change_in_temperature_ok _ _ _ _ H).
  split; f_equal; unfold Qcdiv; ring.
Qed.

Lemma inner_radiative_heat_flow_equal (a1 a2 e1 e2 t dt : Qc) :
  e1 <> 0 -> a2 <> 0 -> e2 <> 0 ->
  1 / e1 + a1 / a2 * (1 / e2 - 1) <> 0 ->
  calculate_inner_radiative_heat_flow a1 a2 e1 e2 t t dt = Ok 0.
Proof.
  intros H1 H2 H3 H4. unfold calculate_inner_radiative_heat_flow.
  rewrite (fdiv_ok _ _ H1), bind_Ok, (fdiv_ok _ _ H2), bind_Ok,
    (fdiv_ok _ _ H3), bind_Ok, (fdiv_ok _ _ H4), bind_Ok.
  f_equal. ring.
Qed.

Lemma outer_radiative_heat_flow_equal (a e t dt : Qc) :
  calculate_outer_radiative_heat_flow a e t t dt = 0.
Proof.
  unfold calculate_outer_radiative_heat_flow. ring.
Qed.

(** One timestep from rest: the three temperatures equal the ambient
    sample and the heater is off and cannot trigger. *)
Lemma timestep_at_rest (p : Params) (t : Qc) (r : Row) :
  well_conditioned p = true ->
  use_heater p = false \/ heater_threshold_temp_c p < t ->
  amb_temp r = t ->
  exists r' : Row,
    timestep p (mkState t t t false 0) r = Ok (mkState t t t false 0, r')
    /\ forall c,
         cell r' c
         = match c with
           | battery_temp | box_inner_temp | box_outer_temp => t
           | _ => cell r c
           end.
Proof.
  unfold well_conditioned. intros H Hquiet Hamb.
  repeat (apply andb_prop in H; let H' := fresh "Hnz" in destruct H as [H H']).
  apply nonzero_neq in H, Hnz, Hnz0, Hnz1, Hnz2, Hnz3, Hnz4, Hnz5, Hnz6, Hnz7, Hnz8.
  destruct (change_in_temperature_none t _ _ H) as [Hb0 Hb0'].
  destruct (change_in_temperature_none t _ _ Hnz8) as [Hw0 Hw0'].
  assert (Htrig : heater_trigger p (heater_dwell p (mkState t t t false 0))
                  = mkState t t t false 0).
  { unfold heater_dwell, heater_trigger. cbn.
    destruct Hquiet as [Hoff|Habove].
    - rewrite Hoff, andb_false_r. reflexivity.
    - apply Qc_ltb_lt in Habove. rewrite Qc_ltb_leb in Habove.
      apply negb_true_iff in Habove. rewrite Habove. reflexivity. }
  unfold timestep, interior_flows, heater_phase. rewrite Htrig.
  rewrite heater_injection_off by (cbn; apply andb_false_r).
  rewrite bind_Ok.
  assert (Hcond : exists r2,
             battery_conduction p (mkState t t t false 0) r = Ok (mkState t t t false 0, r2)
             /\ amb_temp r2 = amb_temp r
             /\ forall c, cell r2 c = cell r c).
  { unfold battery_conduction. cbn.
    destruct (Qc_ltb (heater_threshold_temp_c p) t).
    - rewrite (heat_energy_flow_equal _ _ _ Hnz7), bind_Ok.
      rewrite Hb0', bind_Ok, Hw0, bind_Ok.
      eexists. split; [reflexivity|]. split; [reflexivity|].
      intro c. destruct c; cbn; ring.
    - eexists. split; [reflexivity|]. auto. }
  destruct Hcond as (r2 & -> & Ha2 & Hc2). rewrite bind_Ok.
  unfold battery_convection. cbn.
  rewrite (heat_energy_flow_equal _ _ _ Hnz6), bind_Ok.
  rewrite Hb0', bind_Ok, Hw0, bind_Ok, bind_Ok.
  unfold battery_radiation. cbn.
  rewrite (inner_radiative_heat_flow_equal _ _ _ _ _ _ Hnz2 Hnz1 Hnz0 Hnz), bind_Ok.
  rewrite Hb0', bind_Ok, Hw0, bind_Ok, bind_Ok.
  unfold wall_conduction. cbn.
  rewrite (heat_energy_flow_equal _ _ _ Hnz5), bind_Ok.
  rewrite Hw0', bind_Ok, Hw0, bind_Ok, bind_Ok.
  unfold environment_losses. cbn. rewrite Ha2, Hamb.
  rewrite (heat_energy_flow_equal _ _ _ Hnz3), bind_Ok.
  rewrite (heat_energy_flow_equal _ _ _ Hnz4), bind_Ok.
  rewrite outer_radiative_heat_flow_equal.
  replace (- (0 + 0 + 0)) with (- 0) by ring.
  rewrite Hw0', bind_Ok.
  eexists. split; [reflexivity|].
  intro c. destruct c; cbn; rewrite ?Hc2; try reflexivity; ring.
Qed.

Lemma engine_loop_at_rest (p : Params) (t : Qc) (rows : list Row) :
  well_conditioned p = true ->
  use_heater p = false \/ heater_threshold_temp_c p < t ->
  Forall (at_rest t) rows ->
  exists out : list Row,
    engine_loop p (mkState t t t false 0) rows = Ok out
    /\ Forall2 (fun r r' => forall c, cell r' c = cell r c) rows out.
Proof.
  intros Hp Hquiet Hrows.
  induction Hrows as [|r rest (Ha & Hb & Hi & Ho) _ (out & Hout & IH)]; simpl.
  - exists []. split; [reflexivity | constructor].
  - destruct (timestep_at_rest p t r Hp Hquiet Ha) as (r' & -> & Hc).
    rewrite bind_Ok, Hout, bind_Ok.
    exists (r' :: out). split; [reflexivity|].
    constructor; [|exact IH].
    intro c. rewrite Hc. destruct c; congruence.
Qed.

(** X7.  A run that starts at rest stays at rest.  When every ambient
    sample equals the starting temperature of the three nodes and the
    heater is disabled or the threshold lies below that temperature,
    the run returns (no divisor being zero) a table equal to its input
    cell by cell: the three temperatures never move, every flow tally
    keeps its starting value, and a throughput loss of any size heats
    nothing. *)
Theorem run_at_rest (p : Params) (t : Qc) (rows : list Row) :
  well_conditioned p = true ->
  use_heater p = false \/ heater_threshold_temp_c p < t ->
  rows <> [] ->
  Forall (at_rest t) rows ->
  exists out : list Row,
    jit_battery_energy_flow_model p rows = Ok out
    /\ Forall2 (fun r r' => forall c, cell r' c = cell r c) rows out.
Proof.
  intros Hp Hquiet Hne Hrows.
  destruct rows as [|r0 rest]; [contradiction|].
  unfold jit_battery_energy_flow_model, initial_state.
  pose proof (Forall_inv Hrows) as (_ & Hb & Hi & Ho).
  rewrite Hb, Hi, Ho.
  exact (engine_loop_at_rest p t (r0 :: rest) Hp Hquiet Hrows).
Qed.

Lemma run_at_rest_witness :
  well_conditioned (sample_params 5) = true
  /\ (use_heater (sample_params 5) = false
      \/ heater_threshold_temp_c (sample_params 5) < dec 8)
  /\ [sample_row 8 8 108; sample_row 8 8 54] <> []
  /\ Forall (at_rest (dec 8)) [sample_row 8 8 108; sample_row 8 8 54]
  /\ exists out : list Row,
       jit_battery_energy_flow_model (sample_params 5)
         [sample_row 8 8 108; sample_row 8 8 54] = Ok out
       /\ Forall2 (fun r r' => forall c, cell r' c = cell r c)
            [sample_row 8 8 108; sample_row 8 8 54] out.
Proof.
  assert (H1 : well_conditioned (sample_params 5) = true)
    by (vm_compute; reflexivity).
  assert (H2 : use_heater (sample_params 5) = false
               \/ heater_threshold_temp_c (sample_params 5) < dec 8)
    by (right; vm_compute; reflexivity).
  assert (H3 : [sample_row 8 8 108; sample_row 8 8 54] <> []) by discriminate.
  assert (H4 : Forall (at_rest (dec 8)) [sample_row 8 8 108; sample_row 8 8 54]).
  { repeat constructor. }
  repeat (split; [assumption|]).
  exact (run_at_rest (sample_params 5) (dec 8)
           [sample_row 8 8 108; sample_row 8 8 54] H1 H2 H3 H4).
Defined.

(** ** Runs with the heater disabled *)





(** ** How long the heater stays on *)

Lemma of_int_le (a b : Z) : (a <= b)%Z -> of_int a <= of_int b.
Proof.
  intro H. unfold of_int, Qcle. cbn [this Q2Qc]. rewrite !Qred_correct.
  rewrite <- Zle_Qle. exact H.
Qed.

Lemma heater_dwell_keeps_temperature (p : Params) (s : State) :
  box_inner_temp_c (heater_dwell p s) = box_inner_temp_c s.
Proof.
  unfold heater_dwell.
  destruct (heater_on s); [|reflexivity].
  destruct (Qc_ltb _ _); reflexivity.
Qed.

(** A timestep that starts at or below the threshold ends with the
    heater on and one elapsed count. *)
Lemma timestep_triggered (p : Params) (s s' : State) (r r' : Row) :
  use_heater p = true ->
  box_inner_temp_c s <= heater_threshold_temp_c p ->
  timestep p s r = Ok (s', r') ->
  heater_on s' = true /\ heater_counter s' = 1%Z.
Proof.
  intros Huse Hcold Ht.
  destruct (timestep_heater p s s' r r' Ht) as (H1 & H2 & _).
  assert (Htrig : heater_trigger p (heater_dwell p s)
                  = with_heater (heater_dwell p s) true 0).
  { unfold heater_trigger. rewrite heater_dwell_keeps_temperature.
    apply Qc_leb_le in Hcold. rewrite Hcold, Huse. reflexivity. }
  rewrite Htrig in H1, H2. rewrite Huse in H2. simpl in H1, H2. auto.
Qed.

(** A timestep that starts above the threshold: the dwell bookkeeping
    alone decides. *)
Lemma timestep_not_triggered (p : Params) (s s' : State) (r r' : Row) :
  use_heater p = true ->
  heater_threshold_temp_c p < box_inner_temp_c s ->
  timestep p s r = Ok (s', r') ->
  (heater_on s = true ->
   (of_int (heater_counter s) < heater_time_minutes p ->
    heater_on s' = true /\ heater_counter s' = (heater_counter s + 2)%Z)
   /\ (~ of_int (heater_counter s) < heater_time_minutes p ->
       heater_on s' = false /\ heater_counter s' = 0%Z))
  /\ (heater_on s = false ->
      heater_on s' = false /\ heater_counter s' = heater_counter s).
Proof.
  intros Huse Hwarm Ht.
  destruct (timestep_heater p s s' r r' Ht) as (H1 & H2 & _).
  assert (Htrig : heater_trigger p (heater_dwell p s) = heater_dwell p s).
  { unfold heater_trigger. rewrite heater_dwell_keeps_temperature.
    apply Qc_ltb_lt in Hwarm. rewrite Qc_ltb_leb in Hwarm.
    apply negb_true_iff in Hwarm. rewrite Hwarm. reflexivity. }
  rewrite Htrig in H1, H2. rewrite Huse in H2.
  split.
  - intro Hon. split; intro Hc.
    + assert (HD : heater_dwell p s
                   = with_heater s true (heater_counter s + 1)).
      { unfold heater_dwell. rewrite Hon. apply Qc_ltb_lt in Hc.
        rewrite Hc. reflexivity. }
      rewrite HD in H1, H2. simpl in H1, H2. split; [exact H1 | lia].
    + assert (HD : heater_dwell p s = with_heater s false 0).
      { unfold heater_dwell. rewrite Hon.
        destruct (Qc_ltb _ _) eqn:E; [|reflexivity].
        apply Qc_ltb_lt in E. contradiction. }
      rewrite HD in H1, H2. simpl in H1, H2. auto.
  - intro Hoff.
    assert (HD : heater_dwell p s = s)
      by (unfold heater_dwell; rewrite Hoff; reflexivity).
    rewrite HD in H1, H2. rewrite Hoff in H1, H2. simpl in H2. auto.
Qed.

Lemma state_at_succ (p : Params) (rows : list Row) (i : nat) (s' : State) :
  state_at p rows (S i) = Ok s' ->
  exists (si : State) (r r' : Row),
    state_at p rows i = Ok si
    /\ nth_error rows i = Some r
    /\ timestep p si r = Ok (s', r').
Proof.
  unfold state_at. destruct rows as [|r0 rest]; intro H; [discriminate H|].
  exact (state_after_succ p _ _ _ _ H).
Qed.

Lemma dwell_progress (p : Params) (rows : list Row) (i : nat) (si : State) :
  use_heater p = true ->
  state_at p rows i = Ok si ->
  box_inner_temp_c si <= heater_threshold_temp_c p ->
  forall (k : nat) (s : State),
    (forall j sj, (i < j <= i + k)%nat ->
                  state_at p rows j = Ok sj ->
                  heater_threshold_temp_c p < box_inner_temp_c sj) ->
    state_at p rows (S (i + k)) = Ok s ->
    (heater_on s = true
     /\ heater_counter s = (2 * Z.of_nat k + 1)%Z
     /\ forall j, (1 <= j <= k)%nat ->
                  of_int (2 * Z.of_nat j - 1) < heater_time_minutes p)
    \/ (heater_on s = false
        /\ heater_counter s = 0%Z
        /\ exists j, (1 <= j <= k)%nat
                     /\ ~ of_int (2 * Z.of_nat j - 1) < heater_time_minutes p).
Proof.
  intros Huse Hsi Hcold. induction k as [|k IH]; intros s Hwarm Hs.
  - rewrite Nat.add_0_r in Hs.
    destruct (state_at_succ p rows i s Hs) as (s0 & r & r' & Hs0 & _ & Ht).
    rewrite Hsi in Hs0. injection Hs0 as <-.
    destruct (timestep_triggered p si s r r' Huse Hcold Ht) as (Hon & Hc).
    left. split; [exact Hon|]. split; [exact Hc|]. intros j Hj. lia.
  - replace (i + S k)%nat with (S (i + k)) in Hs by lia.
    destruct (state_at_succ p rows _ s Hs) as (sk & r & r' & Hsk & _ & Ht).
    assert (Hwarm_k : heater_threshold_temp_c p < box_inner_temp_c sk)
      by (apply (Hwarm (S (i + k))); [lia | exact Hsk]).
    assert (Hwarm' : forall j sj, (i < j <= i + k)%nat ->
                       state_at p rows j = Ok sj ->
                       heater_threshold_temp_c p < box_inner_temp_c sj)
      by (intros j sj Hj; apply Hwarm; lia).
    destruct (timestep_not_triggered p sk s r r' Huse Hwarm_k Ht)
      as (Hwas_on & Hwas_off).
    destruct (IH sk Hwarm' Hsk) as [(Hon & Hc & Hall)|(Hoff & Hc & j & Hj & Hnot)].
    + destruct (Hwas_on Hon) as (Hgo & Hstop). rewrite Hc in Hgo, Hstop.
      destruct (Qclt_le_dec (of_int (2 * Z.of_nat k + 1))
                  (heater_time_minutes p)) as [Hlt|Hge].
      * destruct (Hgo Hlt) as (Hon' & Hc'). left.
        split; [exact Hon'|]. split; [lia|].
        intros j Hj. destruct (Nat.eq_dec j (S k)) as [->|Hne].
        -- replace (2 * Z.of_nat (S k) - 1)%Z with (2 * Z.of_nat k + 1)%Z
             by lia.
           exact Hlt.
        -- apply Hall. lia.
      * assert (Hnot : ~ of_int (2 * Z.of_nat k + 1) < heater_time_minutes p)
          by (apply Qcle_not_lt; exact Hge).
        destruct (Hstop Hnot) as (Hoff' & Hc'). right.
        split; [exact Hoff'|]. split; [exact Hc'|].
        exists (S k). split; [lia|].
        replace (2 * Z.of_nat (S k) - 1)%Z with (2 * Z.of_nat k + 1)%Z by lia.
        exact Hnot.
    + destruct (Hwas_off Hoff) as (Hoff' & Hc'). right.
      split; [exact Hoff'|]. split; [congruence|].
      exists j. split; [lia | exact Hnot].
Qed.

(** X9.  After a trigger in timestep [i] of a run with the heater
    enabled, and as long as every later timestep starts with the inner
    wall above the threshold, the heater is still on at the end of
    timestep [i + k] exactly when [k = 0] or
    [2 k - 1 < heater_time_minutes]; its counter then reads [2 k + 1]:
    it advances by two in every timestep. *)
Theorem heater_dwell_length
    (p : Params) (rows : list Row) (i k : nat) (si s : State) :
  use_heater p = true ->
  state_at p rows i = Ok si ->
  box_inner_temp_c si <= heater_threshold_temp_c p ->
  (forall j sj, (i < j <= i + k)%nat ->
                state_at p rows j = Ok sj ->
                heater_threshold_temp_c p < box_inner_temp_c sj) ->
  state_at p rows (S (i + k)) = Ok s ->
  (heater_on s = true <->
   k = 0%nat \/ of_int (2 * Z.of_nat k - 1) < heater_time_minutes p)
  /\ (heater_on s = true -> heater_counter s = (2 * Z.of_nat k + 1)%Z).
Proof.
  intros Huse Hsi Hcold Hwarm Hs.
  destruct (dwell_progress p rows i si Huse Hsi Hcold k s Hwarm Hs)
    as [(Hon & Hc & Hall)|(Hoff & Hc & j & Hj & Hnot)].
  - split; [|intros _; exact Hc]. split; [|intros _; exact Hon].
    intros _. destruct k as [|k]; [left; reflexivity|].
    right. apply Hall. lia.
  - split; [|rewrite Hoff; discriminate].
    rewrite Hoff. split; [discriminate|].
    intros [->|Hlt]; [lia|]. exfalso. apply Hnot.
    apply (Qcle_lt_trans _ (of_int (2 * Z.of_nat k - 1))); [|exact Hlt].
    apply of_int_le. lia.
Qed.

Lemma heater_dwell_length_witness :
  exists si s : State,
    use_heater (sample_params 3) = true
    /\ state_at (sample_params 3)
         [sample_row 5 5 0; sample_row 5 5 0; sample_row 5 5 0] 0 = Ok si
    /\ box_inner_temp_c si <= heater_threshold_temp_c (sample_params 3)
    /\ (forall j sj, (0 < j <= 0 + 1)%nat ->
                     state_at (sample_params 3)
                       [sample_row 5 5 0; sample_row 5 5 0; sample_row 5 5 0] j
                     = Ok sj ->
                     heater_threshold_temp_c (sample_params 3)
                     < box_inner_temp_c sj)
    /\ state_at (sample_params 3)
         [sample_row 5 5 0; sample_row 5 5 0; sample_row 5 5 0] (S (0 + 1))
       = Ok s
    /\ (heater_on s = true <->
        1%nat = 0%nat
        \/ of_int (2 * Z.of_nat 1 - 1) < heater_time_minutes (sample_params 3))
    /\ (heater_on s = true -> heater_counter s = (2 * Z.of_nat 1 + 1)%Z).
Proof.
  set (p := sample_params 3).
  set (rows := [sample_row 5 5 0; sample_row 5 5 0; sample_row 5 5 0]).
  assert (H0 : state_at p rows 0 = Ok (initial_state (sample_row 5 5 0)))
    by reflexivity.
  assert (Hcold : box_inner_temp_c (initial_state (sample_row 5 5 0))
                  <= heater_threshold_temp_c p)
    by (vm_compute; discriminate).
  assert (H1 : holds (state_at p rows 1)
                 (fun s => Qc_ltb (heater_threshold_temp_c p)
                             (box_inner_temp_c s)) = true)
    by (vm_compute; reflexivity).
  assert (Hwarm : forall j sj, (0 < j <= 0 + 1)%nat ->
                    state_at p rows j = Ok sj ->
                    heater_threshold_temp_c p < box_inner_temp_c sj).
  { intros j sj Hj Hsj. assert (j = 1%nat) as -> by lia.
    rewrite Hsj in H1. unfold holds in H1. apply Qc_ltb_lt. exact H1. }
  assert (Hp : well_conditioned p = true) by (vm_compute; reflexivity).
  assert (Hlen : (S (0 + 1) <= length rows)%nat) by (simpl; lia).
  assert (Hne : rows <> []) by discriminate.
  destruct (state_at_total p rows (S (0 + 1)) Hp Hlen Hne) as (s & Hs).
  exists (initial_state (sample_row 5 5 0)), s.
  split; [reflexivity|]. split; [exact H0|]. split; [exact Hcold|].
  split; [exact Hwarm|]. split; [exact Hs|].
  exact (heater_dwell_length p rows 0 1 _ s eq_refl H0 Hcold Hwarm Hs).
Defined.

(** ** The composite resistance *)

Lemma composite_loop_from (materials : list pyobj) (area_m2 : Qc) :
  forall total : Qc,
    composite_loop materials area_m2 total
    = (r <- composite_loop materials area_m2 0 ;; Ok (total + r)).
Proof.
  induction materials as [|m rest IH]; intro total; simpl.
  - rewrite bind_Ok. f_equal. ring.
  - destruct (unpack5 m) as [[[[[t k] c] d] e]|ex];
      [rewrite !bind_Ok | reflexivity].
    destruct (fdiv t (k * area_m2)) as [res|ex];
      [rewrite !bind_Ok | reflexivity].
    rewrite (IH (total + res)), (IH (0 + res)).
    destruct (composite_loop rest area_m2 0) as [r|ex];
      [rewrite !bind_Ok | reflexivity].
    f_equal. ring.
Qed.

(** X10.  The composite resistance is a series sum: of no layer it is 0,
    of one layer it is the conductive resistance of that layer, and of
    two lists of layers laid end to end it is the sum of the composite
    resistances of the two lists, the first failing layer deciding the
    exception. *)
Theorem composite_resistance_in_series :
  (forall area_m2,
     calculate_composite_conductive_resistance [] area_m2 = Ok 0)
  /\ (forall t k c d e area_m2,
        calculate_composite_conductive_resistance [PyTuple [t; k; c; d; e]]
          area_m2
        = calculate_conductive_resistance t k area_m2)
  /\ (forall materials1 materials2 area_m2,
        calculate_composite_conductive_resistance (materials1 ++ materials2)
          area_m2
        = (r1 <- calculate_composite_conductive_resistance materials1 area_m2 ;;
           r2 <- calculate_composite_conductive_resistance materials2 area_m2 ;;
           Ok (r1 + r2))).
Proof.
  unfold calculate_composite_conductive_resistance.
  split; [reflexivity|]. split.
  - intros t k c d e area_m2. unfold calculate_conductive_resistance. simpl.
    rewrite bind_Ok.
    destruct (fdiv t (k * area_m2)) as [res|ex];
      [rewrite bind_Ok | reflexivity].
    f_equal. ring.
  - intros materials1 materials2 area_m2.
    generalize (Q2Qc 0) at 1 2 as total.
    induction materials1 as [|m rest IH]; intro total; simpl.
    + rewrite bind_Ok. apply composite_loop_from.
    + destruct (unpack5 m) as [[[[[t k] c] d] e]|ex];
        [rewrite !bind_Ok | reflexivity].
      destruct (fdiv t (k * area_m2)) as [res|ex];
        [rewrite !bind_Ok | reflexivity].
      apply IH.
Qed.

(** X11.  The composite resistance returns exactly when every entry of
    the list is a tuple of five items whose item 1 times the area is
    not zero: [None], a tuple of another length and a zero product each
    make it fail. *)
Theorem composite_resistance_returns (materials : list pyobj) (area_m2 : Qc) :
  (exists r, calculate_composite_conductive_resistance materials area_m2 = Ok r)
  <-> Forall (fun m => exists t k c d e,
                m = PyTuple [t; k; c; d; e] /\ k * area_m2 <> 0) materials.
Proof.
  unfold calculate_composite_conductive_resistance.
  generalize (Q2Qc 0) at 1 as total.
  induction materials as [|m rest IH]; intro total; simpl.
  - split; [constructor | intros _; eexists; reflexivity].
  - split.
    + intros [r H]. inv_bind H. destruct a as [[[[t k] c] d] e].
      inv_bind H. apply fdiv_inv in Hrun0. destruct Hrun0 as [Hk _].
      constructor.
      * destruct m as [|items]; [discriminate Hrun|].
        destruct items as [|x0 [|x1 [|x2 [|x3 [|x4 [|x5 xs]]]]]];
          try discriminate Hrun.
        injection Hrun as -> -> -> -> ->. exists t, k, c, d, e.
        split; [reflexivity | exact Hk].
      * apply (IH (total + a)). exists r. exact H.
    + intro H. inversion H as [|m' rest' (t & k & c & d & e & -> & Hk) Hrest];
        subst.
      simpl. rewrite bind_Ok, (fdiv_ok _ _ Hk), bind_Ok.
      apply (IH (total + t / (k * area_m2))). exact Hrest.
Qed.

(** ** The network of two layers *)

(** X12.  For two layers of five items, (t0, k0, c0, d0, e0) first and
    (t1, k1, c1, d1, e1) second, and areas a1 .. a5 from the resolver,
    the builder returns exactly when none of its seven divisors is zero,
    and the network is then the following.  The two conductive
    resistances divide item 1 of a tuple by item 0 times the area, the
    composite resistance divides item 0 by item 1 times the area, and
    the three convective resistances are 1 / (5 * area). *)
Theorem builder_two_layer_network
    (areas : Qc -> Qc -> Qc -> Qc -> Qc -> Qc -> list Z -> list Z ->
             result (Qc * Qc * Qc * Qc * Qc))
    (bl bw bh xl xw xh : Qc) (ba xa : option (list Z))
    (a1 a2 a3 a4 a5 : Qc)
    (t0 k0 c0 d0 e0 t1 k1 c1 d1 e1 : Qc) (n : Network) :
  areas bl bw bh xl xw xh (default_transfer_array ba) (default_transfer_array xa)
  = Ok (a1, a2, a3, a4, a5) ->
  calculate_battery_box_parameters areas bl bw bh xl xw xh ba xa
    [PyTuple [t0; k0; c0; d0; e0]; PyTuple [t1; k1; c1; d1; e1]] = Ok n
  <-> (t1 * a1 <> 0 /\ dec 5 * a2 <> 0 /\ dec 5 * a3 <> 0
       /\ k0 * (a4 + a5) <> 0 /\ k1 * (a4 + a5) <> 0
       /\ t0 * a4 <> 0 /\ dec 5 * a5 <> 0)
      /\ n = mkNetwork
               ((a4 + a5) / dec 2 * d1 * k1 + (a4 + a5) / dec 2 * d0 * k0)
               ((c1 + c0) / dec 2)
               (k1 / (t1 * a1))
               (1 / (dec 5 * a2))
               (1 / (dec 5 * a3))
               (t0 / (k0 * (a4 + a5)) + t1 / (k1 * (a4 + a5)))
               (k0 / (t0 * a4))
               (1 / (dec 5 * a5))
               (a4 + a5)
               (a1 + a2).
Proof.
  intro Ha. unfold calculate_battery_box_parameters. rewrite Ha.
  repeat (progress (cbn [list_item nth_error tuple_item truthy];
                    rewrite ?bind_Ok)).
  unfold calculate_conductive_resistance, calculate_convective_resistance,
    calculate_composite_conductive_resistance.
  cbn [composite_loop unpack5]. rewrite ?bind_Ok.
  split.
  - intro H.
    inv_bind H. apply fdiv_inv in Hrun. destruct Hrun as [H1 ->].
    inv_bind H. apply fdiv_inv in Hrun. destruct Hrun as [H2 ->].
    inv_bind H. apply fdiv_inv in Hrun. destruct Hrun as [H3 ->].
    inv_bind H. cbn [composite_loop unpack5] in Hrun.
    rewrite ?bind_Ok in Hrun. inv_bind Hrun.
    apply fdiv_inv in Hrun0. destruct Hrun0 as [H4 ->].
    cbn [composite_loop unpack5] in Hrun. rewrite ?bind_Ok in Hrun.
    inv_bind Hrun.
    apply fdiv_inv in Hrun0. destruct Hrun0 as [H5 ->].
    cbn [composite_loop] in Hrun. injection Hrun as <-.
    inv_bind H. apply fdiv_inv in Hrun. destruct Hrun as [H6 ->].
    inv_bind H. apply fdiv_inv in Hrun. destruct Hrun as [H7 ->].
    injection H as <-.
    split; [repeat split; assumption|].
    f_equal. ring.
  - intros ((H1 & H2 & H3 & H4 & H5 & H6 & H7) & ->).
    rewrite (fdiv_ok _ _ H1), bind_Ok, (fdiv_ok _ _ H2), bind_Ok,
      (fdiv_ok _ _ H3), bind_Ok, (fdiv_ok _ _ H4), bind_Ok.
    cbn [composite_loop unpack5]. rewrite bind_Ok, (fdiv_ok _ _ H5), bind_Ok.
    cbn [composite_loop].
    rewrite bind_Ok, (fdiv_ok _ _ H6), bind_Ok, (fdiv_ok _ _ H7), bind_Ok.
    f_equal. f_equal. ring.
Qed.

Lemma builder_two_layer_network_witness :
  exists n : Network,
    sample_areas (dec 0.9) (dec 0.6) (dec 0.3) (dec 1) (dec 0.7) (dec 0.4)
      (default_transfer_array None) (default_transfer_array None)
    = Ok (dec 0.54, dec 1.44, dec 1.92, dec 0.7, dec 2.06)
    /\ (calculate_battery_box_parameters sample_areas
          (dec 0.9) (dec 0.6) (dec 0.3) (dec 1) (dec 0.7) (dec 0.4) None None
          [PyTuple [dec 0.01; dec 0.03; dec 1300; dec 20; dec 0.6];
           PyTuple [dec 0.02; dec 0.15; dec 1700; dec 600; dec 0.9]] = Ok n
        <-> (dec 0.02 * dec 0.54 <> 0 /\ dec 5 * dec 1.44 <> 0
             /\ dec 5 * dec 1.92 <> 0
             /\ dec 0.03 * (dec 0.7 + dec 2.06) <> 0
             /\ dec 0.15 * (dec 0.7 + dec 2.06) <> 0
             /\ dec 0.01 * dec 0.7 <> 0 /\ dec 5 * dec 2.06 <> 0)
            /\ n = mkNetwork
                     ((dec 0.7 + dec 2.06) / dec 2 * dec 600 * dec 0.15
                      + (dec 0.7 + dec 2.06) / dec 2 * dec 20 * dec 0.03)
                     ((dec 1700 + dec 1300) / dec 2)
                     (dec 0.15 / (dec 0.02 * dec 0.54))
                     (1 / (dec 5 * dec 1.44))
                     (1 / (dec 5 * dec 1.92))
                     (dec 0.01 / (dec 0.03 * (dec 0.7 + dec 2.06))
                      + dec 0.02 / (dec 0.15 * (dec 0.7 + dec 2.06)))
                     (dec 0.03 / (dec 0.01 * dec 0.7))
                     (1 / (dec 5 * dec 2.06))
                     (dec 0.7 + dec 2.06)
                     (dec 0.54 + dec 1.44)).
Proof.
  destruct (sample_network [sample_inner_layer; sample_outer_layer])
    as [n|e] eqn:Hn; [|vm_compute in Hn; discriminate Hn].
  exists n. split; [reflexivity|].
  exact (builder_two_layer_network sample_areas
           (dec 0.9) (dec 0.6) (dec 0.3) (dec 1) (dec 0.7) (dec 0.4) None None
           (dec 0.54) (dec 1.44) (dec 1.92) (dec 0.7) (dec 2.06)
           (dec 0.01) (dec 0.03) (dec 1300) (dec 20) (dec 0.6)
           (dec 0.02) (dec 0.15) (dec 1700) (dec 600) (dec 0.9)
           n eq_refl).
Defined.

(** ** Configuration errors of the builder *)

(** X13.  A failure of the area resolver is the failure of the builder,
    whatever the material list.  With areas at hand, an empty material
    list raises [IndexError], a first entry that is [None] raises
    [TypeError], and a first layer of fewer than four items raises
    [IndexError]. *)
Theorem builder_configuration_errors
    (areas : Qc -> Qc -> Qc -> Qc -> Qc -> Qc -> list Z -> list Z ->
             result (Qc * Qc * Qc * Qc * Qc))
    (bl bw bh xl xw xh : Qc) (ba xa : option (list Z)) :
  (forall e material_list,
     areas bl bw bh xl xw xh
       (default_transfer_array ba) (default_transfer_array xa) = Raise e ->
     calculate_battery_box_parameters areas bl bw bh xl xw xh ba xa
       material_list = Raise e)
  /\ (forall a,
        areas bl bw bh xl xw xh
          (default_transfer_array ba) (default_transfer_array xa) = Ok a ->
        calculate_battery_box_parameters areas bl bw bh xl xw xh ba xa []
        = Raise IndexError
        /\ (forall rest,
              calculate_battery_box_parameters areas bl bw bh xl xw xh ba xa
                (PyNone :: rest) = Raise TypeError)
        /\ (forall items rest,
              (length items < 4)%nat ->
              calculate_battery_box_parameters areas bl bw bh xl xw xh ba xa
                (PyTuple items :: rest) = Raise IndexError)).
Proof.
  split.
  - intros e material_list Ha. unfold calculate_battery_box_parameters.
    rewrite Ha. reflexivity.
  - intros [[[[a1 a2] a3] a4] a5] Ha.
    unfold calculate_battery_box_parameters. rewrite Ha, bind_Ok.
    split; [reflexivity|]. split; [reflexivity|].
    intros items rest Hlen.
    cbn [list_item nth_error]. rewrite !bind_Ok.
    destruct items as [|x0 [|x1 [|x2 [|x3 xs]]]];
      try (simpl in Hlen; lia); reflexivity.
Qed.

(** ** The driver *)

Lemma engine_loop_keeps_inputs (p : Params) (rows : list Row) :
  forall (s : State) (out : list Row),
    engine_loop p s rows = Ok out ->
    map datetime_temp out = map datetime_temp rows
    /\ map amb_temp out = map amb_temp rows
    /\ map humidity out = map humidity rows.
Proof.
  induction rows as [|r rest IH]; intros s out H; simpl in H.
  - injection H as <-. auto.
  - inv_bind H. destruct a as [s' r']. inv_bind H. injection H as <-.
    destruct (timestep_keeps_inputs p s s' r r' Hrun) as (Hd & Ha & Hh).
    destruct (IH s' a Hrun0) as (IHd & IHa & IHh). simpl.
    rewrite Hd, Ha, Hh, IHd, IHa, IHh. auto.
Qed.

Lemma engine_keeps_inputs (p : Params) (rows out : list Row) :
  jit_battery_energy_flow_model p rows = Ok out ->
  map datetime_temp out = map datetime_temp rows
  /\ map amb_temp out = map amb_temp rows
  /\ map humidity out = map humidity rows.
Proof.
  unfold jit_battery_energy_flow_model.
  destruct rows as [|r0 rest]; intro H; [injection H as <-; auto|].
  exact (engine_loop_keeps_inputs p (r0 :: rest) _ out H).
Qed.

Lemma engine_raise (p : Params) (rows : list Row) (e : exn) :
  rows <> [] ->
  jit_battery_energy_flow_model p rows = Raise e -> e = ZeroDivisionError.
Proof.
  unfold jit_battery_energy_flow_model.
  destruct rows as [|r0 rest]; intros Hne H; [contradiction|].
  exact (engine_loop_raise p (r0 :: rest) _ e H).
Qed.

Lemma model_row_ledger_cleared (c : Config) (t0 : Qc) (t : TmyRow) :
  ledger_cleared (model_row c t0 t).
Proof.
  intros col Hcol. destruct col; try discriminate Hcol; reflexivity.
Qed.

(** X14.  The outcomes of the driver.  A failure of the network builder
    is the failure of the driver, also on an empty frame.  Otherwise an
    empty frame raises [IndexError], and a frame with rows either raises
    [ZeroDivisionError] or returns one row per input row, with the
    timestamps, ambient samples and humidity samples of the input. *)
Theorem driver_outcomes
    (areas : Qc -> Qc -> Qc -> Qc -> Qc -> Qc -> list Z -> list Z ->
             result (Qc * Qc * Qc * Qc * Qc))
    (tmy_data_df : list TmyRow) (c : Config) :
  (forall e,
     calculate_battery_box_parameters areas
       (cfg_battery_length c) (cfg_battery_width c) (cfg_battery_height c)
       (cfg_box_length c) (cfg_box_width c) (cfg_box_height c)
       (cfg_battery_transfer_array c) (cfg_box_transfer_array c)
       (cfg_material_list c) = Raise e ->
     calculate_net_energy_flows areas tmy_data_df c = Raise e)
  /\ (forall n,
        calculate_battery_box_parameters areas
          (cfg_battery_length c) (cfg_battery_width c) (cfg_battery_height c)
          (cfg_box_length c) (cfg_box_width c) (cfg_box_height c)
          (cfg_battery_transfer_array c) (cfg_box_transfer_array c)
          (cfg_material_list c) = Ok n ->
        match calculate_net_energy_flows areas tmy_data_df c with
        | Ok out =>
            tmy_data_df <> []
            /\ length out = length tmy_data_df
            /\ map datetime_temp out = map Datetime tmy_data_df
            /\ map amb_temp out = map Ambient_Temperature_C tmy_data_df
            /\ map humidity out = map Relative_Humidity_Perc tmy_data_df
        | Raise e =>
            (tmy_data_df = [] /\ e = IndexError)
            \/ (tmy_data_df <> [] /\ e = ZeroDivisionError)
        end).
Proof.
  unfold calculate_net_energy_flows. split.
  - intros e Hn. rewrite Hn. reflexivity.
  - intros n Hn. rewrite Hn, bind_Ok.
    destruct tmy_data_df as [|t0 rest]; [left; auto|].
    set (rows := map (model_row c (Ambient_Temperature_C t0)) (t0 :: rest)).
    destruct (jit_battery_energy_flow_model (engine_params c n) rows)
      as [out|e] eqn:Hrun.
    + split; [discriminate|].
      split.
      { rewrite (engine_length _ _ _ Hrun). unfold rows. apply length_map. }
      destruct (engine_keeps_inputs _ _ _ Hrun) as (Hd & Ha & Hh).
      rewrite Hd, Ha, Hh. unfold rows. rewrite !map_map.
      repeat split; reflexivity.
    + right. split; [discriminate|].
      apply (engine_raise (engine_params c n) rows e);
        [unfold rows; discriminate | exact Hrun].
Qed.

Lemma driver_total
    (areas : Qc -> Qc -> Qc -> Qc -> Qc -> Qc -> list Z -> list Z ->
             result (Qc * Qc * Qc * Qc * Qc))
    (tmy_data_df : list TmyRow) (c : Config) (n : Network) :
  calculate_battery_box_parameters areas
    (cfg_battery_length c) (cfg_battery_width c) (cfg_battery_height c)
    (cfg_box_length c) (cfg_box_width c) (cfg_box_height c)
    (cfg_battery_transfer_array c) (cfg_box_transfer_array c)
    (cfg_material_list c) = Ok n ->
  well_conditioned (engine_params c n) = true ->
  tmy_data_df <> [] ->
  exists out : list Row, calculate_net_energy_flows areas tmy_data_df c = Ok out.
Proof.
  intros Hn Hp Hne. unfold calculate_net_energy_flows. rewrite Hn, bind_Ok.
  destruct tmy_data_df as [|t0 rest]; [contradiction|].
  apply engine_total; [exact Hp | discriminate].
Qed.

Lemma sample_network_well_conditioned :
  exists n : Network,
    calculate_battery_box_parameters sample_areas
      (cfg_battery_length sample_config) (cfg_battery_width sample_config)
      (cfg_battery_height sample_config)
      (cfg_box_length sample_config) (cfg_box_width sample_config)
      (cfg_box_height sample_config)
      (cfg_battery_transfer_array sample_config)
      (cfg_box_transfer_array sample_config)
      (cfg_material_list sample_config) = Ok n
    /\ well_conditioned (engine_params sample_config n) = true.
Proof.
  assert (Hp : holds (calculate_battery_box_parameters sample_areas
                        (cfg_battery_length sample_config)
                        (cfg_battery_width sample_config)
                        (cfg_battery_height sample_config)
                        (cfg_box_length sample_config)
                        (cfg_box_width sample_config)
                        (cfg_box_height sample_config)
                        (cfg_battery_transfer_array sample_config)
                        (cfg_box_transfer_array sample_config)
                        (cfg_material_list sample_config))
                 (fun n => well_conditioned (engine_params sample_config n))
               = true)
    by (vm_compute; reflexivity).
  destruct (calculate_battery_box_parameters sample_areas
              (cfg_battery_length sample_config)
              (cfg_battery_width sample_config)
              (cfg_battery_height sample_config)
              (cfg_box_length sample_config)
              (cfg_box_width sample_config)
              (cfg_box_height sample_config)
              (cfg_battery_transfer_array sample_config)
              (cfg_box_transfer_array sample_config)
              (cfg_material_list sample_config)) as [n|e] eqn:Hn;
    [|discriminate Hp].
  exists n. split; [reflexivity | exact Hp].
Qed.

(** ** The heater and loss columns of the result *)

Lemma timestep_losses_column (p : Params) (s s' : State) (r r' : Row) :
  timestep p s r = Ok (s', r') ->
  Battery_Losses_Input_J r'
  = cell r battery_losses_input
    + (if use_heater p && heater_on (heater_trigger p (heater_dwell p s))
       then heater_power_j p * battery_throughput_losses p else 0).
Proof.
  intro Ht.
  apply timestep_inv in Ht. destruct Ht as (s5 & r5 & r6 & Hint & Henv & ->).
  invert_interior Hint.
  apply battery_convection_inv in Hconv. destruct Hconv as (qv & _ & -> & ->).
  apply battery_radiation_inv in Hradi. destruct Hradi as (qr & _ & -> & ->).
  apply wall_conduction_inv in Hint. destruct Hint as (qw & _ & -> & ->).
  apply environment_losses_inv in Henv. destruct Henv as (cv & cd & _ & _ & -> & ->).
  unfold Battery_Losses_Input_J.
  destruct (Qc_ltb (heater_threshold_temp_c p) (box_inner_temp_c s1)) eqn:E;
    [ apply (battery_conduction_above p _ _ _ _ E) in Hcond;
      destruct Hcond as (q & _ & -> & ->)
    | rewrite (battery_conduction_below p _ _ E) in Hcond;
      injection Hcond as <- <- ];
    (destruct (heater_phase_cases p s s1 r r1 Hheat)
       as [[Hon Hinj]|[Hoff [-> ->]]];
     [ rewrite Hon;
       apply (heater_injection_on p _ _ _ _ Hon) in Hinj;
       destruct Hinj as [-> ->]
     | rewrite Hoff ]);
    cbn; ring.
Qed.

(** X15.  In every row of the driver's result the heater input is
    either 0 or [heater_power_w * bucket_period_seconds], the two heater
    tallies are its shares [heater_battery_transfer] and
    [1 - heater_battery_transfer], and the loss column is the energy use
    of the row converted to joules times [battery_losses_perc], raised
    by [battery_throughput_losses] times the heater input. *)
Theorem driver_heater_and_loss_columns
    (areas : Qc -> Qc -> Qc -> Qc -> Qc -> Qc -> list Z -> list Z ->
             result (Qc * Qc * Qc * Qc * Qc))
    (tmy_data_df : list TmyRow) (c : Config) (out : list Row) :
  calculate_net_energy_flows areas tmy_data_df c = Ok out ->
  Forall2
    (fun t r' =>
       (Battery_Heater_Input_J r' = 0
        \/ (cfg_use_heater c = true
            /\ Battery_Heater_Input_J r'
               = cfg_heater_power_w c * cfg_bucket_period_seconds c))
       /\ Heater_to_Battery_Energy_J r'
          = Battery_Heater_Input_J r' * cfg_heater_battery_transfer c
       /\ Heater_to_Wall_Energy_J r'
          = Battery_Heater_Input_J r' * (1 - cfg_heater_battery_transfer c)
       /\ Battery_Losses_Input_J r'
          = Energy_Use_kWh t * dec 3600000 * cfg_battery_losses_perc c
            + Battery_Heater_Input_J r' * cfg_battery_throughput_losses c)
    tmy_data_df out.
Proof.
  unfold calculate_net_energy_flows. intro H. inv_bind H. rename a into n.
  destruct tmy_data_df as [|t0 rest]; [discriminate H|].
  pose proof (engine_rows _ _ _ H) as Hall. clear H Hrun.
  revert Hall. generalize (Ambient_Temperature_C t0) as initial_temperature.
  intro initial_temperature. generalize (t0 :: rest) as frame. clear t0 rest.
  intro frame. revert out.
  induction frame as [|t rest IH]; intros out Hall; simpl in Hall.
  - inversion Hall. constructor.
  - inversion Hall as [|r r' rows' out' (s0 & s' & Ht) Hrest]; subst.
    constructor; [|exact (IH _ Hrest)].
    destruct (timestep_heater _ _ _ _ _ Ht) as (_ & _ & H1 & H2 & H3).
    pose proof (timestep_losses_column _ _ _ _ _ Ht) as H4.
    rewrite H1, H2, H3, H4. cbn [model_row cell initial_cells].
    cbn [engine_params use_heater heater_power_j heater_battery_transfer
         battery_throughput_losses].
    destruct (cfg_use_heater c
              && heater_on (heater_trigger (engine_params c n)
                              (heater_dwell (engine_params c n) s0))) eqn:Hon.
    + split.
      * right. apply andb_prop in Hon. destruct Hon as [Huse _].
        split; [exact Huse | ring].
      * split; [ring|]. split; ring.
    + split; [left; ring|]. split; [ring|]. split; ring.
Qed.

Lemma driver_heater_and_loss_columns_witness :
  exists out : list Row,
    calculate_net_energy_flows sample_areas sample_frame_humid sample_config
    = Ok out
    /\ Forall2
         (fun t r' =>
            (Battery_Heater_Input_J r' = 0
             \/ (cfg_use_heater sample_config = true
                 /\ Battery_Heater_Input_J r'
                    = cfg_heater_power_w sample_config
                      * cfg_bucket_period_seconds sample_config))
            /\ Heater_to_Battery_Energy_J r'
               = Battery_Heater_Input_J r'
                 * cfg_heater_battery_transfer sample_config
            /\ Heater_to_Wall_Energy_J r'
               = Battery_Heater_Input_J r'
                 * (1 - cfg_heater_battery_transfer sample_config)
            /\ Battery_Losses_Input_J r'
               = Energy_Use_kWh t * dec 3600000
                 * cfg_battery_losses_perc sample_config
                 + Battery_Heater_Input_J r'
                   * cfg_battery_throughput_losses sample_config)
         sample_frame_humid out.
Proof.
  destruct sample_network_well_conditioned as (n & Hn & Hp).
  assert (Hne : sample_frame_humid <> []) by discriminate.
  destruct (driver_total sample_areas sample_frame_humid sample_config n
              Hn Hp Hne) as (out & Hrun).
  exists out. split; [exact Hrun|].
  exact (driver_heater_and_loss_columns sample_areas sample_frame_humid
           sample_config out Hrun).
Defined.

(** ** A frame of constant ambient temperature *)

(** X16.  The driver starts the three nodes at the first ambient sample.
    So on a frame whose ambient samples all equal [t], with the heater
    disabled or its threshold below [t], and a network without a zero
    divisor, the driver returns a frame in which the three temperatures
    are [t] in every row, every flow tally is 0, and the loss column is
    the converted energy use: whatever energy the battery puts through,
    nothing heats it. *)
Theorem driver_constant_ambient
    (areas : Qc -> Qc -> Qc -> Qc -> Qc -> Qc -> list Z -> list Z ->
             result (Qc * Qc * Qc * Qc * Qc))
    (tmy_data_df : list TmyRow) (c : Config) (n : Network) (t : Qc) :
  calculate_battery_box_parameters areas
    (cfg_battery_length c) (cfg_battery_width c) (cfg_battery_height c)
    (cfg_box_length c) (cfg_box_width c) (cfg_box_height c)
    (cfg_battery_transfer_array c) (cfg_box_transfer_array c)
    (cfg_material_list c) = Ok n ->
  well_conditioned (engine_params c n) = true ->
  cfg_use_heater c = false \/ cfg_heater_threshold_temp_c c < t ->
  tmy_data_df <> [] ->
  Forall (fun row => Ambient_Temperature_C row = t) tmy_data_df ->
  exists out : list Row,
    calculate_net_energy_flows areas tmy_data_df c = Ok out
    /\ Forall2
         (fun row r' =>
            Battery_Temp_C r' = t
            /\ Box_Inner_Temp_C r' = t
            /\ Box_Outer_Temp_C r' = t
            /\ Battery_Losses_Input_J r'
               = Energy_Use_kWh row * dec 3600000 * cfg_battery_losses_perc c
            /\ Battery_Net_Energy_J r' = Battery_Losses_Input_J r'
            /\ forall col, starts_at_zero col = true -> cell r' col = 0)
         tmy_data_df out.
Proof.
  intros Hn Hp Hquiet Hne Hamb.
  unfold calculate_net_energy_flows. rewrite Hn, bind_Ok.
  destruct tmy_data_df as [|t0 rest]; [contradiction|].
  pose proof (Forall_inv Hamb) as Ht0. cbn beta in Ht0. rewrite Ht0.
  unfold jit_battery_energy_flow_model. simpl map.
  change (initial_state (model_row c t t0)) with (mkState t t t false 0).
  change (model_row c t t0 :: map (model_row c t) rest)
    with (map (model_row c t) (t0 :: rest)).
  assert (Hrest : Forall (at_rest t) (map (model_row c t) (t0 :: rest))).
  { clear Ht0 Hne. induction Hamb as [|row rows Hrow _ IH]; simpl;
      constructor; [|exact IH].
    unfold at_rest. simpl. auto. }
  destruct (engine_loop_at_rest (engine_params c n) t _ Hp Hquiet Hrest)
    as (out & Hout & Hcells).
  exists out. split; [exact Hout|].
  clear Hout Hrest Hamb Ht0 Hne. revert out Hcells.
  generalize (t0 :: rest) as frame. clear t0 rest.
  induction frame as [|row rows IH]; intros out Hcells; simpl in Hcells.
  - inversion Hcells. constructor.
  - inversion Hcells as [|r r' rows' out' Hc Hrest]; subst.
    constructor; [|exact (IH _ Hrest)].
    unfold Battery_Temp_C, Box_Inner_Temp_C, Box_Outer_Temp_C,
      Battery_Losses_Input_J, Battery_Net_Energy_J.
    rewrite !Hc. simpl.
    repeat (split; [reflexivity|]).
    intros col Hcol. rewrite Hc.
    exact (model_row_ledger_cleared c t row col Hcol).
Qed.

Lemma driver_constant_ambient_witness :
  exists n : Network,
    calculate_battery_box_parameters sample_areas
      (cfg_battery_length sample_config) (cfg_battery_width sample_config)
      (cfg_battery_height sample_config)
      (cfg_box_length sample_config) (cfg_box_width sample_config)
      (cfg_box_height sample_config)
      (cfg_battery_transfer_array sample_config)
      (cfg_box_transfer_array sample_config)
      (cfg_material_list sample_config) = Ok n
    /\ well_conditioned (engine_params sample_config n) = true
    /\ (cfg_use_heater sample_config = false
        \/ cfg_heater_threshold_temp_c sample_config < dec 8)
    /\ sample_frame_mild <> []
    /\ Forall (fun row => Ambient_Temperature_C row = dec 8) sample_frame_mild
    /\ exists out : list Row,
         calculate_net_energy_flows sample_areas sample_frame_mild sample_config
         = Ok out
         /\ Forall2
              (fun row r' =>
                 Battery_Temp_C r' = dec 8
                 /\ Box_Inner_Temp_C r' = dec 8
                 /\ Box_Outer_Temp_C r' = dec 8
                 /\ Battery_Losses_Input_J r'
                    = Energy_Use_kWh row * dec 3600000
                      * cfg_battery_losses_perc sample_config
                 /\ Battery_Net_Energy_J r' = Battery_Losses_Input_J r'
                 /\ forall col, starts_at_zero col = true -> cell r' col = 0)
              sample_frame_mild out.
Proof.
  destruct sample_network_well_conditioned as (n & Hn & Hp).
  assert (Hquiet : cfg_use_heater sample_config = false
                   \/ cfg_heater_threshold_temp_c sample_config < dec 8)
    by (right; vm_compute; reflexivity).
  assert (Hne : sample_frame_mild <> []) by discriminate.
  assert (Hamb : Forall (fun row => Ambient_Temperature_C row = dec 8)
                   sample_frame_mild)
    by (repeat constructor).
  exists n. split; [exact Hn|]. split; [exact Hp|]. split; [exact Hquiet|].
  split; [exact Hne|]. split; [exact Hamb|].
  exact (driver_constant_ambient sample_areas sample_frame_mild sample_config
           n (dec 8) Hn Hp Hquiet Hne Hamb).
Defined.

(** ** The direction of the flows *)

Lemma Qc_mult_pos (x y : Qc) : 0 < x -> 0 < y -> 0 < x * y.
Proof.
  intros Hx Hy. rewrite <- (Qcmult_0_l y).
  apply Qcmult_lt_compat_r; assumption.
Qed.

Lemma Qc_inv_pos (x : Qc) : 0 < x -> 0 < / x.
Proof.
  intro Hx. destruct (Qclt_le_dec 0 (/ x)) as [H|H]; [exact H|].
  exfalso.
  assert (Hne : x <> 0) by (apply not_eq_sym, Qclt_not_eq; exact Hx).
  pose proof (Qcmult_le_compat_r _ _ x H (Qclt_le_weak _ _ Hx)) as H1.
  rewrite (Qcmult_inv_l x Hne), Qcmult_0_l in H1.
  revert H1. vm_compute. intro H1. apply H1. reflexivity.
Qed.

Lemma Qc_mult_pos_sign (x c : Qc) : 0 < c -> (0 < x * c <-> 0 < x).
Proof.
  intro Hc. split; intro H.
  - destruct (Qclt_le_dec 0 x) as [Hx|Hx]; [exact Hx|]. exfalso.
    pose proof (Qcmult_le_compat_r _ _ c Hx (Qclt_le_weak _ _ Hc)) as H1.
    rewrite Qcmult_0_l in H1. exact (Qcle_not_lt _ _ H1 H).
  - exact (Qc_mult_pos x c H Hc).
Qed.

(** X17.  Over a positive resistance and a positive duration, the
    conductive or convective flow is positive exactly when the first
    temperature is the higher one, is zero exactly when the two
    temperatures are equal, and changes sign when they are exchanged. *)
Theorem heat_flows_from_hot_to_cold (t1 t2 res dt : Qc) :
  0 < res -> 0 < dt ->
  exists q : Qc,
    calculate_heat_energy_flow t1 t2 res dt = Ok q
    /\ calculate_heat_energy_flow t2 t1 res dt = Ok (- q)
    /\ (0 < q <-> t2 < t1)
    /\ (q = 0 <-> t1 = t2).
Proof.
  intros Hres Hdt.
  assert (Hne : res <> 0) by (apply not_eq_sym, Qclt_not_eq; exact Hres).
  assert (Hc : 0 < / res * dt)
    by (apply Qc_mult_pos; [apply Qc_inv_pos; exact Hres | exact Hdt]).
  assert (Hcne : / res * dt <> 0) by (apply not_eq_sym, Qclt_not_eq; exact Hc).
  exists ((t1 - t2) / res * dt).
  rewrite !(heat_energy_flow_ok _ _ _ _ Hne).
  split; [reflexivity|]. split; [f_equal; unfold Qcdiv; ring|].
  replace ((t1 - t2) / res * dt) with ((t1 - t2) * (/ res * dt))
    by (unfold Qcdiv; ring).
  split.
  - rewrite (Qc_mult_pos_sign _ _ Hc). unfold Qcminus.
    symmetry. exact (Qclt_minus_iff t2 t1).
  - split; intro H.
    + apply Qcmult_integral in H. destruct H as [H|H]; [|contradiction].
      rewrite <- (Qcplus_0_l t2), <- H. ring.
    + rewrite H. ring.
Qed.

Lemma heat_flows_from_hot_to_cold_witness :
  0 < dec 0.25 /\ 0 < dec 60
  /\ exists q : Qc,
       calculate_heat_energy_flow (dec 30) (dec 20) (dec 0.25) (dec 60) = Ok q
       /\ calculate_heat_energy_flow (dec 20) (dec 30) (dec 0.25) (dec 60)
          = Ok (- q)
       /\ (0 < q <-> dec 20 < dec 30)
       /\ (q = 0 <-> dec 30 = dec 20).
Proof.
  assert (H1 : 0 < dec 0.25) by (vm_compute; reflexivity).
  assert (H2 : 0 < dec 60) by (vm_compute; reflexivity).
  split; [exact H1|]. split; [exact H2|].
  exact (heat_flows_from_hot_to_cold (dec 30) (dec 20) (dec 0.25) (dec 60) H1 H2).
Defined.

Lemma Qc_pow4_lt (x y : Qc) : 0 <= y -> y < x -> y ^ 4 < x ^ 4.
Proof.
  intros Hy Hxy.
  assert (Hx : 0 < x) by (exact (Qcle_lt_trans _ _ _ Hy Hxy)).
  apply (proj2 (Qclt_minus_iff (y ^ 4) (x ^ 4))).
  replace (x ^ 4 + - y ^ 4) with ((x + - y) * ((x + y) * (x * x + y * y)))
    by (simpl; ring).
  apply Qc_mult_pos; [exact (proj1 (Qclt_minus_iff y x) Hxy)|].
  assert (Hyy : 0 <= y * y).
  { rewrite <- (Qcmult_0_l y). apply Qcmult_le_compat_r; assumption. }
  assert (Hxx : 0 < x * x) by (apply Qc_mult_pos; assumption).
  apply Qc_mult_pos.
  - apply (Qclt_le_trans _ (x + 0)); [rewrite Qcplus_0_r; exact Hx|].
    apply Qcplus_le_compat; [apply Qcle_refl | exact Hy].
  - apply (Qclt_le_trans _ (x * x + 0)); [rewrite Qcplus_0_r; exact Hxx|].
    apply Qcplus_le_compat; [apply Qcle_refl | exact Hyy].
Qed.

(** X18.  For a positive area, emissivity and duration and two
    temperatures not below absolute zero (-273.15 degrees), the
    radiative flow to the environment is positive exactly when the
    surface is hotter than the environment, and changes sign when the
    two temperatures are exchanged. *)
Theorem outer_radiation_flows_from_hot_to_cold
    (surface_area emissivity t1 t2 dt : Qc) :
  0 < surface_area -> 0 < emissivity -> 0 < dt ->
  0 <= t1 + kelvin_offset -> 0 <= t2 + kelvin_offset ->
  calculate_outer_radiative_heat_flow surface_area emissivity t2 t1 dt
  = - calculate_outer_radiative_heat_flow surface_area emissivity t1 t2 dt
  /\ (0 < calculate_outer_radiative_heat_flow surface_area emissivity t1 t2 dt
      <-> t2 < t1).
Proof.
  intros Ha He Hdt H1 H2. split.
  - unfold calculate_outer_radiative_heat_flow. ring.
  - unfold calculate_outer_radiative_heat_flow.
    assert (Hs : 0 < stefan_boltzmann_constant) by (vm_compute; reflexivity).
    set (k1 := t1 + kelvin_offset) in *.
    set (k2 := t2 + kelvin_offset) in *.
    assert (Hc : 0 < stefan_boltzmann_constant * emissivity * surface_area * dt)
      by (repeat apply Qc_mult_pos; assumption).
    replace (stefan_boltzmann_constant * emissivity * surface_area
             * (k1 ^ 4 - k2 ^ 4) * dt)
      with ((k1 ^ 4 - k2 ^ 4)
            * (stefan_boltzmann_constant * emissivity * surface_area * dt))
      by ring.
    rewrite (Qc_mult_pos_sign _ _ Hc).
    assert (Hk : t2 < t1 <-> k2 < k1).
    { unfold k1, k2. rewrite (Qclt_minus_iff t2 t1).
      rewrite (Qclt_minus_iff (t2 + kelvin_offset) (t1 + kelvin_offset)).
      replace (t1 + kelvin_offset + - (t2 + kelvin_offset))
        with (t1 + - t2) by ring.
      reflexivity. }
    rewrite Hk. unfold Qcminus. rewrite <- (Qclt_minus_iff (k2 ^ 4) (k1 ^ 4)).
    split; intro H.
    + destruct (Qclt_le_dec k2 k1) as [Hlt|Hge]; [exact Hlt|]. exfalso.
      destruct (Qcle_lt_or_eq _ _ Hge) as [Hlt|Heq].
      * pose proof (Qc_pow4_lt k2 k1 H1 Hlt) as H'.
        exact (Qclt_not_le _ _ H (Qclt_le_weak _ _ H')).
      * rewrite Heq in H. exact (Qclt_not_eq _ _ H eq_refl).
    + exact (Qc_pow4_lt k1 k2 H2 H).
Qed.

Lemma outer_radiation_flows_from_hot_to_cold_witness :
  0 < dec 1 /\ 0 < dec 0.9 /\ 0 < dec 60
  /\ 0 <= dec 20 + kelvin_offset /\ 0 <= dec 0 + kelvin_offset
  /\ calculate_outer_radiative_heat_flow (dec 1) (dec 0.9) (dec 0) (dec 20) (dec 60)
     = - calculate_outer_radiative_heat_flow (dec 1) (dec 0.9) (dec 20) (dec 0)
           (dec 60)
  /\ (0 < calculate_outer_radiative_heat_flow (dec 1) (dec 0.9) (dec 20) (dec 0)
            (dec 60)
      <-> dec 0 < dec 20).
Proof.
  assert (H1 : 0 < dec 1) by (vm_compute; reflexivity).
  assert (H2 : 0 < dec 0.9) by (vm_compute; reflexivity).
  assert (H3 : 0 < dec 60) by (vm_compute; reflexivity).
  assert (H4 : 0 <= dec 20 + kelvin_offset) by (vm_compute; discriminate).
  assert (H5 : 0 <= dec 0 + kelvin_offset) by (vm_compute; discriminate).
  repeat (split; [assumption|]).
  exact (outer_radiation_flows_from_hot_to_cold (dec 1) (dec 0.9) (dec 20) (dec 0)
           (dec 60) H1 H2 H3 H4 H5).
Defined.

Lemma Qc_inv_ge_1 (x : Qc) : 0 < x -> x <= 1 -> 1 <= / x.
Proof.
  intros Hx Hle. destruct (Qclt_le_dec (/ x) 1) as [H|H]; [exfalso | exact H].
  assert (Hne : x <> 0) by (apply not_eq_sym, Qclt_not_eq; exact Hx).
  pose proof (Qcmult_lt_compat_r _ _ x Hx H) as H1.
  rewrite (Qcmult_inv_l x Hne), Qcmult_1_l in H1.
  exact (Qclt_not_le _ _ H1 Hle).
Qed.

Lemma Qc_mult_nonneg (x y : Qc) : 0 <= x -> 0 <= y -> 0 <= x * y.
Proof.
  intros Hx Hy. rewrite <- (Qcmult_0_l y).
  apply Qcmult_le_compat_r; assumption.
Qed.

(** The effective emissivity of the enclosure is positive. *)
Lemma effective_emissivity_divisor_pos (a1 a2 e1 e2 : Qc) :
  0 < a1 -> 0 < a2 -> 0 < e1 -> 0 < e2 -> e2 <= 1 ->
  0 < 1 / e1 + a1 / a2 * (1 / e2 - 1).
Proof.
  intros Ha1 Ha2 He1 He2 Hle.
  assert (H1 : 0 < 1 / e1).
  { unfold Qcdiv. rewrite Qcmult_1_l. apply Qc_inv_pos. exact He1. }
  assert (H2 : 0 <= a1 / a2 * (1 / e2 - 1)).
  { apply Qc_mult_nonneg.
    - apply Qclt_le_weak. unfold Qcdiv.
      apply Qc_mult_pos; [exact Ha1 | apply Qc_inv_pos; exact Ha2].
    - unfold Qcdiv, Qcminus. rewrite Qcmult_1_l.
      apply (proj1 (Qcle_minus_iff 1 (/ e2))).
      apply Qc_inv_ge_1; assumption. }
  apply (Qclt_le_trans _ (1 / e1 + 0)); [rewrite Qcplus_0_r; exact H1|].
  apply Qcplus_le_compat; [apply Qcle_refl | exact H2].
Qed.

(** X19.  Between the battery and the inner wall, for positive areas, a
    positive battery emissivity, a wall emissivity in (0, 1], a positive
    duration and two temperatures not below absolute zero, the radiative
    flow is computed (no divisor is zero), is positive exactly when the
    battery is the hotter one, and changes sign when the two
    temperatures are exchanged. *)
Theorem inner_radiation_flows_from_hot_to_cold
    (surface_area_inner surface_area_outer emissivity_inner emissivity_outer
     t1 t2 dt : Qc) :
  0 < surface_area_inner -> 0 < surface_area_outer ->
  0 < emissivity_inner -> 0 < emissivity_outer -> emissivity_outer <= 1 ->
  0 < dt ->
  0 <= t1 + kelvin_offset -> 0 <= t2 + kelvin_offset ->
  exists q : Qc,
    calculate_inner_radiative_heat_flow surface_area_inner surface_area_outer
      emissivity_inner emissivity_outer t1 t2 dt = Ok q
    /\ calculate_inner_radiative_heat_flow surface_area_inner surface_area_outer
         emissivity_inner emissivity_outer t2 t1 dt = Ok (- q)
    /\ (0 < q <-> t2 < t1).
Proof.
  intros Ha1 Ha2 He1 He2 Hle Hdt H1 H2.
  pose proof (effective_emissivity_divisor_pos _ _ _ _ Ha1 Ha2 He1 He2 Hle)
    as HD.
  assert (Ne1 : emissivity_inner <> 0)
    by (apply not_eq_sym, Qclt_not_eq; exact He1).
  assert (Ne2 : emissivity_outer <> 0)
    by (apply not_eq_sym, Qclt_not_eq; exact He2).
  assert (Na2 : surface_area_outer <> 0)
    by (apply not_eq_sym, Qclt_not_eq; exact Ha2).
  assert (ND : 1 / emissivity_inner
               + surface_area_inner / surface_area_outer
                 * (1 / emissivity_outer - 1) <> 0)
    by (apply not_eq_sym, Qclt_not_eq; exact HD).
  unfold calculate_inner_radiative_heat_flow.
  rewrite (fdiv_ok _ _ Ne1), !bind_Ok, (fdiv_ok _ _ Na2), !bind_Ok,
    (fdiv_ok _ _ Ne2), !bind_Ok, (fdiv_ok _ _ ND), !bind_Ok.
  set (D := 1 / emissivity_inner
            + surface_area_inner / surface_area_outer
              * (1 / emissivity_outer - 1)) in *.
  set (k1 := t1 + kelvin_offset) in *.
  set (k2 := t2 + kelvin_offset) in *.
  eexists. split; [reflexivity|]. split; [f_equal; ring|].
  assert (Hs : 0 < stefan_boltzmann_constant) by (vm_compute; reflexivity).
  assert (HE : 0 < 1 / D).
  { unfold Qcdiv. rewrite Qcmult_1_l. apply Qc_inv_pos. exact HD. }
  assert (Hc : 0 < stefan_boltzmann_constant * (1 / D) * surface_area_inner * dt)
    by (repeat (first [assumption | apply Qc_mult_pos])).
  replace (stefan_boltzmann_constant * (1 / D) * surface_area_inner
           * (k1 ^ 4 - k2 ^ 4) * dt)
    with ((k1 ^ 4 - k2 ^ 4)
          * (stefan_boltzmann_constant * (1 / D) * surface_area_inner * dt))
    by ring.
  rewrite (Qc_mult_pos_sign _ _ Hc).
  assert (Hk : t2 < t1 <-> k2 < k1).
  { unfold k1, k2. rewrite (Qclt_minus_iff t2 t1).
    rewrite (Qclt_minus_iff (t2 + kelvin_offset) (t1 + kelvin_offset)).
    replace (t1 + kelvin_offset + - (t2 + kelvin_offset))
      with (t1 + - t2) by ring.
    reflexivity. }
  rewrite Hk. unfold Qcminus. rewrite <- (Qclt_minus_iff (k2 ^ 4) (k1 ^ 4)).
  split; intro H.
  - destruct (Qclt_le_dec k2 k1) as [Hlt|Hge]; [exact Hlt|]. exfalso.
    destruct (Qcle_lt_or_eq _ _ Hge) as [Hlt|Heq].
    + pose proof (Qc_pow4_lt k2 k1 H1 Hlt) as H'.
      exact (Qclt_not_le _ _ H (Qclt_le_weak _ _ H')).
    + rewrite Heq in H. exact (Qclt_not_eq _ _ H eq_refl).
  - exact (Qc_pow4_lt k1 k2 H2 H).
Qed.

Lemma inner_radiation_flows_from_hot_to_cold_witness :
  0 < dec 1.98 /\ 0 < dec 2.76 /\ 0 < dec 0.9 /\ 0 < dec 0.6
  /\ dec 0.6 <= 1 /\ 0 < dec 60
  /\ 0 <= dec 20 + kelvin_offset /\ 0 <= dec 0 + kelvin_offset
  /\ exists q : Qc,
       calculate_inner_radiative_heat_flow (dec 1.98) (dec 2.76) (dec 0.9)
         (dec 0.6) (dec 20) (dec 0) (dec 60) = Ok q
       /\ calculate_inner_radiative_heat_flow (dec 1.98) (dec 2.76) (dec 0.9)
            (dec 0.6) (dec 0) (dec 20) (dec 60) = Ok (- q)
       /\ (0 < q <-> dec 0 < dec 20).
Proof.
  assert (H1 : 0 < dec 1.98) by (vm_compute; reflexivity).
  assert (H2 : 0 < dec 2.76) by (vm_compute; reflexivity).
  assert (H3 : 0 < dec 0.9) by (vm_compute; reflexivity).
  assert (H4 : 0 < dec 0.6) by (vm_compute; reflexivity).
  assert (H5 : dec 0.6 <= 1) by (vm_compute; discriminate).
  assert (H6 : 0 < dec 60) by (vm_compute; reflexivity).
  assert (H7 : 0 <= dec 20 + kelvin_offset) by (vm_compute; discriminate).
  assert (H8 : 0 <= dec 0 + kelvin_offset) by (vm_compute; discriminate).
  repeat (split; [assumption|]).
  exact (inner_radiation_flows_from_hot_to_cold (dec 1.98) (dec 2.76) (dec 0.9)
           (dec 0.6) (dec 20) (dec 0) (dec 60) H1 H2 H3 H4 H5 H6 H7 H8).
Defined.
